(** * Message routing between the central channel API and per-agent services

    A shallow embedding of
      - [packages/cli/src/server/api/messaging/channels.ts]
        (the channel router and [MessageBusService]),
      - [transformServerMessageToUiMessage] and the message list of
        [useChannelMessages] in
        [packages/client/src/hooks/use-query-hooks.ts],
      - [channelStorage] of [packages/cli/src/server/upload.ts],
    followed by the properties the specification states about them
    and by further properties of the same code.

    Conventions.
      - A JavaScript string is its sequence of UTF-16 code units.
      - Loosely typed values ([any], request bodies, metadata) are
        [JsVal]; a number is held as an integer, numbers being only
        tested for truthiness here.
      - Asynchronous code is sequential here: every [await] is a call
        that returns or throws before the next statement runs.
      - Collaborators that live outside these files (the agent runtime,
        the [AgentServer] instance, the HTTP client, [validateUuid],
        [createUniqueUuid], ...) are interfaces; every call made through
        them is recorded in a trace. Logger calls are not recorded. *)

From Stdlib Require Import ZArith NArith String Ascii Lia Sorted.
From stdpp Require Import base option list gmap sets.

Set Warnings "-register-all".

Local Open Scope Z_scope.

(** ** JavaScript values *)

Module Js.

Definition jsstring : Type := list N.

Definition lit (s : string) : jsstring :=
  (fun a => N_of_ascii a) <$> list_ascii_of_string s.

Arguments lit : simpl never.

(** [s.startsWith(p)] *)
Fixpoint startsWith (s p : jsstring) : bool :=
  match p, s with
  | [], _ => true
  | _ :: _, [] => false
  | c :: p', d :: s' => bool_decide (c = d) && startsWith s' p'
  end.

(** [s.includes(sub)] *)
Fixpoint includes (s sub : jsstring) : bool :=
  startsWith s sub ||
  match s with
  | [] => false
  | _ :: s' => includes s' sub
  end.

(** [s.substring(0, n)] *)
Definition substring0 (n : nat) (s : jsstring) : jsstring := take n s.

(** WhiteSpace and LineTerminator code units, the ones [trim] strips. *)
Definition is_whitespace (c : N) : bool :=
  (bool_decide (c ∈ [9; 10; 11; 12; 13; 32; 160; 5760; 8232; 8233; 8239;
                     8287; 12288; 65279]%N)
   || ((8192 <=? c) && (c <=? 8202)))%N.

Fixpoint trimStart (s : jsstring) : jsstring :=
  match s with
  | [] => []
  | c :: s' => if is_whitespace c then trimStart s' else s
  end.

Definition trimEnd (s : jsstring) : jsstring :=
  reverse (trimStart (reverse s)).

Definition trim (s : jsstring) : jsstring := trimEnd (trimStart s).

Inductive JsVal : Type :=
| JUndefined
| JNull
| JBool (b : bool)
| JNum (n : Z)
| JStr (s : jsstring)
| JArr (items : list JsVal)
| JObj (fields : list (jsstring * JsVal)).

(** ToBoolean *)
Definition truthy (v : JsVal) : bool :=
  match v with
  | JUndefined | JNull => false
  | JBool b => b
  | JNum n => negb (n =? 0)
  | JStr s => match s with [] => false | _ => true end
  | JArr _ | JObj _ => true
  end.

(** [a || b] *)
Definition or_else (a b : JsVal) : JsVal := if truthy a then a else b.

Fixpoint assoc (k : jsstring) (fields : list (jsstring * JsVal)) : JsVal :=
  match fields with
  | [] => JUndefined
  | (k', v) :: rest => if bool_decide (k' = k) then v else assoc k rest
  end.

(** [v?.k] for the property names read in this code (none of them is a
    built-in property of strings, arrays or numbers). *)
Definition opt_get (v : JsVal) (k : string) : JsVal :=
  match v with
  | JObj fields => assoc (lit k) fields
  | _ => JUndefined
  end.

(** [v === s] for a string [s] *)
Definition is_str (v : JsVal) (s : jsstring) : bool :=
  match v with
  | JStr t => bool_decide (t = s)
  | _ => false
  end.

(** Truthiness of a string that may be absent ([undefined] or [null]). *)
Definition truthy_str (o : option jsstring) : bool :=
  match o with
  | Some (_ :: _) => true
  | _ => false
  end.

(** A thrown error; [err_message] is [error.message]. *)
Record JsError : Type := mkError { err_message : option jsstring }.

Inductive Outcome (A : Type) : Type :=
| Returns (a : A)
| Throws (e : JsError).

Arguments Returns {A} a.
Arguments Throws {A} e.

End Js.

Export Js.

Definition UUID : Type := jsstring.

(** ** Sequential effects with exceptions and a call trace *)

Section Effects.

Context {W C : Type}.

(** A computation runs in a world [W]; it returns or throws, leaves a
    new world, and reports the calls it made, oldest first. *)
Definition M (A : Type) : Type := W -> Outcome A * W * list C.

Definition ret {A} (a : A) : M A := fun w => (Returns a, w, []).

Definition throw {A} (e : JsError) : M A := fun w => (Throws e, w, []).

Definition bind {A B} (m : M A) (k : A -> M B) : M B :=
  fun w =>
    match m w with
    | (Returns a, w1, t1) =>
        match k a w1 with
        | (o, w2, t2) => (o, w2, t1 ++ t2)
        end
    | (Throws e, w1, t1) => (Throws e, w1, t1)
    end.

(** [try { m } catch (e) { h e }] *)
Definition try_catch {A} (m : M A) (h : JsError -> M A) : M A :=
  fun w =>
    match m w with
    | (Returns a, w1, t1) => (Returns a, w1, t1)
    | (Throws e, w1, t1) =>
        match h e w1 with
        | (o, w2, t2) => (o, w2, t1 ++ t2)
        end
    end.

(** A call through an interface: recorded, then performed. *)
Definition call {A} (c : C) (op : W -> Outcome A * W) : M A :=
  fun w =>
    match op w with
    | (o, w1) => (o, w1, [c])
    end.

Definition outcome {A} (r : Outcome A * W * list C) : Outcome A := r.1.1.
Definition world_after {A} (r : Outcome A * W * list C) : W := r.1.2.
Definition trace {A} (r : Outcome A * W * list C) : list C := r.2.

End Effects.

Arguments M : clear implicits.

Notation "'let!' x ':=' m 'in' k" := (bind m (fun x => k))
  (at level 10, x pattern, m at level 100, k at level 200,
   format "'[v' 'let!'  x  ':='  m  'in' '/' k ']'").

(** ** Names imported from [@elizaos/core] *)

(** [validateUuid] returns the identifier or [null]; [createUniqueUuid]
    derives an agent-local identifier from the agent's id and a central
    one; [ChannelType] is an enumeration of strings. *)
Class Core : Type := {
  validateUuid : JsVal -> option UUID;
  createUniqueUuid : UUID -> jsstring -> UUID;
  ChannelType_DM : jsstring;
  ChannelType_GROUP : jsstring
}.

(** ** [MessageBusService] *)

Module Bus.

(** [MessageServiceMessage] *)
Record MessageServiceMessage : Type := {
  id : UUID;
  channel_id : UUID;
  server_id : UUID;
  author_id : UUID;
  author_display_name : option jsstring;
  content : jsstring;
  raw_message : JsVal;
  source_id : option jsstring;
  source_type : option jsstring;
  in_reply_to_message_id : option UUID;
  created_at : Z;
  metadata : JsVal
}.

(** [Content] *)
Record Content : Type := {
  text : option jsstring;
  thought : option jsstring;
  actions : option (list jsstring);
  source : option jsstring;
  attachments : JsVal;
  inReplyTo : option UUID
}.

Record MemoryMetadata : Type := {
  mm_type : jsstring;
  mm_source : jsstring;
  sourceId : option jsstring;
  raw : JsVal
}.

(** [Memory] *)
Record Memory : Type := {
  mem_id : UUID;
  entityId : UUID;
  mem_agentId : UUID;
  roomId : UUID;
  worldId : UUID;
  mem_content : Content;
  createdAt : Z;
  mem_metadata : option MemoryMetadata
}.

(** Argument of [runtime.ensureWorldExists]; [world_metadata] is the
    value spread into the fresh metadata object. *)
Record WorldData : Type := {
  world_id : UUID;
  world_name : JsVal;
  world_agentId : UUID;
  world_serverId : UUID;
  world_metadata : JsVal
}.

(** Argument of [runtime.ensureRoomExists]. *)
Record RoomData : Type := {
  room_id : UUID;
  room_name : JsVal;
  room_agentId : UUID;
  room_worldId : UUID;
  room_channelId : UUID;
  room_serverId : UUID;
  room_source : jsstring;
  room_type : JsVal;
  room_metadata : JsVal
}.

(** Argument of [runtime.createEntity]. *)
Record Entity : Type := {
  entity_id : UUID;
  names : list jsstring;
  entity_agentId : UUID;
  entity_author_id : UUID;
  entity_source : option jsstring
}.

(** What [runtime.getRoom] and [runtime.getWorld] give back, as far as
    this service reads it. *)
Record Room : Type := { channelId : option jsstring; room_kind : JsVal }.
Record World : Type := { serverId : option jsstring }.

(** Body of [POST {CENTRAL_MESSAGE_SERVER_URL}/api/messages/submit]. *)
Record SubmitPayload : Type := {
  p_channel_id : UUID;
  p_server_id : UUID;
  p_author_id : UUID;
  p_content : jsstring;
  p_in_reply_to_message_id : option UUID;
  p_source_type : jsstring;
  p_raw_text : jsstring;
  p_raw_thought : option jsstring;
  p_raw_actions : option (list jsstring);
  p_agent_id : UUID;
  p_agentName : jsstring;
  p_attachments : JsVal;
  p_channelType : JsVal;
  p_isDm : JsVal
}.

(** A [fetch] response whose body is read with [response.json()]. *)
Record Response (Body : Type) : Type := {
  ok : bool;
  json : Outcome Body
}.

Arguments ok {Body} r.
Arguments json {Body} r.

(** [{ success, data }] of the participants endpoint, as the channel
    router answers it: [data] is absent or an array of identifiers.
    What the service does with any other body is the subject of
    [BusUntyped] below. *)
Record ParticipantsBody : Type := {
  pb_success : bool;
  pb_data : option (list jsstring)
}.

(** [{ success, data: { servers } }] of the agent-servers endpoint. *)
Record ServersBody : Type := {
  sb_success : bool;
  sb_servers : option (list UUID)
}.

(** Payload of a [server_agent_update] bus event. *)
Record ServerAgentUpdate : Type := {
  upd_agentId : UUID;
  upd_type : jsstring;
  upd_serverId : UUID
}.

Inductive EventType : Type := MESSAGE_RECEIVED.

(** Calls the service makes on its runtime and over HTTP. *)
Inductive Call : Type :=
| GetParticipants (channel : UUID)
| GetAgentServers (agent : UUID)
| EnsureWorldExists (w : WorldData)
| EnsureRoomExists (r : RoomData)
| GetEntityById (e : UUID)
| CreateEntity (e : Entity)
| GetMemoryById (m : UUID)
| EmitEvent (ev : EventType) (m : Memory)
| GetRoom (r : UUID)
| GetWorld (w : UUID)
| PostSubmit (p : SubmitPayload).

(** The agent runtime and the HTTP client, over a world [W]. *)
Class AgentEnv (W : Type) : Type := {
  agentId : UUID;
  characterName : jsstring;
  ensureWorldExists : WorldData -> W -> Outcome unit * W;
  ensureRoomExists : RoomData -> W -> Outcome unit * W;
  getEntityById : UUID -> W -> Outcome (option Entity) * W;
  createEntity : Entity -> W -> Outcome bool * W;
  getMemoryById : UUID -> W -> Outcome (option Memory) * W;
  emitEvent :
    EventType -> Memory -> (Content -> M W Call (list Memory)) ->
    W -> Outcome unit * W;
  getRoom : UUID -> W -> Outcome (option Room) * W;
  getWorld : UUID -> W -> Outcome (option World) * W;
  fetchParticipants : UUID -> W -> Outcome (Response ParticipantsBody) * W;
  fetchAgentServersApi : UUID -> W -> Outcome (Response ServersBody) * W;
  fetchSubmit : SubmitPayload -> W -> Outcome bool * W
}.

(** The one field of the service that changes after construction. *)
Record Service : Type := { subscribedServers : gset UUID }.

(** How [handleIncomingMessage] left; each exit has a log line of its
    own in the source. *)
Inductive Exit : Type :=
| NotParticipant
| NotSubscribed
| SelfAuthored
| DuplicateMemory
| Emitted
| Failed (e : JsError).

Section Service.

Context `{Core} {W : Type} `{AgentEnv W}.

Local Notation "'Prog'" := (M W Call).

(** [o || d] on strings *)
Definition str_or (o : option jsstring) (d : jsstring) : jsstring :=
  match o with
  | Some (c :: s) => c :: s
  | _ => d
  end.

(** [error.message && error.message.includes(name)] *)
Definition names_constraint (error : JsError) (name : string) : bool :=
  match err_message error with
  | Some (c :: s) => includes (c :: s) (lit name)
  | _ => false
  end.

Definition getChannelParticipants (channelId : UUID) : Prog (list jsstring) :=
  try_catch
    (let! response :=
       call (GetParticipants channelId) (fetchParticipants channelId) in
     if ok response then
       match json response with
       | Throws e => throw e
       | Returns data =>
           match pb_success data, pb_data data with
           | true, Some participants => ret participants
           | _, _ => ret []
           end
       end
     else ret [])
    (fun _ => ret []).


Definition handleServerAgentUpdate
    (data : ServerAgentUpdate) (svc : Service) : Service :=
  if negb (bool_decide (upd_agentId data = agentId)) then svc
  else if bool_decide (upd_type data = lit "agent_added_to_server") then
    {| subscribedServers := {[ upd_serverId data ]} ∪ subscribedServers svc |}
  else if bool_decide (upd_type data = lit "agent_removed_from_server") then
    {| subscribedServers := subscribedServers svc ∖ {[ upd_serverId data ]} |}
  else svc.

Definition validateServerSubscription
    (svc : Service) (message : MessageServiceMessage) : Prog bool :=
  if negb (bool_decide (server_id message ∈ subscribedServers svc))
  then ret false
  else ret true.

Definition validateNotSelfMessage (message : MessageServiceMessage) : Prog bool :=
  if bool_decide (author_id message = agentId) then ret false else ret true.

Definition worldFor (message : MessageServiceMessage) : WorldData :=
  {| world_id := createUniqueUuid agentId (server_id message);
     world_name :=
       or_else (opt_get (metadata message) "serverName")
         (JStr (lit "Server " ++ substring0 8 (server_id message)));
     world_agentId := agentId;
     world_serverId := server_id message;
     world_metadata :=
       or_else (opt_get (metadata message) "serverMetadata") (JObj []) |}.

Definition roomFor (message : MessageServiceMessage) : RoomData :=
  {| room_id := createUniqueUuid agentId (channel_id message);
     room_name :=
       or_else (opt_get (metadata message) "channelName")
         (JStr (lit "Channel " ++ substring0 8 (channel_id message)));
     room_agentId := agentId;
     room_worldId := createUniqueUuid agentId (server_id message);
     room_channelId := channel_id message;
     room_serverId := server_id message;
     room_source := str_or (source_type message) (lit "central-bus");
     room_type :=
       or_else (opt_get (metadata message) "channelType")
         (JStr ChannelType_GROUP);
     room_metadata :=
       or_else (opt_get (metadata message) "channelMetadata") (JObj []) |}.

(** Returns [(agentWorldId, agentRoomId)]. *)
Definition ensureWorldAndRoomExist
    (message : MessageServiceMessage) : Prog (UUID * UUID) :=
  let agentWorldId := createUniqueUuid agentId (server_id message) in
  let agentRoomId := createUniqueUuid agentId (channel_id message) in
  let! _ :=
    try_catch
      (call (EnsureWorldExists (worldFor message))
         (ensureWorldExists (worldFor message)))
      (fun error =>
         if names_constraint error "worlds_pkey" then ret tt
         else throw error) in
  let! _ :=
    try_catch
      (call (EnsureRoomExists (roomFor message))
         (ensureRoomExists (roomFor message)))
      (fun error =>
         if names_constraint error "rooms_pkey" then ret tt
         else throw error) in
  ret (agentWorldId, agentRoomId).

Definition entityFor (message : MessageServiceMessage) : Entity :=
  {| entity_id := createUniqueUuid agentId (author_id message);
     names :=
       [str_or (author_display_name message)
          (lit "User-" ++ substring0 8 (author_id message))];
     entity_agentId := agentId;
     entity_author_id := author_id message;
     entity_source := source_type message |}.

Definition ensureAuthorEntityExists
    (message : MessageServiceMessage) : Prog UUID :=
  let agentAuthorEntityId := createUniqueUuid agentId (author_id message) in
  let! authorEntity :=
    call (GetEntityById agentAuthorEntityId)
      (getEntityById agentAuthorEntityId) in
  let! _ :=
    match authorEntity with
    | None =>
        let! _ :=
          call (CreateEntity (entityFor message))
            (createEntity (entityFor message)) in
        ret tt
    | Some _ => ret tt
    end in
  ret agentAuthorEntityId.

Definition createAgentMemory
    (message : MessageServiceMessage)
    (agentAuthorEntityId agentRoomId agentWorldId : UUID) : Memory :=
  let messageContent :=
    {| text := Some (content message);
       thought := None;
       actions := None;
       source := Some (str_or (source_type message) (lit "central-bus"));
       attachments := opt_get (metadata message) "attachments";
       inReplyTo :=
         if truthy_str (in_reply_to_message_id message) then
           createUniqueUuid agentId <$> in_reply_to_message_id message
         else None |} in
  {| mem_id := createUniqueUuid agentId (id message);
     entityId := agentAuthorEntityId;
     mem_agentId := agentId;
     roomId := agentRoomId;
     worldId := agentWorldId;
     mem_content := messageContent;
     createdAt := created_at message;
     mem_metadata :=
       Some {| mm_type := lit "message";
               mm_source := str_or (source_type message) (lit "central-bus");
               sourceId := Some (id message);
               raw := raw_message message |} |}.

(** [room?.channelId], [world?.serverId], [memory?.metadata?.sourceId] *)
Definition channelIdOf (room : option Room) : option jsstring :=
  match room with
  | Some r => channelId r
  | None => None
  end.

Definition serverIdOf (world : option World) : option jsstring :=
  match world with
  | Some w => serverId w
  | None => None
  end.

Definition sourceIdOf (memory : option Memory) : option jsstring :=
  match memory with
  | Some m =>
      match mem_metadata m with
      | Some md => sourceId md
      | None => None
      end
  | None => None
  end.

(** [content.actions && content.actions.includes('IGNORE')] *)
Definition choseIgnore (c : Content) : bool :=
  match actions c with
  | Some acts => bool_decide (lit "IGNORE" ∈ acts)
  | None => false
  end.

(** [!content.text || content.text.trim() === ''] *)
Definition noText (c : Content) : bool :=
  match text c with
  | Some (ch :: s) => bool_decide (trim (ch :: s) = [])
  | _ => true
  end.

Definition payloadFor
    (channelId serverId : UUID) (c : Content) (txt : jsstring)
    (centralInReplyToRootMessageId : option UUID) (room : Room)
    (originalMessage : option MessageServiceMessage) : SubmitPayload :=
  let originalMetadata :=
    match originalMessage with
    | Some m => metadata m
    | None => JUndefined
    end in
  let channelType :=
    or_else (opt_get originalMetadata "channelType") (room_kind room) in
  {| p_channel_id := channelId;
     p_server_id := serverId;
     p_author_id := agentId;
     p_content := txt;
     p_in_reply_to_message_id := centralInReplyToRootMessageId;
     p_source_type := lit "agent_response";
     p_raw_text := txt;
     p_raw_thought := thought c;
     p_raw_actions := actions c;
     p_agent_id := agentId;
     p_agentName := characterName;
     p_attachments := attachments c;
     p_channelType := channelType;
     p_isDm :=
       or_else (opt_get originalMetadata "isDm")
         (JBool (is_str channelType ChannelType_DM)) |}.

Definition sendAgentResponseToBus
    (agentRoomId agentWorldId : UUID) (c : Content)
    (inReplyToAgentMemoryId : option UUID)
    (originalMessage : option MessageServiceMessage) : Prog unit :=
  try_catch
    (if choseIgnore c then ret tt
     else if noText c then ret tt
     else
       let! room := call (GetRoom agentRoomId) (getRoom agentRoomId) in
       let! world := call (GetWorld agentWorldId) (getWorld agentWorldId) in
       match channelIdOf room, serverIdOf world, room with
       | Some (c1 :: cs), Some (s1 :: ss), Some theRoom =>
           let! centralInReplyToRootMessageId :=
             match inReplyToAgentMemoryId with
             | Some (m1 :: ms) =>
                 let! originalAgentMemory :=
                   call (GetMemoryById (m1 :: ms))
                     (getMemoryById (m1 :: ms)) in
                 match sourceIdOf originalAgentMemory with
                 | Some (i1 :: rest) => ret (Some (i1 :: rest))
                 | _ => ret None
                 end
             | _ => ret None
             end in
           let payloadToServer :=
             payloadFor (c1 :: cs) (s1 :: ss) c (default [] (text c))
               centralInReplyToRootMessageId theRoom originalMessage in
           let! _ :=
             call (PostSubmit payloadToServer) (fetchSubmit payloadToServer) in
           ret tt
       | _, _, _ => ret tt
       end)
    (fun _ => ret tt).

Definition handleIncomingMessage
    (svc : Service) (message : MessageServiceMessage) : Prog Exit :=
  let! participants := getChannelParticipants (channel_id message) in
  if negb (bool_decide (agentId ∈ participants)) then ret NotParticipant
  else
    try_catch
      (let! subscribed := validateServerSubscription svc message in
       if negb subscribed then ret NotSubscribed
       else
         let! notSelf := validateNotSelfMessage message in
         if negb notSelf then ret SelfAuthored
         else
           let! ids := ensureWorldAndRoomExist message in
           let agentWorldId := ids.1 in
           let agentRoomId := ids.2 in
           let! agentAuthorEntityId := ensureAuthorEntityExists message in
           let agentMemory :=
             createAgentMemory message agentAuthorEntityId agentRoomId
               agentWorldId in
           let! existingMemory :=
             call (GetMemoryById (mem_id agentMemory))
               (getMemoryById (mem_id agentMemory)) in
           match existingMemory with
           | Some _ => ret DuplicateMemory
           | None =>
               let callbackForCentralBus (responseContent : Content)
                   : Prog (list Memory) :=
                 let! _ :=
                   sendAgentResponseToBus agentRoomId agentWorldId
                     responseContent (Some (mem_id agentMemory))
                     (Some message) in
                 ret [] in
               let! _ :=
                 call (EmitEvent MESSAGE_RECEIVED agentMemory)
                   (emitEvent MESSAGE_RECEIVED agentMemory
                      callbackForCentralBus) in
               ret Emitted
           end)
      (fun error => ret (Failed error)).

(** The body of the [try] block of [handleIncomingMessage] from the
    point where both validations have passed. *)
Definition afterFilters (message : MessageServiceMessage) : Prog Exit :=
  let! ids := ensureWorldAndRoomExist message in
  let agentWorldId := ids.1 in
  let agentRoomId := ids.2 in
  let! agentAuthorEntityId := ensureAuthorEntityExists message in
  let agentMemory :=
    createAgentMemory message agentAuthorEntityId agentRoomId agentWorldId in
  let! existingMemory :=
    call (GetMemoryById (mem_id agentMemory))
      (getMemoryById (mem_id agentMemory)) in
  match existingMemory with
  | Some _ => ret DuplicateMemory
  | None =>
      let callbackForCentralBus (responseContent : Content)
          : Prog (list Memory) :=
        let! _ :=
          sendAgentResponseToBus agentRoomId agentWorldId responseContent
            (Some (mem_id agentMemory)) (Some message) in
        ret [] in
      let! _ :=
        call (EmitEvent MESSAGE_RECEIVED agentMemory)
          (emitEvent MESSAGE_RECEIVED agentMemory callbackForCentralBus) in
      ret Emitted
  end.

(** *** Reading a trace *)

(** The list [getChannelParticipants] hands to its caller. *)
Definition participantsSeen (channelId : UUID) (w : W) : list jsstring :=
  match outcome (getChannelParticipants channelId w) with
  | Returns participants => participants
  | Throws _ => []
  end.

(** World, room and entity creation. *)
Definition isCreation (c : Call) : bool :=
  match c with
  | EnsureWorldExists _ | EnsureRoomExists _ | CreateEntity _ => true
  | _ => false
  end.

(** A method of the agent runtime, as opposed to an HTTP request. *)
Definition onRuntime (c : Call) : bool :=
  match c with
  | GetParticipants _ | GetAgentServers _ | PostSubmit _ => false
  | _ => true
  end.

Definition isEmit (c : Call) : bool :=
  match c with
  | EmitEvent MESSAGE_RECEIVED _ => true
  | _ => false
  end.

(** Number of [MESSAGE_RECEIVED] emissions in a trace. *)
Definition emissions (t : list Call) : nat :=
  length (List.filter isEmit t).

(** The requests sent to the submit endpoint, in order. *)
Definition posts (t : list Call) : list SubmitPayload :=
  omap (fun c => match c with PostSubmit p => Some p | _ => None end) t.

(** The runtime holds a memory under [i]: [getMemoryById i] finds one. *)
Definition holdsMemory (i : UUID) (w : W) : Prop :=
  exists m, (getMemoryById i w).1 = Returns (Some m).

(** *** What the service expects of its runtime

    The service never calls [createMemory]: storing the memory of a
    delivered message is left to the runtime's [MESSAGE_RECEIVED]
    handlers. *)

(** A [MESSAGE_RECEIVED] emission that returns has stored the memory
    under its id. *)
Definition storesOnReceipt : Prop :=
  forall m cb w,
    (emitEvent MESSAGE_RECEIVED m cb w).1 = Returns tt ->
    holdsMemory (mem_id m) (emitEvent MESSAGE_RECEIVED m cb w).2.

(** The calls the service makes ahead of its duplicate check do not
    lose a stored memory. *)
Definition keepsMemories : Prop :=
  forall i w,
    holdsMemory i w ->
    (forall ch, holdsMemory i (fetchParticipants ch w).2)
    /\ (forall x, holdsMemory i (ensureWorldExists x w).2)
    /\ (forall x, holdsMemory i (ensureRoomExists x w).2)
    /\ (forall x, holdsMemory i (getEntityById x w).2)
    /\ (forall x, holdsMemory i (createEntity x w).2).

(** [MESSAGE_RECEIVED] emissions of two deliveries in a row. *)
Definition emissionsOfTwo
    (svc : Service) (first second : MessageServiceMessage) (w : W) : nat :=
  let r1 := handleIncomingMessage svc first w in
  let r2 := handleIncomingMessage svc second (world_after r1) in
  (emissions (trace r1) + emissions (trace r2))%nat.

(** A delivery gets through the participant, subscription and
    authorship filters. *)
Definition passesFilters
    (svc : Service) (message : MessageServiceMessage) (w : W) : Prop :=
  agentId ∈ participantsSeen (channel_id message) w
  /\ server_id message ∈ subscribedServers svc
  /\ author_id message <> agentId.

(** *** The conditions on a reply, in the specification's words *)

(** [content.actions] contains ["IGNORE"]. *)
Definition saysIgnore (c : Content) : Prop :=
  exists acts, actions c = Some acts /\ lit "IGNORE" ∈ acts.

(** [content.text] is missing or consists only of white space. *)
Definition blank (c : Content) : Prop :=
  match text c with
  | None => True
  | Some t => forallb is_whitespace t = true
  end.

(** The agent's room and world map back to central ids [ch] and [sv]:
    both lookups return, with a non-empty [channelId] and [serverId]. *)
Definition mapsBack
    (agentRoomId agentWorldId : UUID) (w : W) (ch sv : UUID) : Prop :=
  exists room world,
    (getRoom agentRoomId w).1 = Returns (Some room)
    /\ (getWorld agentWorldId (getRoom agentRoomId w).2).1
         = Returns (Some world)
    /\ channelId room = Some ch /\ ch <> []
    /\ serverId world = Some sv /\ sv <> [].

(** The world in which the replied-to memory is looked up. *)
Definition worldAtLookup (agentRoomId agentWorldId : UUID) (w : W) : W :=
  (getWorld agentWorldId (getRoom agentRoomId w).2).2.

(** The lookup of the replied-to memory, when one is made, returns. *)
Definition lookupReturns
    (inReplyToAgentMemoryId : option UUID) (w : W) : Prop :=
  match inReplyToAgentMemoryId with
  | Some (m1 :: ms) => exists o, (getMemoryById (m1 :: ms) w).1 = Returns o
  | _ => True
  end.

(** Both lookups return, but the room has no [channelId] or the
    world no [serverId]. *)
Definition mapsNowhere (agentRoomId agentWorldId : UUID) (w : W) : Prop :=
  exists room world,
    (getRoom agentRoomId w).1 = Returns room
    /\ (getWorld agentWorldId (getRoom agentRoomId w).2).1 = Returns world
    /\ (truthy_str (channelIdOf room) = false
        \/ truthy_str (serverIdOf world) = false).

(** One of the lookups a reply depends on throws: the room, the
    world, or the replied-to memory. *)
Definition lookupThrows
    (agentRoomId agentWorldId : UUID) (inReplyToAgentMemoryId : option UUID)
    (w : W) : Prop :=
  (exists e, (getRoom agentRoomId w).1 = Throws e)
  \/ (exists e, (getWorld agentWorldId (getRoom agentRoomId w).2).1 = Throws e)
  \/ (exists m1 ms e,
        inReplyToAgentMemoryId = Some (m1 :: ms)
        /\ (getMemoryById (m1 :: ms)
              (worldAtLookup agentRoomId agentWorldId w)).1 = Throws e).

End Service.




End Bus.

(** ** Built-ins of the JavaScript platform *)

(** [JSON.parse] throws on malformed text; [Date.parse] and
    [Number.parseInt(_, 10)] give [NaN] ([None]) on text they cannot
    read. *)
Class Platform : Type := {
  JSON_parse : jsstring -> Outcome JsVal;
  Date_parse : jsstring -> option Z;
  parseInt10 : jsstring -> option Z
}.

(** A value found where a date is expected: a number of milliseconds,
    a string, or a [Date] object (held as its milliseconds). *)
Inductive DateLike : Type :=
| DNumber (ms : Z)
| DString (s : jsstring)
| DDate (ms : Z).

(** The largest magnitude of a time value: 8.64e15 milliseconds. *)
Definition maxTimeValue : Z := 8640000000000000.

(** TimeClip: a time value beyond the range is [NaN]. *)
Definition timeClip (ms : Z) : option Z :=
  if Z.abs ms <=? maxTimeValue then Some ms else None.

(** [new Date(d).getTime()]; [None] is [NaN]. *)
Definition getTime `{Platform} (d : DateLike) : option Z :=
  match d with
  | DNumber ms => timeClip ms
  | DString s => Date_parse s
  | DDate ms => timeClip ms
  end.

(** ** The channel router *)

Module Router.

Definition DEFAULT_SERVER_ID : UUID :=
  lit "00000000-0000-0000-0000-000000000000".

(** [req.body] of [POST /central-channels/:channelId/messages] *)
Record MessageBody : Type := {
  author_id : JsVal;
  content : JsVal;
  in_reply_to_message_id : JsVal;
  server_id : JsVal;
  raw_message : JsVal;
  metadata : JsVal;
  source_type : JsVal
}.

(** A channel row, as [getChannelDetails] and [createChannel] return it. *)
Record Channel : Type := {
  ch_id : UUID;
  ch_messageServerId : UUID;
  ch_name : jsstring;
  ch_type : jsstring
}.

Record MessageServer : Type := { ms_id : UUID }.

(** [channelData] of the auto-creation; [cd_spread] is the request
    metadata spread last into [channelData.metadata]. *)
Record ChannelData : Type := {
  cd_id : UUID;
  cd_messageServerId : JsVal;
  cd_name : jsstring;
  cd_type : jsstring;
  cd_sourceType : jsstring;
  cd_created_by : jsstring;
  cd_created_for_user : JsVal;
  cd_created_at : jsstring;
  cd_channel_type : jsstring;
  cd_spread : JsVal
}.

(** [newRootMessageData]; an absent [inReplyToRootMessageId] is [None],
    one that fails validation is [Some None]. *)
Record MessageData : Type := {
  md_channelId : UUID;
  md_authorId : JsVal;
  md_content : JsVal;
  md_inReplyToRootMessageId : option (option UUID);
  md_rawMessage : JsVal;
  md_metadata : JsVal;
  md_sourceType : JsVal
}.

(** A stored central message. *)
Record CentralRootMessage : Type := {
  crm_id : option UUID;
  crm_channelId : UUID;
  crm_authorId : UUID;
  crm_content : JsVal;
  crm_rawMessage : JsVal;
  crm_sourceId : option jsstring;
  crm_sourceType : option jsstring;
  crm_createdAt : DateLike;
  crm_updatedAt : DateLike;
  crm_inReplyToRootMessageId : option UUID;
  crm_metadata : JsVal
}.

(** [MessageService], the payload of [new_message] *)
Record MessageService : Type := {
  id : option UUID;
  channel_id : UUID;
  msg_server_id : JsVal;
  msg_author_id : UUID;
  msg_content : JsVal;
  created_at : option Z;
  msg_source_type : option jsstring;
  msg_raw_message : JsVal;
  msg_metadata : JsVal;
  author_display_name : JsVal;
  msg_in_reply_to_message_id : option UUID;
  source_id : option jsstring
}.

(** Payload of the [messageBroadcast] socket event *)
Record Broadcast : Type := {
  senderId : JsVal;
  senderName : JsVal;
  text : JsVal;
  roomId : UUID;
  serverId : JsVal;
  createdAt : option Z;
  source : option jsstring;
  bc_id : option UUID
}.

(** A message as [GET /central-channels/:channelId/messages] returns
    it: the row spread, then the fields written over it. *)
Record GuiMessage : Type := {
  row : CentralRootMessage;
  gui_created_at : option Z;
  gui_updated_at : option Z;
  gui_metadata_spread : JsVal;
  gui_thought : JsVal;
  gui_actions : JsVal
}.

(** The [error] strings of the responses, with the values the
    templates interpolate. *)
Inductive ErrorText : Type :=
| MissingRequiredFields
    (* 'Missing required fields: channelId, server_id, author_id, content' *)
| ServerDoesNotExist (server_id : JsVal)
    (* `Server ${server_id} does not exist` *)
| FailedToCreateChannel (errorMessage : option jsstring)
    (* `Failed to create channel: ${errorMessage}` *)
| FailedToProcessMessage (* 'Failed to process message' *)
| InvalidChannelId (* 'Invalid channelId' *)
| FailedToFetchMessages (* 'Failed to fetch messages' *)
| InvalidChannelIdFormat (* 'Invalid channelId format' *)
| NoMediaFileProvided (* 'No media file provided' *)
| InvalidFileType (mimetype : jsstring)
    (* `Invalid file type: ${mediaFile.mimetype}` *)
| InvalidFilenameDetected (* 'Invalid filename detected' *)
| FileTooLarge (* 'File too large' *).

Inductive Body (A : Type) : Type :=
| Success (data : A)
| Failure (error : ErrorText).

Arguments Success {A} data.
Arguments Failure {A} error.

(** [res.status(s).json({ success, ... })] *)
Record HttpResponse (A : Type) : Type := {
  status : Z;
  body : Body A
}.

Arguments status {A} h.
Arguments body {A} h.

Inductive BusEvent : Type :=
| new_message (m : MessageService).

(** Calls the router makes on the server instance, the internal bus
    and the socket server. *)
Inductive Call : Type :=
| GetChannelDetails (channel : UUID)
| GetServers
| CreateChannel (data : ChannelData) (participants : list JsVal)
| CreateMessage (data : MessageData)
| GetMessagesForChannel (channel : UUID) (limit : option Z)
    (beforeDate : option Z)
| BusEmit (e : BusEvent)
| SocketEmit (room : UUID) (b : Broadcast).

(** [serverInstance], [internalMessageBus] and the clock, over a world
    [W]. A [limit] of [None] is [NaN]. *)
Class AgentServer (W : Type) : Type := {
  getChannelDetails : UUID -> W -> Outcome (option Channel) * W;
  getServers : W -> Outcome (list MessageServer) * W;
  createChannel : ChannelData -> list JsVal -> W -> Outcome Channel * W;
  createMessage : MessageData -> W -> Outcome CentralRootMessage * W;
  getMessagesForChannel :
    UUID -> option Z -> option Z -> W ->
    Outcome (list CentralRootMessage) * W;
  busEmit : BusEvent -> W -> Outcome unit * W;
  socketIO : W -> bool;
  socketEmit : UUID -> Broadcast -> W -> Outcome unit * W;
  toISOStringNow : W -> jsstring
}.

(** [file] of an upload request, as multer leaves it *)
Record MulterFile : Type := {
  mimetype : jsstring;
  filename : option jsstring;
  originalname : jsstring;
  size : Z
}.

(** [data] of a successful upload response *)
Record UploadData : Type := {
  url : jsstring;
  up_type : jsstring;
  up_filename : jsstring;
  originalName : jsstring;
  up_size : Z
}.

Section Routes.

Context `{Core} `{Platform} {W : Type} `{AgentServer W}.

Local Notation "'Prog'" := (M W Call).

Definition respond {A} (s : Z) (b : Body A) : Prog (HttpResponse A) :=
  ret {| status := s; body := b |}.

(** Reading a property of the world ([serverInstance.socketIO],
    [new Date()]). *)
Definition read {A} (f : W -> A) : Prog A := fun w => (Returns (f w), w, []).

(** [metadata?.isDm || metadata?.channelType === ChannelType.DM ||
     metadata?.channel_type === ChannelType.DM], as tested by [?:] *)
Definition isDmChannel (metadata : JsVal) : bool :=
  truthy (opt_get metadata "isDm")
  || is_str (opt_get metadata "channelType") ChannelType_DM
  || is_str (opt_get metadata "channel_type") ChannelType_DM.

Definition channelDataFor
    (channelIdParam : UUID) (b : MessageBody) (now : jsstring) : ChannelData :=
  let isDm := isDmChannel (metadata b) in
  {| cd_id := channelIdParam;
     cd_messageServerId := server_id b;
     cd_name :=
       if isDm then lit "DM " ++ substring0 8 channelIdParam
       else lit "Chat " ++ substring0 8 channelIdParam;
     cd_type := if isDm then ChannelType_DM else ChannelType_GROUP;
     cd_sourceType := lit "auto_created";
     cd_created_by := lit "gui_auto_creation";
     cd_created_for_user := author_id b;
     cd_created_at := now;
     cd_channel_type := if isDm then ChannelType_DM else ChannelType_GROUP;
     cd_spread := metadata b |}.

Definition participantsFor (b : MessageBody) : list JsVal :=
  if isDmChannel (metadata b) then
    let otherParticipant :=
      or_else (opt_get (metadata b) "targetUserId")
        (opt_get (metadata b) "recipientId") in
    if truthy otherParticipant && truthy_str (validateUuid otherParticipant)
    then [author_id b; otherParticipant]
    else [author_id b]
  else [author_id b].

(** The auto-creation block; [Some r] when it answers the request
    itself. *)
Definition autoCreateChannel
    (channelIdParam : UUID) (b : MessageBody)
    : Prog (option (HttpResponse MessageService)) :=
  try_catch
    (let! servers := call GetServers getServers in
     let serverExists :=
       existsb (fun s => is_str (server_id b) (ms_id s)) servers in
     if negb serverExists then
       let! r := respond 500 (Failure (ServerDoesNotExist (server_id b))) in
       ret (Some r)
     else
       let! now := read toISOStringNow in
       let channelData := channelDataFor channelIdParam b now in
       let participants := participantsFor b in
       let! _ :=
         call (CreateChannel channelData participants)
           (createChannel channelData participants) in
       ret None)
    (fun createError =>
       let! r :=
         respond 500
           (Failure (FailedToCreateChannel (err_message createError))) in
       ret (Some r)).

Definition newRootMessageData
    (channelIdParam : UUID) (b : MessageBody) : MessageData :=
  {| md_channelId := channelIdParam;
     md_authorId := author_id b;
     md_content := content b;
     md_inReplyToRootMessageId :=
       if truthy (in_reply_to_message_id b)
       then Some (validateUuid (in_reply_to_message_id b))
       else None;
     md_rawMessage := raw_message b;
     md_metadata := metadata b;
     md_sourceType := or_else (source_type b) (JStr (lit "eliza_gui")) |}.

Definition messageForBusOf
    (b : MessageBody) (createdRootMessage : CentralRootMessage)
    : MessageService :=
  {| id := crm_id createdRootMessage;
     channel_id := crm_channelId createdRootMessage;
     msg_server_id := server_id b;
     msg_author_id := crm_authorId createdRootMessage;
     msg_content := crm_content createdRootMessage;
     created_at := getTime (crm_createdAt createdRootMessage);
     msg_source_type := crm_sourceType createdRootMessage;
     msg_raw_message := crm_rawMessage createdRootMessage;
     msg_metadata := crm_metadata createdRootMessage;
     author_display_name := opt_get (metadata b) "user_display_name";
     msg_in_reply_to_message_id :=
       crm_inReplyToRootMessageId createdRootMessage;
     source_id := crm_sourceId createdRootMessage |}.

Definition broadcastOf
    (channelIdParam : UUID) (b : MessageBody) (messageForBus : MessageService)
    : Broadcast :=
  {| senderId := author_id b;
     senderName :=
       or_else (opt_get (metadata b) "user_display_name") (JStr (lit "User"));
     text := content b;
     roomId := channelIdParam;
     serverId := server_id b;
     createdAt := created_at messageForBus;
     source := msg_source_type messageForBus;
     bc_id := id messageForBus |}.

(** The guard on the request: [true] when it is answered 400. *)
Definition rejects (channelId : jsstring) (b : MessageBody) : bool :=
  let channelIdParam := validateUuid (JStr channelId) in
  let isValidServerId :=
    is_str (server_id b) DEFAULT_SERVER_ID
    || truthy_str (validateUuid (server_id b)) in
  negb (truthy_str channelIdParam)
  || negb (truthy_str (validateUuid (author_id b)))
  || negb (truthy (content b))
  || negb isValidServerId.

(** [POST /central-channels/:channelId/messages] *)
Definition postMessage
    (channelId : jsstring) (b : MessageBody)
    : Prog (HttpResponse MessageService) :=
  if rejects channelId b then respond 400 (Failure MissingRequiredFields)
  else
    let channelIdParam := default [] (validateUuid (JStr channelId)) in
    try_catch
      (let! channelExists :=
         try_catch
           (let! existingChannel :=
              call (GetChannelDetails channelIdParam)
                (getChannelDetails channelIdParam) in
            ret (bool_decide (is_Some existingChannel)))
           (fun _ => ret false) in
       let! answered :=
         if negb channelExists then autoCreateChannel channelIdParam b
         else ret None in
       match answered with
       | Some r => ret r
       | None =>
           let data := newRootMessageData channelIdParam b in
           let! createdRootMessage :=
             call (CreateMessage data) (createMessage data) in
           if negb (truthy_str (crm_id createdRootMessage)) then
             throw (mkError (Some (lit "Created message does not have an ID")))
           else
             let messageForBus := messageForBusOf b createdRootMessage in
             let! _ :=
               call (BusEmit (new_message messageForBus))
                 (busEmit (new_message messageForBus)) in
             let! hasSocket := read socketIO in
             let! _ :=
               if hasSocket then
                 call
                   (SocketEmit channelIdParam
                      (broadcastOf channelIdParam b messageForBus))
                   (socketEmit channelIdParam
                      (broadcastOf channelIdParam b messageForBus))
               else ret tt in
             respond 201 (Success messageForBus)
       end)
      (fun _ => respond 500 (Failure FailedToProcessMessage)).

(** One step of [messages.map(...)] in the fetch route. *)
Definition toGuiMessage (msg : CentralRootMessage) : Outcome GuiMessage :=
  let parsed :=
    match crm_rawMessage msg with
    | JStr s => JSON_parse s
    | v => Returns v
    end in
  match parsed with
  | Throws e => Throws e
  | Returns rawMessage =>
      Returns
        {| row := msg;
           gui_created_at := getTime (crm_createdAt msg);
           gui_updated_at := getTime (crm_updatedAt msg);
           gui_metadata_spread := crm_metadata msg;
           gui_thought := opt_get rawMessage "thought";
           gui_actions := opt_get rawMessage "actions" |}
  end.

Fixpoint mapOutcome {A B} (f : A -> Outcome B) (l : list A)
    : Outcome (list B) :=
  match l with
  | [] => Returns []
  | a :: l' =>
      match f a with
      | Throws e => Throws e
      | Returns b0 =>
          match mapOutcome f l' with
          | Throws e => Throws e
          | Returns bs => Returns (b0 :: bs)
          end
      end
  end.

(** [GET /central-channels/:channelId/messages]; [limit] and [before]
    are the query parameters, absent when [None]. *)
Definition getMessages
    (channelIdRaw : jsstring) (limit before : option jsstring)
    : Prog (HttpResponse (list GuiMessage)) :=
  let channelId := validateUuid (JStr channelIdRaw) in
  let limitN :=
    if truthy_str limit then parseInt10 (default [] limit) else Some 50 in
  let beforeN :=
    if truthy_str before then parseInt10 (default [] before) else None in
  let beforeDate :=
    match beforeN with
    | Some n => if n =? 0 then None else Some n
    | None => None
    end in
  match channelId with
  | Some (c :: cs) =>
      try_catch
        (let! messages :=
           call (GetMessagesForChannel (c :: cs) limitN beforeDate)
             (getMessagesForChannel (c :: cs) limitN beforeDate) in
         match mapOutcome toGuiMessage messages with
         | Throws e => throw e
         | Returns messagesForGui => respond 200 (Success messagesForGui)
         end)
        (fun _ => respond 500 (Failure FailedToFetchMessages))
  | _ => respond 400 (Failure InvalidChannelId)
  end.

(** *** The conditions on a submission, in the specification's words *)

(** A field that is not there: [undefined] or [null]. *)
Definition missing (v : JsVal) : Prop := v = JUndefined \/ v = JNull.

(** [server_id] is neither the reserved all-zero id nor an identifier. *)
Definition badServerId (b : MessageBody) : Prop :=
  server_id b <> JStr DEFAULT_SERVER_ID /\ validateUuid (server_id b) = None.

(** The channel does not exist: the lookup finds nothing, or throws. *)
Definition channelAbsent (channelIdParam : UUID) (w : W) : Prop :=
  (getChannelDetails channelIdParam w).1 = Returns None
  \/ exists e, (getChannelDetails channelIdParam w).1 = Throws e.

(** [server_id] names one of the servers the instance lists, in the
    world left by the channel lookup. *)
Definition serverKnown (channelIdParam : UUID) (b : MessageBody) (w : W)
    : Prop :=
  exists servers,
    (getServers (getChannelDetails channelIdParam w).2).1 = Returns servers
    /\ exists s, s ∈ servers /\ server_id b = JStr (ms_id s).

(** The worlds a submission with auto-creation passes through. *)
Definition worldAtCreateChannel (channelIdParam : UUID) (w : W) : W :=
  (getServers (getChannelDetails channelIdParam w).2).2.

Definition worldAtCreateMessage
    (channelIdParam : UUID) (b : MessageBody) (w : W) : W :=
  let w2 := worldAtCreateChannel channelIdParam w in
  (createChannel (channelDataFor channelIdParam b (toISOStringNow w2))
     (participantsFor b) w2).2.










(** [x] is called before [y] in [t]. *)
Definition precedes (x y : Call) (t : list Call) : Prop :=
  exists t1 t2 t3, t = t1 ++ x :: t2 ++ y :: t3.

End Routes.



Section Upload.

Context `{Core}.

(** [ALLOWED_MEDIA_MIME_TYPES] of [../shared/constants] *)
Variable ALLOWED_MEDIA_MIME_TYPES : list jsstring.

Definition maxFileSize : Z := 50 * 1024 * 1024.

(** The handler of [POST /channels/:channelId/upload-media], run once
    the rate limiters and [channelUpload.single('file')] have passed the
    request on; [file] is [req.file]. *)
Definition uploadMedia
    (channelIdRaw : jsstring) (file : option MulterFile)
    : HttpResponse UploadData :=
  match validateUuid (JStr channelIdRaw) with
  | Some (c :: cs) =>
      let channelId := c :: cs in
      match file with
      | None => {| status := 400; body := Failure NoMediaFileProvided |}
      | Some mediaFile =>
          if negb (bool_decide (mimetype mediaFile ∈ ALLOWED_MEDIA_MIME_TYPES))
          then {| status := 400;
                  body := Failure (InvalidFileType (mimetype mediaFile)) |}
          else
            match filename mediaFile with
            | Some (f :: fs) =>
                if includes (f :: fs) (lit "..") || includes (f :: fs) (lit "/")
                then {| status := 400; body := Failure InvalidFilenameDetected |}
                else if size mediaFile >? maxFileSize
                then {| status := 400; body := Failure FileTooLarge |}
                else
                  let fileUrl :=
                    lit "/media/uploads/channels/" ++ channelId ++ lit "/"
                    ++ (f :: fs) in
                  {| status := 200;
                     body :=
                       Success
                         {| url := fileUrl;
                            up_type := mimetype mediaFile;
                            up_filename := f :: fs;
                            originalName := originalname mediaFile;
                            up_size := size mediaFile |} |}
            | _ => {| status := 400; body := Failure InvalidFilenameDetected |}
            end
      end
  | _ => {| status := 400; body := Failure InvalidChannelIdFormat |}
  end.

(** *** The conditions on an upload, in the specification's words *)

Definition contains (s sub : jsstring) : Prop :=
  exists before after, s = before ++ sub ++ after.

(** The file is refused: its type is not allowed, its name is missing
    or contains [..] or [/], or it is larger than 50 MB. *)
Definition refused (f : MulterFile) : Prop :=
  mimetype f ∉ ALLOWED_MEDIA_MIME_TYPES
  \/ filename f = None \/ filename f = Some []
  \/ (exists n, filename f = Some n
                /\ (contains n (lit "..") \/ contains n (lit "/")))
  \/ size f > 50 * 1024 * 1024.

End Upload.


End Router.

(** ** The client's view of a fetched message *)

Module Client.

Import Router.

(** [UiMessage] *)
Record UiMessage : Type := {
  id : option UUID;
  text : JsVal;
  name : JsVal;
  senderId : UUID;
  isAgent : bool;
  createdAt : Z;
  attachments : JsVal;
  thought : JsVal;
  actions : JsVal;
  channelId : UUID;
  serverId : JsVal;
  source : option jsstring;
  isLoading : bool
}.

Section UseChannelMessages.

Context `{Platform}.

(** [getEntityId()], [USER_NAME], the hook's [initialServerId]
    ([JUndefined] when not given) and [Date.now()]. *)
Variable currentClientCentralId : UUID.
Variable USER_NAME : jsstring.
Variable initialServerId : JsVal.
Variable now : Z.

(** The client reads the objects the fetch route answered with: [sm.k]
    is the row's [k] unless the route wrote [k] over it; a row has no
    [authorDisplayName] and no [serverId]. *)
Definition transformServerMessageToUiMessage
    (sm : GuiMessage) (serverIdToUse : JsVal) : UiMessage :=
  let isAgent :=
    negb (bool_decide (crm_authorId (row sm) = currentClientCentralId)) in
  let timestamp :=
    match crm_createdAt (row sm) with
    | DNumber ms => ms
    | DString s =>
        match Date_parse s with
        | Some parsedTs => parsedTs
        | None => now
        end
    | DDate ms => ms
    end in
  {| id := crm_id (row sm);
     text := crm_content (row sm);
     name :=
       if isAgent then
         or_else (opt_get (gui_metadata_spread sm) "agentName")
           (or_else (opt_get (gui_metadata_spread sm) "authorDisplayName")
              (or_else JUndefined (JStr (lit "Agent"))))
       else JStr USER_NAME;
     senderId := crm_authorId (row sm);
     isAgent := isAgent;
     createdAt := timestamp;
     attachments := opt_get (gui_metadata_spread sm) "attachments";
     thought := if isAgent then gui_thought sm else JUndefined;
     actions := if isAgent then gui_actions sm else JUndefined;
     channelId := crm_channelId (row sm);
     serverId :=
       or_else serverIdToUse
         (or_else (opt_get (gui_metadata_spread sm) "serverId")
            (or_else JUndefined initialServerId));
     source := crm_sourceType (row sm);
     isLoading := false |}.

(** [response.data.messages.map(...)] of [fetchMessages] *)
Definition newUiMessages (messages : list GuiMessage) : list UiMessage :=
  (fun msg =>
     transformServerMessageToUiMessage msg
       (or_else initialServerId (opt_get (gui_metadata_spread msg) "serverId")))
  <$> messages.

End UseChannelMessages.

End Client.

(** ** A small concrete deployment

    One instance of every interface, used to run the definitions above
    on concrete requests and messages. *)

Module Example.

(** Any 36-unit string passes for an identifier here; the derived
    identifier is the text the real one is hashed from. *)
#[export] Instance core : Core := {
  validateUuid v :=
    match v with
    | JStr s => if (length s =? 36)%nat then Some s else None
    | _ => None
    end;
  createUniqueUuid agent base := base ++ lit ":" ++ agent;
  ChannelType_DM := lit "DM";
  ChannelType_GROUP := lit "GROUP"
}.

#[export] Instance platform : Platform := {
  JSON_parse s := Throws (mkError (Some (lit "Unexpected token")));
  Date_parse s := None;
  parseInt10 s := None
}.

Definition agent1 : UUID := lit "aaaaaaaa-aaaa-aaaa-aaaa-aaaaaaaaaaaa".
Definition user1 : UUID := lit "bbbbbbbb-bbbb-bbbb-bbbb-bbbbbbbbbbbb".
Definition user2 : UUID := lit "dddddddd-dddd-dddd-dddd-dddddddddddd".
Definition channel1 : UUID := lit "cccccccc-cccc-cccc-cccc-cccccccccccc".
Definition server1 : UUID := lit "eeeeeeee-eeee-eeee-eeee-eeeeeeeeeeee".
Definition message1 : UUID := lit "ffffffff-ffff-ffff-ffff-ffffffffffff".

(** The agent side: a runtime that keeps memories in a list. Its
    [MESSAGE_RECEIVED] handlers store the delivered memory when
    [storing] is set; [lookupFails] makes [getMemoryById] throw. *)
Record AgentWorld : Type := {
  participants : list jsstring;
  memories : list Bus.Memory;
  submitted : list Bus.SubmitPayload
}.

Definition findMemory (i : UUID) (w : AgentWorld) : option Bus.Memory :=
  find (fun m => bool_decide (Bus.mem_id m = i)) (memories w).

Definition runtimeWith (storing lookupFails : bool)
    : Bus.AgentEnv AgentWorld := {|
  Bus.agentId := agent1;
  Bus.characterName := lit "Eliza";
  Bus.ensureWorldExists _ w := (Returns tt, w);
  Bus.ensureRoomExists _ w := (Returns tt, w);
  Bus.getEntityById _ w := (Returns None, w);
  Bus.createEntity _ w := (Returns true, w);
  Bus.getMemoryById i w :=
    if lookupFails
    then (Throws (mkError (Some (lit "connection lost"))), w)
    else (Returns (findMemory i w), w);
  Bus.emitEvent _ m _ w :=
    if storing then
      (Returns tt,
       {| participants := participants w;
          memories := m :: memories w;
          submitted := submitted w |})
    else (Returns tt, w);
  Bus.getRoom _ w :=
    (Returns
       (Some {| Bus.channelId := Some channel1;
                Bus.room_kind := JStr (lit "GROUP") |}), w);
  Bus.getWorld _ w := (Returns (Some {| Bus.serverId := Some server1 |}), w);
  Bus.fetchParticipants _ w :=
    (Returns
       {| Bus.ok := true;
          Bus.json :=
            Returns {| Bus.pb_success := true;
                       Bus.pb_data := Some (participants w) |} |}, w);
  Bus.fetchAgentServersApi _ w :=
    (Returns
       {| Bus.ok := true;
          Bus.json :=
            Returns {| Bus.sb_success := true;
                       Bus.sb_servers := Some [server1] |} |}, w);
  Bus.fetchSubmit p w :=
    (Returns true,
     {| participants := participants w;
        memories := memories w;
        submitted := submitted w ++ [p] |})
|}.

(** The runtime as deployed: handlers store, lookups work. *)
Definition runtime : Bus.AgentEnv AgentWorld := runtimeWith true false.

(** A runtime with no handler that stores the delivered memory. *)
Definition forgetfulRuntime : Bus.AgentEnv AgentWorld :=
  runtimeWith false false.

(** A runtime whose memory lookups fail. *)
Definition failingRuntime : Bus.AgentEnv AgentWorld := runtimeWith true true.

Definition agentWorld : AgentWorld :=
  {| participants := [user1; agent1];
     memories := [];
     submitted := [] |}.

(** A channel the agent takes no part in. *)
Definition strangersWorld : AgentWorld :=
  {| participants := [user1; user2]; memories := []; submitted := [] |}.

Definition service : Bus.Service :=
  {| Bus.subscribedServers := {[ server1 ]} |}.

Definition busMessage (author : UUID) : Bus.MessageServiceMessage :=
  {| Bus.id := message1;
     Bus.channel_id := channel1;
     Bus.server_id := server1;
     Bus.author_id := author;
     Bus.author_display_name := None;
     Bus.content := lit "hi";
     Bus.raw_message := JUndefined;
     Bus.source_id := None;
     Bus.source_type := None;
     Bus.in_reply_to_message_id := None;
     Bus.created_at := 1700000000000;
     Bus.metadata := JUndefined |}.

Definition reply (txt : option jsstring) (acts : option (list jsstring))
    : Bus.Content :=
  {| Bus.text := txt;
     Bus.thought := None;
     Bus.actions := acts;
     Bus.source := None;
     Bus.attachments := JUndefined;
     Bus.inReplyTo := None |}.

(** The server side: channels, servers and messages in lists;
    [storeFails] makes [createMessage] throw. *)
Record ServerWorld : Type := {
  channels : list Router.Channel;
  servers : list Router.MessageServer;
  messages : list Router.CentralRootMessage;
  storeFails : bool;
  sockets : bool
}.

Definition storedMessage (d : Router.MessageData) : Router.CentralRootMessage :=
  {| Router.crm_id := Some message1;
     Router.crm_channelId := Router.md_channelId d;
     Router.crm_authorId :=
       match Router.md_authorId d with
       | JStr s => s
       | _ => []
       end;
     Router.crm_content := Router.md_content d;
     Router.crm_rawMessage := Router.md_rawMessage d;
     Router.crm_sourceId := None;
     Router.crm_sourceType :=
       match Router.md_sourceType d with
       | JStr s => Some s
       | _ => None
       end;
     Router.crm_createdAt := DDate 1700000000000;
     Router.crm_updatedAt := DDate 1700000000000;
     Router.crm_inReplyToRootMessageId := None;
     Router.crm_metadata := Router.md_metadata d |}.

#[export] Instance agentServer : Router.AgentServer ServerWorld := {
  Router.getChannelDetails c w :=
    (Returns (find (fun ch => bool_decide (Router.ch_id ch = c)) (channels w)),
     w);
  Router.getServers w := (Returns (servers w), w);
  Router.createChannel d _ w :=
    let ch :=
      {| Router.ch_id := Router.cd_id d;
         Router.ch_messageServerId :=
           match Router.cd_messageServerId d with
           | JStr s => s
           | _ => []
           end;
         Router.ch_name := Router.cd_name d;
         Router.ch_type := Router.cd_type d |} in
    (Returns ch,
     {| channels := ch :: channels w;
        servers := servers w;
        messages := messages w;
        storeFails := storeFails w;
        sockets := sockets w |});
  Router.createMessage d w :=
    if storeFails w
    then (Throws (mkError (Some (lit "database is down"))), w)
    else
      (Returns (storedMessage d),
       {| channels := channels w;
          servers := servers w;
          messages := storedMessage d :: messages w;
          storeFails := storeFails w;
          sockets := sockets w |});
  Router.getMessagesForChannel c _ _ w :=
    (Returns
       (filter (fun m => Router.crm_channelId m = c) (messages w)), w);
  Router.busEmit _ w := (Returns tt, w);
  Router.socketIO w := sockets w;
  Router.socketEmit _ _ w := (Returns tt, w);
  Router.toISOStringNow _ := lit "2025-01-01T00:00:00.000Z"
}.

Definition serverWorld (fail : bool) : ServerWorld :=
  {| channels := [];
     servers := [ {| Router.ms_id := Router.DEFAULT_SERVER_ID |} ];
     messages := [];
     storeFails := fail;
     sockets := true |}.

Definition guiBody (c : JsVal) : Router.MessageBody :=
  {| Router.author_id := JStr user1;
     Router.content := c;
     Router.in_reply_to_message_id := JUndefined;
     Router.server_id := JStr Router.DEFAULT_SERVER_ID;
     Router.raw_message := JUndefined;
     Router.metadata := JUndefined;
     Router.source_type := JUndefined |}.


Definition mediaFile (n : jsstring) (bytes : Z) : Router.MulterFile :=
  {| Router.mimetype := lit "image/png";
     Router.filename := Some n;
     Router.originalname := lit "cat.png";
     Router.size := bytes |}.

End Example.

(** ** Further conditions on the agent's environment *)

Module BusConditions.

Import Bus.

Section Conditions.

Context `{Core} {W : Type} `{AgentEnv W}.

(** The participants endpoint gives no list: the request throws, the
    response is not ok, its body cannot be read, or the body lacks
    [success] or [data]. *)
Definition participantsUnavailable (channelId : UUID) (w : W) : Prop :=
  match (fetchParticipants channelId w).1 with
  | Throws _ => True
  | Returns response =>
      ok response = false
      \/ (exists e, json response = Throws e)
      \/ (exists data,
            json response = Returns data
            /\ (pb_success data = false \/ pb_data data = None))
  end.


(** The error carries a message in which [name] occurs. *)
Definition mentions (error : JsError) (name : string) : Prop :=
  exists m, err_message error = Some m /\ Router.contains m (lit name).

(** A creation call went through, or failed on the named constraint
    only. *)
Definition createdOrExists (o : Outcome unit) (name : string) : Prop :=
  match o with
  | Returns _ => True
  | Throws error => mentions error name
  end.

(** The world in which a delivery that passed the filters starts to
    create. *)
Definition worldAfterFetch (message : MessageServiceMessage) (w : W) : W :=
  (fetchParticipants (channel_id message) w).2.

(** The memory a delivery builds for its message. *)
Definition memoryFor (message : MessageServiceMessage) : Memory :=
  createAgentMemory message
    (createUniqueUuid agentId (author_id message))
    (createUniqueUuid agentId (channel_id message))
    (createUniqueUuid agentId (server_id message)).

End Conditions.

End BusConditions.

(** ** More runtimes for the concrete deployment *)

Module Fixture.

Import Example.

(** The deployed runtime with its participants request, world creation
    and entity lookup replaced. *)
Definition runtimeOver
    (fetchP :
       UUID -> AgentWorld ->
       Outcome (Bus.Response Bus.ParticipantsBody) * AgentWorld)
    (ensureW : Bus.WorldData -> AgentWorld -> Outcome unit * AgentWorld)
    (getE : UUID -> AgentWorld -> Outcome (option Bus.Entity) * AgentWorld)
    : Bus.AgentEnv AgentWorld := {|
  Bus.agentId := agent1;
  Bus.characterName := lit "Eliza";
  Bus.ensureWorldExists := ensureW;
  Bus.ensureRoomExists := Bus.ensureRoomExists (AgentEnv := runtime);
  Bus.getEntityById := getE;
  Bus.createEntity := Bus.createEntity (AgentEnv := runtime);
  Bus.getMemoryById := Bus.getMemoryById (AgentEnv := runtime);
  Bus.emitEvent := Bus.emitEvent (AgentEnv := runtime);
  Bus.getRoom := Bus.getRoom (AgentEnv := runtime);
  Bus.getWorld := Bus.getWorld (AgentEnv := runtime);
  Bus.fetchParticipants := fetchP;
  Bus.fetchAgentServersApi := Bus.fetchAgentServersApi (AgentEnv := runtime);
  Bus.fetchSubmit := Bus.fetchSubmit (AgentEnv := runtime)
|}.

(** The central server cannot be reached. *)
Definition offlineRuntime : Bus.AgentEnv AgentWorld :=
  runtimeOver
    (fun _ w => (Throws (mkError (Some (lit "fetch failed"))), w))
    (Bus.ensureWorldExists (AgentEnv := runtime))
    (Bus.getEntityById (AgentEnv := runtime)).

(** World creation fails with the given error. *)
Definition worldFailing (message : jsstring) : Bus.AgentEnv AgentWorld :=
  runtimeOver
    (Bus.fetchParticipants (AgentEnv := runtime))
    (fun _ w => (Throws (mkError (Some message)), w))
    (Bus.getEntityById (AgentEnv := runtime)).

Definition knownEntity : Bus.Entity :=
  {| Bus.entity_id := lit "entity";
     Bus.names := [lit "Bob"];
     Bus.entity_agentId := agent1;
     Bus.entity_author_id := user1;
     Bus.entity_source := None |}.

(** Every author is already known. *)
Definition acquaintedRuntime : Bus.AgentEnv AgentWorld :=
  runtimeOver
    (Bus.fetchParticipants (AgentEnv := runtime))
    (Bus.ensureWorldExists (AgentEnv := runtime))
    (fun _ w => (Returns (Some knownEntity), w)).

(** A world in which the memory of [busMessage user1] is stored. *)
Definition rememberingWorld : AgentWorld :=
  {| participants := [user1; agent1];
     memories :=
       [BusConditions.memoryFor (H0 := runtime) (busMessage user1)];
     submitted := [] |}.

End Fixture.

(** ** The participants check on an arbitrary response body

    [getChannelParticipants] returns [data.data] as it comes, and
    [handleIncomingMessage] calls [includes] on it ahead of its [try]
    block. [Bus] reads the body as the channel router answers it; here
    the body is whatever JSON the endpoint sends. *)

Module BusUntyped.

(** The participants request, with the body as [response.json()]
    gives it. *)
Class ParticipantsEndpoint (W : Type) : Type := {
  fetchParticipantsJson : UUID -> W -> Outcome (Bus.Response JsVal) * W
}.

Section Untyped.

Context `{Core} {W : Type} `{Bus.AgentEnv W} `{ParticipantsEndpoint W}.

Local Notation "'Prog'" := (M W Bus.Call).

(** [data.k] for a parsed body: reading a property of [null] or
    [undefined] throws. *)
Definition property (data : JsVal) (k : string) : Outcome JsVal :=
  match data with
  | JUndefined | JNull =>
      Throws (mkError (Some (lit "Cannot read properties of null")))
  | _ => Returns (opt_get data k)
  end.

Definition getChannelParticipants (channelId : UUID) : Prog JsVal :=
  try_catch
    (let! response :=
       call (Bus.GetParticipants channelId) (fetchParticipantsJson channelId) in
     if Bus.ok response then
       match Bus.json response with
       | Throws e => throw e
       | Returns data =>
           match property data "success" with
           | Throws e => throw e
           | Returns success =>
               if truthy success && truthy (opt_get data "data")
               then ret (opt_get data "data")
               else ret (JArr [])
           end
       end
     else ret (JArr []))
    (fun _ => ret (JArr [])).

(** [participants.includes(agentId)]: membership in an array,
    occurrence in a string; no other value has an [includes] to
    call. *)
Definition includesAgent (participants : JsVal) : Outcome bool :=
  match participants with
  | JArr items => Returns (existsb (fun i => is_str i Bus.agentId) items)
  | JStr s => Returns (includes s Bus.agentId)
  | _ =>
      Throws (mkError (Some (lit "participants.includes is not a function")))
  end.

Definition handleIncomingMessage
    (svc : Bus.Service) (message : Bus.MessageServiceMessage)
    : Prog Bus.Exit :=
  let! participants := getChannelParticipants (Bus.channel_id message) in
  match includesAgent participants with
  | Throws e => throw e
  | Returns isParticipant =>
      if negb isParticipant then ret Bus.NotParticipant
      else
        try_catch
          (let! subscribed := Bus.validateServerSubscription svc message in
           if negb subscribed then ret Bus.NotSubscribed
           else
             let! notSelf := Bus.validateNotSelfMessage message in
             if negb notSelf then ret Bus.SelfAuthored
             else Bus.afterFilters message)
          (fun error => ret (Bus.Failed error))
  end.

(** *** Reading a response *)

(** The value [getChannelParticipants] hands to its caller. *)
Definition participantsJson (channelId : UUID) (w : W) : JsVal :=
  match outcome (getChannelParticipants channelId w) with
  | Returns participants => participants
  | Throws _ => JArr []
  end.

(** A value without an [includes] method. *)
Definition lacksIncludes (v : JsVal) : Prop :=
  match v with
  | JArr _ | JStr _ => False
  | _ => True
  end.

(** The endpoint answered ok, with a body whose [success] is truthy
    and whose [data] is [v]. *)
Definition answeredWith (channelId : UUID) (w : W) (v : JsVal) : Prop :=
  exists response data,
    (fetchParticipantsJson channelId w).1 = Returns response
    /\ Bus.ok response = true
    /\ Bus.json response = Returns data
    /\ truthy (opt_get data "success") = true
    /\ opt_get data "data" = v.

(** The body [data], read as the channel router answers it, is
    [body]. *)
Definition readsAs (data : JsVal) (body : Bus.ParticipantsBody) : Prop :=
  Bus.pb_success body = truthy (opt_get data "success")
  /\ match Bus.pb_data body with
     | Some participants => opt_get data "data" = JArr (JStr <$> participants)
     | None => truthy (opt_get data "data") = false
     end.

(** The typed participants request of the runtime is the untyped one,
    read. *)
Definition typedView : Prop :=
  forall channelId w,
    (Bus.fetchParticipants channelId w).2 = (fetchParticipantsJson channelId w).2
    /\ match (fetchParticipantsJson channelId w).1,
             (Bus.fetchParticipants channelId w).1 with
       | Throws _, Throws _ => True
       | Returns raw, Returns typed =>
           Bus.ok raw = Bus.ok typed
           /\ match Bus.json raw, Bus.json typed with
              | Throws _, Throws _ => True
              | Returns data, Returns body => readsAs data body
              | _, _ => False
              end
       | _, _ => False
       end.

End Untyped.

End BusUntyped.

(** ** Endpoints for the concrete deployment *)

Module UntypedFixture.

Import Example.

(** The participants endpoint answering ok, with [success] and the
    given [data]. *)
Definition endpointAnswering (data : JsVal)
    : BusUntyped.ParticipantsEndpoint AgentWorld := {|
  BusUntyped.fetchParticipantsJson _ w :=
    (Returns
       {| Bus.ok := true;
          Bus.json :=
            Returns (JObj [(lit "success", JBool true); (lit "data", data)]) |},
     w)
|}.

(** A count where the list of participants should be. *)
Definition countOnly : JsVal := JNum 2.

(** The participants as one comma-separated string. *)
Definition joined : JsVal := JStr (user1 ++ lit "," ++ agent1).

End UntypedFixture.

(** ** Further conditions on a submission and a fetch *)

Module RouterConditions.

Import Router.

Section Conditions.

Context `{Core} `{Platform} {W : Type} `{AgentServer W}.

(** The request passes the guard with [cid] as its channel. *)
Definition accepted (channelId : jsstring) (b : MessageBody) (cid : UUID)
    : Prop :=
  validateUuid (JStr channelId) = Some cid /\ rejects channelId b = false.

(** The server listing returns and holds no server with the request's
    [server_id]. *)
Definition serverUnknown (cid : UUID) (b : MessageBody) (w : W) : Prop :=
  exists servers,
    (getServers (getChannelDetails cid w).2).1 = Returns servers
    /\ forall s, s ∈ servers -> server_id b <> JStr (ms_id s).

(** The auto-creation fails with [e]: the server listing throws it, or
    the server is known and [createChannel] throws it. *)
Definition creationThrows (cid : UUID) (b : MessageBody) (w : W) (e : JsError)
    : Prop :=
  (getServers (getChannelDetails cid w).2).1 = Throws e
  \/ (serverKnown cid b w
      /\ (createChannel
            (channelDataFor cid b
               (toISOStringNow (worldAtCreateChannel cid w)))
            (participantsFor b) (worldAtCreateChannel cid w)).1 = Throws e).

(** A call of the auto-creation block. *)
Definition isAutoCreation (c : Call) : bool :=
  match c with
  | GetServers | CreateChannel _ _ => true
  | _ => false
  end.

Definition isCreateMessage (c : Call) : bool :=
  match c with
  | CreateMessage _ => true
  | _ => false
  end.

Definition isBusEmit (c : Call) : bool :=
  match c with
  | BusEmit _ => true
  | _ => false
  end.

Definition isSocketEmit (c : Call) : bool :=
  match c with
  | SocketEmit _ _ => true
  | _ => false
  end.

(** The submission gets as far as [createMessage]: its channel exists,
    or is absent and has been created on a server the instance
    lists. *)
Definition reachesStore (cid : UUID) (b : MessageBody) (w : W) : Prop :=
  (exists ch, (getChannelDetails cid w).1 = Returns (Some ch))
  \/ (channelAbsent cid w /\ serverKnown cid b w
      /\ exists ch,
           (createChannel
              (channelDataFor cid b
                 (toISOStringNow (worldAtCreateChannel cid w)))
              (participantsFor b) (worldAtCreateChannel cid w)).1
           = Returns ch).

(** The world in which [createMessage] is then called. *)
Definition worldBeforeStore (cid : UUID) (b : MessageBody) (w : W) : W :=
  match (getChannelDetails cid w).1 with
  | Returns (Some _) => (getChannelDetails cid w).2
  | _ => worldAtCreateMessage cid b w
  end.

(** The [limit] and [beforeDate] the fetch route hands to the store. *)
Definition limitAsked (limit : option jsstring) : option Z :=
  match limit with
  | Some (c :: s) => parseInt10 (c :: s)
  | _ => Some 50
  end.

(** No upper time bound is asked for: [before] is absent, empty, not a
    number, or zero. *)
Definition unbounded (before : option jsstring) : Prop :=
  before = None \/ before = Some []
  \/ exists s, before = Some s /\ (parseInt10 s = None \/ parseInt10 s = Some 0).

(** A row whose raw message is text that [JSON.parse] rejects. *)
Definition unparsable (m : CentralRootMessage) : Prop :=
  exists s e, crm_rawMessage m = JStr s /\ JSON_parse s = Throws e.

(** The raw message of a row, read: parsed when it is text. *)
Definition rawRead (m : CentralRootMessage) (v : JsVal) : Prop :=
  match crm_rawMessage m with
  | JStr s => JSON_parse s = Returns v
  | other => v = other
  end.

End Conditions.

End RouterConditions.

(** ** More servers for the concrete deployment *)

Module ServerFixture.

Import Example.

(** The deployed server with channel creation failing. *)
Definition channelsDown : Router.AgentServer ServerWorld := {|
  Router.getChannelDetails := Router.getChannelDetails (AgentServer := agentServer);
  Router.getServers := Router.getServers (AgentServer := agentServer);
  Router.createChannel _ _ w :=
    (Throws (mkError (Some (lit "channels table is locked"))), w);
  Router.createMessage := Router.createMessage (AgentServer := agentServer);
  Router.getMessagesForChannel :=
    Router.getMessagesForChannel (AgentServer := agentServer);
  Router.busEmit := Router.busEmit (AgentServer := agentServer);
  Router.socketIO := Router.socketIO (AgentServer := agentServer);
  Router.socketEmit := Router.socketEmit (AgentServer := agentServer);
  Router.toISOStringNow := Router.toISOStringNow (AgentServer := agentServer)
|}.

Definition channel1Row : Router.Channel :=
  {| Router.ch_id := channel1;
     Router.ch_messageServerId := Router.DEFAULT_SERVER_ID;
     Router.ch_name := lit "Chat cccccccc";
     Router.ch_type := lit "GROUP" |}.

(** A world in which [channel1] exists. *)
Definition establishedWorld : ServerWorld :=
  {| channels := [channel1Row];
     servers := [ {| Router.ms_id := Router.DEFAULT_SERVER_ID |} ];
     messages := [];
     storeFails := false;
     sockets := true |}.

(** A submission naming a server the instance does not list. *)
Definition strayBody : Router.MessageBody :=
  {| Router.author_id := JStr user1;
     Router.content := JStr (lit "hi");
     Router.in_reply_to_message_id := JUndefined;
     Router.server_id := JStr server1;
     Router.raw_message := JUndefined;
     Router.metadata := JUndefined;
     Router.source_type := JUndefined |}.

(** A stored agent reply whose raw message is the given value. *)
Definition agentRow (rawMessage : JsVal) : Router.CentralRootMessage :=
  {| Router.crm_id := Some message1;
     Router.crm_channelId := channel1;
     Router.crm_authorId := agent1;
     Router.crm_content := JStr (lit "hello");
     Router.crm_rawMessage := rawMessage;
     Router.crm_sourceId := None;
     Router.crm_sourceType := Some (lit "agent_response");
     Router.crm_createdAt := DDate 1700000000000;
     Router.crm_updatedAt := DDate 1700000000000;
     Router.crm_inReplyToRootMessageId := None;
     Router.crm_metadata := JUndefined |}.

Definition worldWith (rows : list Router.CentralRootMessage) : ServerWorld :=
  {| channels := [channel1Row];
     servers := [ {| Router.ms_id := Router.DEFAULT_SERVER_ID |} ];
     messages := rows;
     storeFails := false;
     sockets := true |}.

(** The deployed server with a store that hands back messages without
    an id. *)
Definition withoutId (m : Router.CentralRootMessage)
    : Router.CentralRootMessage :=
  {| Router.crm_id := None;
     Router.crm_channelId := Router.crm_channelId m;
     Router.crm_authorId := Router.crm_authorId m;
     Router.crm_content := Router.crm_content m;
     Router.crm_rawMessage := Router.crm_rawMessage m;
     Router.crm_sourceId := Router.crm_sourceId m;
     Router.crm_sourceType := Router.crm_sourceType m;
     Router.crm_createdAt := Router.crm_createdAt m;
     Router.crm_updatedAt := Router.crm_updatedAt m;
     Router.crm_inReplyToRootMessageId := Router.crm_inReplyToRootMessageId m;
     Router.crm_metadata := Router.crm_metadata m |}.

Definition anonymousStore : Router.AgentServer ServerWorld := {|
  Router.getChannelDetails := Router.getChannelDetails (AgentServer := agentServer);
  Router.getServers := Router.getServers (AgentServer := agentServer);
  Router.createChannel := Router.createChannel (AgentServer := agentServer);
  Router.createMessage d w := (Returns (withoutId (storedMessage d)), w);
  Router.getMessagesForChannel :=
    Router.getMessagesForChannel (AgentServer := agentServer);
  Router.busEmit := Router.busEmit (AgentServer := agentServer);
  Router.socketIO := Router.socketIO (AgentServer := agentServer);
  Router.socketEmit := Router.socketEmit (AgentServer := agentServer);
  Router.toISOStringNow := Router.toISOStringNow (AgentServer := agentServer)
|}.

End ServerFixture.

(** ** The channel management routes

    The other handlers of [createChannelsRouter]: the channels of a
    server, channel creation, DM channels, details, participants,
    updates and the three deletions. *)

Module Management.

Import Router.

(** [req.body] of [POST /channels]; the handler passes the same seven
    fields on to [createChannel]. *)
Record ChannelBody : Type := {
  cb_messageServerId : JsVal;
  cb_name : JsVal;
  cb_type : JsVal;
  cb_sourceType : JsVal;
  cb_sourceId : JsVal;
  cb_topic : JsVal;
  cb_metadata : JsVal
}.

(** [req.body] of [POST /central-channels] *)
Record GroupBody : Type := {
  gb_name : JsVal;
  gb_participantCentralUserIds : JsVal;
  gb_type : JsVal;
  gb_server_id : JsVal;
  gb_metadata : JsVal
}.

(** [channelData] of [POST /central-channels]; [gd_metadata_spread] is
    the value spread into its fresh [metadata] object. *)
Record GroupData : Type := {
  gd_messageServerId : JsVal;
  gd_name : JsVal;
  gd_type : JsVal;
  gd_metadata_spread : JsVal
}.

(** [req.body] of [PATCH /central-channels/:channelId], passed on to
    [updateChannel] field by field. *)
Record ChannelUpdates : Type := {
  cu_name : JsVal;
  cu_participantCentralUserIds : JsVal;
  cu_metadata : JsVal
}.

(** The two ways [serverInstance.createChannel] is called. *)
Inductive ChannelArgs : Type :=
| Plain (data : ChannelBody)
| WithParticipants (data : GroupData) (participants : list JsVal).

Inductive ManagementError : Type :=
| InvalidServerId (* 'Invalid serverId' *)
| FailedToFetchChannels (* 'Failed to fetch channels' *)
| MissingChannelFields
    (* 'Missing required fields: messageServerId, name, type' *)
| InvalidMessageServerIdFormat (* 'Invalid messageServerId format' *)
| FailedToCreateTheChannel (* 'Failed to create channel' *)
| MissingTargetOrCurrentUser (* 'Missing targetUserId or currentUserId' *)
| CannotDmOneself (* 'Cannot create DM channel with oneself' *)
| FailedToFindOrCreateDmChannel (* 'Failed to find or create DM channel' *)
| InvalidPayload (* 'Invalid payload. Required: name, server_id ...' *)
| FailedToCreateGroupChannel (details : option jsstring)
    (* 'Failed to create group channel', details: errorMessage *)
| InvalidChannel (* 'Invalid channelId' *)
| ChannelNotFound (* 'Channel not found' *)
| FailedToFetchChannelDetails (* 'Failed to fetch channel details' *)
| FailedToFetchChannelParticipants
    (* 'Failed to fetch channel participants' *)
| InvalidChannelIdOrMessageId (* 'Invalid channelId or messageId' *)
| FailedToDeleteMessage (* 'Failed to delete message' *)
| FailedToClearMessages (* 'Failed to clear messages' *)
| FailedToUpdateChannel (* 'Failed to update channel' *)
| FailedToDeleteChannel (* 'Failed to delete channel' *).

(** What a handler sends: [json({ success: true, data })],
    [json({ success: false, error })], or [send()] with no body. *)
Inductive Answer (A : Type) : Type :=
| Data (data : A)
| Error (error : ManagementError)
| NoBody.

Arguments Data {A} data.
Arguments Error {A} error.
Arguments NoBody {A}.

Record Reply (A : Type) : Type := {
  code : Z;
  answer : Answer A
}.

Arguments code {A} r.
Arguments answer {A} r.

(** Events put on the internal bus. *)
Inductive CleanupEvent : Type :=
| message_deleted (messageId channelId : UUID)
| channel_cleared (channelId : UUID).

(** Events sent to the sockets of a channel. *)
Inductive SocketEvent : Type :=
| messageDeleted (messageId channelId : UUID)
| channelCleared (channelId : UUID)
| channelUpdated (channelId : UUID) (updates : Channel)
| channelDeleted (channelId : UUID).

Inductive Call : Type :=
| GetChannelsForServer (serverId : UUID)
| CreateChannel (args : ChannelArgs)
| GetServerById (serverId : UUID)
| FindOrCreateCentralDmChannel (currentUserId targetUserId dmServerId : UUID)
| GetChannelDetails (channelId : UUID)
| GetChannelParticipants (channelId : UUID)
| DeleteMessage (messageId : UUID)
| ClearChannelMessages (channelId : UUID)
| UpdateChannel (channelId : UUID) (updates : ChannelUpdates)
| GetMessagesForChannel (channelId : UUID)
| DeleteChannel (channelId : UUID)
| BusEmit (e : CleanupEvent)
| SocketEmit (room : UUID) (e : SocketEvent).

(** The methods of [serverInstance] these handlers use, the internal
    bus and the socket server. *)
Class ChannelStore (W : Type) : Type := {
  getChannelsForServer : UUID -> W -> Outcome (list Channel) * W;
  createChannel : ChannelArgs -> W -> Outcome Channel * W;
  getServerById : UUID -> W -> Outcome (option MessageServer) * W;
  findOrCreateCentralDmChannel :
    UUID -> UUID -> UUID -> W -> Outcome Channel * W;
  getChannelDetails : UUID -> W -> Outcome (option Channel) * W;
  getChannelParticipants : UUID -> W -> Outcome (list UUID) * W;
  deleteMessage : UUID -> W -> Outcome unit * W;
  clearChannelMessages : UUID -> W -> Outcome unit * W;
  updateChannel : UUID -> ChannelUpdates -> W -> Outcome Channel * W;
  getMessagesForChannel : UUID -> W -> Outcome (list CentralRootMessage) * W;
  deleteChannel : UUID -> W -> Outcome unit * W;
  busEmit : CleanupEvent -> W -> Outcome unit * W;
  socketIO : W -> bool;
  socketEmit : UUID -> SocketEvent -> W -> Outcome unit * W
}.

Section Routes.

Context `{Core} {W : Type} `{ChannelStore W}.

Local Notation "'Prog'" := (M W Call).

Definition reply {A} (s : Z) (b : Answer A) : Prog (Reply A) :=
  ret {| code := s; answer := b |}.

(** [if (serverInstance.socketIO)
       serverInstance.socketIO.to(room).emit(...)] *)
Definition notify (room : UUID) (e : SocketEvent) : Prog unit :=
  fun w =>
    if socketIO w then call (SocketEmit room e) (socketEmit room e) w
    else ret tt w.

(** [v === DEFAULT_SERVER_ID ? DEFAULT_SERVER_ID : validateUuid(v)] *)
Definition serverIdOrDefault (v : JsVal) : option UUID :=
  if is_str v DEFAULT_SERVER_ID then Some DEFAULT_SERVER_ID
  else validateUuid v.

(** [GET /central-servers/:serverId/channels] *)
Definition serverChannelsRoute (serverIdRaw : jsstring)
    : Prog (Reply (list Channel)) :=
  match serverIdOrDefault (JStr serverIdRaw) with
  | Some (c :: cs) =>
      let serverId := c :: cs in
      try_catch
        (let! channels :=
           call (GetChannelsForServer serverId)
             (getChannelsForServer serverId) in
         reply 200 (Data channels))
        (fun _ => reply 500 (Error FailedToFetchChannels))
  | _ => reply 400 (Error InvalidServerId)
  end.

(** [POST /channels] *)
Definition createChannelRoute (b : ChannelBody) : Prog (Reply Channel) :=
  if negb (truthy (cb_messageServerId b)) || negb (truthy (cb_name b))
     || negb (truthy (cb_type b))
  then reply 400 (Error MissingChannelFields)
  else if negb (truthy_str (validateUuid (cb_messageServerId b)))
  then reply 400 (Error InvalidMessageServerIdFormat)
  else
    try_catch
      (let! channel := call (CreateChannel (Plain b)) (createChannel (Plain b)) in
       reply 201 (Data channel))
      (fun _ => reply 500 (Error FailedToCreateTheChannel)).

(** [GET /dm-channel]; the arguments are the three query parameters. *)
Definition dmChannelRoute (targetUserIdRaw currentUserIdRaw dmServerIdRaw : JsVal)
    : Prog (Reply Channel) :=
  let targetUserId := validateUuid targetUserIdRaw in
  let currentUserId := validateUuid currentUserIdRaw in
  let providedDmServerId := serverIdOrDefault dmServerIdRaw in
  if negb (truthy_str targetUserId) || negb (truthy_str currentUserId)
  then reply 400 (Error MissingTargetOrCurrentUser)
  else if bool_decide (targetUserId = currentUserId)
  then reply 400 (Error CannotDmOneself)
  else
    try_catch
      (let! dmServerIdToUse :=
         if truthy_str providedDmServerId then
           let! existingServer :=
             call (GetServerById (default [] providedDmServerId))
               (getServerById (default [] providedDmServerId)) in
           match existingServer with
           | Some _ => ret providedDmServerId
           | None => ret None
           end
         else ret None in
       let dmServerIdToUse :=
         if negb (truthy_str dmServerIdToUse) then DEFAULT_SERVER_ID
         else default [] dmServerIdToUse in
       let! channel :=
         call
           (FindOrCreateCentralDmChannel (default [] currentUserId)
              (default [] targetUserId) dmServerIdToUse)
           (findOrCreateCentralDmChannel (default [] currentUserId)
              (default [] targetUserId) dmServerIdToUse) in
       reply 200 (Data channel))
      (fun _ => reply 500 (Error FailedToFindOrCreateDmChannel)).

(** [Array.isArray(v)], with the elements. *)
Definition asArray (v : JsVal) : option (list JsVal) :=
  match v with
  | JArr items => Some items
  | _ => None
  end.

(** The guard of [POST /central-channels]: [true] when the payload is
    answered 400. *)
Definition invalidPayload (b : GroupBody) : bool :=
  let isValidServerId :=
    is_str (gb_server_id b) DEFAULT_SERVER_ID
    || truthy_str (validateUuid (gb_server_id b)) in
  negb (truthy (gb_name b))
  || negb isValidServerId
  || match asArray (gb_participantCentralUserIds b) with
     | None => true
     | Some ids => existsb (fun i => negb (truthy_str (validateUuid i))) ids
     end.

(** [type = ChannelType.GROUP] in the destructuring: the default is
    taken when the field is [undefined]. *)
Definition typeOrGroup (b : GroupBody) : JsVal :=
  match gb_type b with
  | JUndefined => JStr ChannelType_GROUP
  | t => t
  end.

Definition groupDataFor (b : GroupBody) : GroupData :=
  {| gd_messageServerId := gb_server_id b;
     gd_name := gb_name b;
     gd_type := typeOrGroup b;
     gd_metadata_spread := or_else (gb_metadata b) (JObj []) |}.

(** [POST /central-channels] *)
Definition centralChannelsRoute (b : GroupBody) : Prog (Reply Channel) :=
  if invalidPayload b then reply 400 (Error InvalidPayload)
  else
    try_catch
      (let channelData := groupDataFor b in
       let participants :=
         default [] (asArray (gb_participantCentralUserIds b)) in
       let! newChannel :=
         call (CreateChannel (WithParticipants channelData participants))
           (createChannel (WithParticipants channelData participants)) in
       reply 201 (Data newChannel))
      (fun error =>
         reply 500 (Error (FailedToCreateGroupChannel (err_message error)))).

(** [GET /central-channels/:channelId/details] *)
Definition detailsRoute (channelIdRaw : jsstring) : Prog (Reply Channel) :=
  match validateUuid (JStr channelIdRaw) with
  | Some (c :: cs) =>
      let channelId := c :: cs in
      try_catch
        (let! channelDetails :=
           call (GetChannelDetails channelId) (getChannelDetails channelId) in
         match channelDetails with
         | None => reply 404 (Error ChannelNotFound)
         | Some details => reply 200 (Data details)
         end)
        (fun _ => reply 500 (Error FailedToFetchChannelDetails))
  | _ => reply 400 (Error InvalidChannel)
  end.

(** [GET /central-channels/:channelId/participants] *)
Definition participantsRoute (channelIdRaw : jsstring)
    : Prog (Reply (list UUID)) :=
  match validateUuid (JStr channelIdRaw) with
  | Some (c :: cs) =>
      let channelId := c :: cs in
      try_catch
        (let! participants :=
           call (GetChannelParticipants channelId)
             (getChannelParticipants channelId) in
         reply 200 (Data participants))
        (fun _ => reply 500 (Error FailedToFetchChannelParticipants))
  | _ => reply 400 (Error InvalidChannel)
  end.

(** [DELETE /central-channels/:channelId/messages/:messageId] *)
Definition deleteMessageRoute (channelIdRaw messageIdRaw : jsstring)
    : Prog (Reply unit) :=
  match validateUuid (JStr channelIdRaw), validateUuid (JStr messageIdRaw) with
  | Some (c :: cs), Some (m :: ms) =>
      let channelId := c :: cs in
      let messageId := m :: ms in
      try_catch
        (let! _ := call (DeleteMessage messageId) (deleteMessage messageId) in
         let! _ :=
           call (BusEmit (message_deleted messageId channelId))
             (busEmit (message_deleted messageId channelId)) in
         let! _ := notify channelId (messageDeleted messageId channelId) in
         reply 204 NoBody)
        (fun _ => reply 500 (Error FailedToDeleteMessage))
  | _, _ => reply 400 (Error InvalidChannelIdOrMessageId)
  end.

(** [DELETE /central-channels/:channelId/messages] *)
Definition clearMessagesRoute (channelIdRaw : jsstring) : Prog (Reply unit) :=
  match validateUuid (JStr channelIdRaw) with
  | Some (c :: cs) =>
      let channelId := c :: cs in
      try_catch
        (let! _ :=
           call (ClearChannelMessages channelId)
             (clearChannelMessages channelId) in
         let! _ :=
           call (BusEmit (channel_cleared channelId))
             (busEmit (channel_cleared channelId)) in
         let! _ := notify channelId (channelCleared channelId) in
         reply 204 NoBody)
        (fun _ => reply 500 (Error FailedToClearMessages))
  | _ => reply 400 (Error InvalidChannel)
  end.

(** [PATCH /central-channels/:channelId] *)
Definition updateChannelRoute (channelIdRaw : jsstring) (b : ChannelUpdates)
    : Prog (Reply Channel) :=
  match validateUuid (JStr channelIdRaw) with
  | Some (c :: cs) =>
      let channelId := c :: cs in
      try_catch
        (let! updatedChannel :=
           call (UpdateChannel channelId b) (updateChannel channelId b) in
         let! _ := notify channelId (channelUpdated channelId updatedChannel) in
         reply 200 (Data updatedChannel))
        (fun _ => reply 500 (Error FailedToUpdateChannel))
  | _ => reply 400 (Error InvalidChannel)
  end.

(** [DELETE /central-channels/:channelId]; the messages are fetched
    for their number, which is logged. *)
Definition deleteChannelRoute (channelIdRaw : jsstring) : Prog (Reply unit) :=
  match validateUuid (JStr channelIdRaw) with
  | Some (c :: cs) =>
      let channelId := c :: cs in
      try_catch
        (let! messages :=
           call (GetMessagesForChannel channelId)
             (getMessagesForChannel channelId) in
         let messageCount := length messages in
         let! _ := call (DeleteChannel channelId) (deleteChannel channelId) in
         let! _ :=
           call (BusEmit (channel_cleared channelId))
             (busEmit (channel_cleared channelId)) in
         let! _ := notify channelId (channelDeleted channelId) in
         reply 204 NoBody)
        (fun _ => reply 500 (Error FailedToDeleteChannel))
  | _ => reply 400 (Error InvalidChannel)
  end.

(** *** Conditions on a request and a run *)

(** The identifier in the path is refused by [validateUuid]. *)
Definition invalidId (raw : jsstring) : Prop :=
  truthy_str (validateUuid (JStr raw)) = false.

(** [raw] is accepted as the identifier [i]. *)
Definition validAs (raw : jsstring) (i : UUID) : Prop :=
  validateUuid (JStr raw) = Some i /\ i <> [].

(** The participant ids are all identifiers. *)
Definition allIdentifiers (ids : list JsVal) : Prop :=
  forall i, i ∈ ids -> truthy_str (validateUuid i) = true.

(** The server id is the reserved one or an identifier. *)
Definition serverIdAcceptable (v : JsVal) : Prop :=
  v = JStr DEFAULT_SERVER_ID \/ truthy_str (validateUuid v) = true.

End Routes.

End Management.

(** ** A store for the management routes *)

Module StoreFixture.

Import Example Management.

(** Messages as pairs of message and channel id; [deleteFails],
    [countFails] and [busFails] make the deletion, the message query
    and the bus emission throw. *)
Record Store : Type := {
  held : list (UUID * UUID);
  knownServers : list UUID;
  deleteFails : bool;
  countFails : bool;
  busFails : bool;
  hasSockets : bool
}.

Definition holding (rows : list (UUID * UUID)) (w : Store) : Store :=
  {| held := rows;
     knownServers := knownServers w;
     deleteFails := deleteFails w;
     countFails := countFails w;
     busFails := busFails w;
     hasSockets := hasSockets w |}.

Definition channelOn (channelId serverId : UUID) (kind : jsstring)
    : Router.Channel :=
  {| Router.ch_id := channelId;
     Router.ch_messageServerId := serverId;
     Router.ch_name := lit "channel";
     Router.ch_type := kind |}.

Definition rowOf (ids : UUID * UUID) : Router.CentralRootMessage :=
  {| Router.crm_id := Some ids.1;
     Router.crm_channelId := ids.2;
     Router.crm_authorId := user1;
     Router.crm_content := JStr (lit "hello");
     Router.crm_rawMessage := JUndefined;
     Router.crm_sourceId := None;
     Router.crm_sourceType := None;
     Router.crm_createdAt := DDate 1700000000000;
     Router.crm_updatedAt := DDate 1700000000000;
     Router.crm_inReplyToRootMessageId := None;
     Router.crm_metadata := JUndefined |}.

#[export] Instance channelStore : ChannelStore Store := {
  getChannelsForServer _ w := (Returns [], w);
  createChannel args w :=
    (Returns
       (channelOn channel1
          match args with
          | Plain data =>
              match cb_messageServerId data with JStr s => s | _ => [] end
          | WithParticipants data _ =>
              match gd_messageServerId data with JStr s => s | _ => [] end
          end
          (lit "GROUP")),
     w);
  getServerById s w :=
    (Returns
       (if bool_decide (s ∈ knownServers w) then Some {| Router.ms_id := s |}
        else None),
     w);
  findOrCreateCentralDmChannel _ _ s w :=
    (Returns (channelOn channel1 s (lit "DM")), w);
  getChannelDetails _ w := (Returns None, w);
  getChannelParticipants _ w := (Returns [], w);
  deleteMessage m w :=
    if deleteFails w
    then (Throws (mkError (Some (lit "database is down"))), w)
    else
      (Returns tt,
       holding (List.filter (fun r => negb (bool_decide (r.1 = m))) (held w)) w);
  clearChannelMessages c w :=
    (Returns tt,
     holding (List.filter (fun r => negb (bool_decide (r.2 = c))) (held w)) w);
  updateChannel c _ w := (Returns (channelOn c server1 (lit "GROUP")), w);
  getMessagesForChannel c w :=
    if countFails w
    then (Throws (mkError (Some (lit "database is down"))), w)
    else
      (Returns
         (rowOf <$> List.filter (fun r => bool_decide (r.2 = c)) (held w)),
       w);
  deleteChannel c w :=
    (Returns tt,
     holding (List.filter (fun r => negb (bool_decide (r.2 = c))) (held w)) w);
  busEmit _ w :=
    if busFails w
    then (Throws (mkError (Some (lit "listener failed"))), w)
    else (Returns tt, w);
  socketIO w := hasSockets w;
  socketEmit _ _ w := (Returns tt, w)
}.

Definition store (deleteFails countFails busFails : bool) : Store :=
  {| held := [(message1, channel1)];
     knownServers := [server1];
     deleteFails := deleteFails;
     countFails := countFails;
     busFails := busFails;
     hasSockets := true |}.

Definition groupBody (participants : JsVal) (kind : JsVal) : GroupBody :=
  {| gb_name := JStr (lit "friends");
     gb_participantCentralUserIds := participants;
     gb_type := kind;
     gb_server_id := JStr Router.DEFAULT_SERVER_ID;
     gb_metadata := JUndefined |}.

End StoreFixture.

(** ** Upload storage: [channelStorage] of [upload.ts] *)

Module Storage.

(** The decimal digits of a natural number, most significant first;
    [fuel] bounds the number of digits. *)
Fixpoint digitsOf (fuel : nat) (n : N) (acc : jsstring) : jsstring :=
  match fuel with
  | O => acc
  | S fuel' =>
      let acc' := (48 + n mod 10)%N :: acc in
      if (n / 10 =? 0)%N then acc' else digitsOf fuel' (n / 10)%N acc'
  end.

(** [String(n)] for an integer [n] of magnitude below 10^21, as
    [Date.now()] and [Math.round(Math.random() * 1e9)] are. *)
Definition decimalN (n : N) : jsstring :=
  digitsOf (S (N.to_nat (N.size n))) n [].

Definition decimal (n : Z) : jsstring :=
  if n <? 0 then 45%N :: decimalN (Z.to_N (- n)) else decimalN (Z.to_N n).

(** The number a string of decimal digits denotes. *)
Definition valueOf (s : jsstring) : N :=
  fold_left (fun a c => (a * 10 + (c - 48))%N) s 0%N.

(** [s.replace(/\s+/g, '_')]: every maximal run of white space becomes
    one underscore; [inRun] tells that the unit before was white
    space. *)
Fixpoint squeeze (inRun : bool) (s : jsstring) : jsstring :=
  match s with
  | [] => []
  | c :: s' =>
      if is_whitespace c then
        if inRun then squeeze true s' else 95%N :: squeeze true s'
      else c :: squeeze false s'
  end.

Definition replaceWhitespace (s : jsstring) : jsstring := squeeze false s.

(** The [filename] callback, with [Date.now()] and
    [Math.round(Math.random() * 1e9)] as [now] and [rnd]. *)
Definition storedName (now rnd : Z) (originalname : jsstring) : jsstring :=
  let uniqueSuffix := decimal now ++ lit "-" ++ decimal rnd in
  uniqueSuffix ++ lit "-" ++ replaceWhitespace originalname.

(** What multer hands on as [originalname]: the last component of
    the name the client sent, which holds no [/]. *)
Definition baseName (s : jsstring) : Prop := includes s (lit "/") = false.

(** [req.file] as multer's disk storage leaves it, for an upload whose
    base name is [originalname]: [filename] is the name the [filename]
    callback chose. *)
Definition storedFile (now rnd : Z) (mimetype originalname : jsstring)
    (size : Z) : Router.MulterFile :=
  {| Router.mimetype := mimetype;
     Router.filename := Some (storedName now rnd originalname);
     Router.originalname := originalname;
     Router.size := size |}.

Inductive FsCall : Type :=
| ExistsSync (path : jsstring)
| MkdirSync (path : jsstring).

(** [fs], [path.join] and [process.cwd()] *)
Class FileSystem (W : Type) : Type := {
  cwd : W -> jsstring;
  path_join : list jsstring -> jsstring;
  existsSync : jsstring -> W -> bool;
  mkdirSync : jsstring -> W -> Outcome unit * W
}.

Inductive DestinationError : Type :=
| ChannelIdRequired (* 'Channel ID is required for channel file uploads' *)
| InvalidChannelIdFormat (* 'Invalid channel ID format' *).

(** What the [destination] callback hands to [cb]. *)
Inductive Destination : Type :=
| cbError (e : DestinationError)
| cbDirectory (uploadDir : jsstring).

Section ChannelStorage.

Context `{Core} {W : Type} `{FileSystem W}.

(** The directory of a channel's uploads. *)
Definition uploadDirFor (channelId : jsstring) (w : W) : jsstring :=
  path_join [cwd w; lit "data"; lit "uploads"; lit "channels"; channelId].

(** The [destination] callback of [channelStorage]; [channelId] is
    [req.params?.channelId]. *)
Definition destination (channelId : option jsstring)
    : M W FsCall Destination :=
  if negb (truthy_str channelId) then ret (cbError ChannelIdRequired)
  else if negb (truthy_str (validateUuid (JStr (default [] channelId))))
  then ret (cbError InvalidChannelIdFormat)
  else
    fun w =>
      let uploadDir := uploadDirFor (default [] channelId) w in
      (let! present :=
         call (ExistsSync uploadDir)
           (fun w' => (Returns (existsSync uploadDir w'), w')) in
       let! _ :=
         if negb present
         then call (MkdirSync uploadDir) (mkdirSync uploadDir)
         else ret tt in
       ret (cbDirectory uploadDir)) w.

End ChannelStorage.

(** A unit that is a decimal digit or the minus sign. *)
Definition isDigitOrMinus (c : N) : Prop :=
  c = 45%N \/ (48 <= c <= 57)%N.

End Storage.

(** ** A disk for the upload storage *)

Module DiskFixture.

Import Example Storage.

(** The directories that exist; [readOnly] makes [mkdirSync] throw. *)
Record Disk : Type := {
  directories : list jsstring;
  readOnly : bool
}.

Fixpoint joinWithSlash (parts : list jsstring) : jsstring :=
  match parts with
  | [] => []
  | [p] => p
  | p :: rest => p ++ lit "/" ++ joinWithSlash rest
  end.

#[export] Instance disk : FileSystem Disk := {
  cwd _ := lit "/srv/eliza";
  path_join := joinWithSlash;
  existsSync p w := bool_decide (p ∈ directories w);
  mkdirSync p w :=
    if readOnly w
    then (Throws (mkError (Some (lit "EROFS: read-only file system"))), w)
    else (Returns tt, {| directories := p :: directories w;
                         readOnly := readOnly w |})
}.

Definition emptyDisk : Disk := {| directories := []; readOnly := false |}.

Definition channel1Dir : jsstring :=
  lit "/srv/eliza/data/uploads/channels/cccccccc-cccc-cccc-cccc-cccccccccccc".

End DiskFixture.

(** ** The message list of [useChannelMessages]

    The updaters the hook passes to [setMessages]: after a fetch, and
    in [addMessage] and [removeMessage]. *)

Module Hooks.

Import Client.

Section MapOfEntries.

Context {V : Type}.

(** [map.set(k, v)] on a [Map] held as its entries in insertion order:
    a key that is there keeps its place and takes the new value, a new
    key goes last. *)
Fixpoint mapSet (k : option UUID) (v : V) (m : list (option UUID * V))
    : list (option UUID * V) :=
  match m with
  | [] => [(k, v)]
  | (k', v') :: m' =>
      if bool_decide (k' = k) then (k, v) :: m'
      else (k', v') :: mapSet k v m'
  end.

(** [new Map(entries)] *)
Definition newMap (entries : list (option UUID * V))
    : list (option UUID * V) :=
  foldl (fun m e => mapSet e.1 e.2 m) [] entries.

End MapOfEntries.

(** [Array.from(new Map(combined.map((item) => [item.id, item])).values())] *)
Definition uniqueMessages (combined : list UiMessage) : list UiMessage :=
  snd <$> newMap ((fun item => (id item, item)) <$> combined).

(** [list.sort((a, b) => a.createdAt - b.createdAt)]. The sort is
    stable: messages of equal [createdAt] keep their order. *)
Fixpoint insertByCreatedAt (x : UiMessage) (l : list UiMessage)
    : list UiMessage :=
  match l with
  | [] => [x]
  | y :: l' =>
      if createdAt x <=? createdAt y then x :: y :: l'
      else y :: insertByCreatedAt x l'
  end.

Definition sortByCreatedAt (l : list UiMessage) : list UiMessage :=
  foldr insertByCreatedAt [] l.

(** Truthiness of a number that may be absent. *)
Definition truthy_num (o : option Z) : bool :=
  match o with
  | Some n => negb (n =? 0)
  | None => false
  end.

(** [beforeTimestamp ? [...newUiMessages, ...prev] : newUiMessages] *)
Definition combinedWith (beforeTimestamp : option Z)
    (newUiMessages prev : list UiMessage) : list UiMessage :=
  if truthy_num beforeTimestamp then newUiMessages ++ prev else newUiMessages.

(** The updater of [fetchMessages]. *)
Definition mergeFetched (beforeTimestamp : option Z)
    (newUiMessages prev : list UiMessage) : list UiMessage :=
  let combined := combinedWith beforeTimestamp newUiMessages prev in
  sortByCreatedAt (uniqueMessages combined).

(** [l.findIndex(p)], [None] for [-1] *)
Fixpoint findIndex {A} (p : A -> bool) (l : list A) : option nat :=
  match l with
  | [] => None
  | x :: l' => if p x then Some O else S <$> findIndex p l'
  end.

(** The updater of [addMessage]. *)
Definition addMessage (newMessage : UiMessage) (prev : list UiMessage)
    : list UiMessage :=
  match findIndex (fun m => bool_decide (id m = id newMessage)) prev with
  | Some existingIndex =>
      sortByCreatedAt (<[existingIndex := newMessage]> prev)
  | None => sortByCreatedAt (prev ++ [newMessage])
  end.

(** The updater of [removeMessage]. *)
Definition removeMessage (messageId : jsstring) (prev : list UiMessage)
    : list UiMessage :=
  List.filter (fun m => negb (bool_decide (id m = Some messageId))) prev.

(** *** Conditions on a message list *)

(** Oldest first. *)
Definition ascending (l : list UiMessage) : Prop :=
  StronglySorted (fun a b => createdAt a <= createdAt b) l.

(** No two messages share an id. *)
Definition uniqueIds (l : list UiMessage) : Prop := NoDup (id <$> l).

(** [m] is the last message of [l] that has its id. *)
Definition lastWithItsId (l : list UiMessage) (m : UiMessage) : Prop :=
  last (List.filter (fun x => bool_decide (id x = id m)) l) = Some m.

End Hooks.

(** ** A conversation for the client's message list *)

Module Conversation.

Import Example Client.

Definition uiMessage (i : UUID) (t : Z) (body : string) : UiMessage :=
  {| id := Some i;
     text := JStr (lit body);
     name := JStr (lit "Agent");
     senderId := agent1;
     isAgent := true;
     createdAt := t;
     attachments := JUndefined;
     thought := JUndefined;
     actions := JUndefined;
     channelId := channel1;
     serverId := JStr server1;
     source := None;
     isLoading := false |}.

(** Two held messages. *)
Definition held : list UiMessage :=
  [uiMessage message1 10 "first"; uiMessage user2 20 "second"].

(** An older page that brings [message1] once more. *)
Definition olderPage : list UiMessage :=
  [uiMessage user1 5 "earlier"; uiMessage message1 10 "first, as stored"].

End Conversation.
(** * Properties *)

(** ** JavaScript strings *)

Lemma trimStart_nil_iff (s : jsstring) :
  trimStart s = [] <-> forallb is_whitespace s = true.
Proof.
  induction s as [|c s IH]; simpl; [tauto|].
  destruct (is_whitespace c); simpl; [exact IH|].
  split; intro Hc; discriminate Hc.
Qed.

Lemma trimStart_all_whitespace (s : jsstring) :
  forallb is_whitespace s = true -> trimStart s = [].
Proof. apply trimStart_nil_iff. Qed.

(** [s.trim() === ''] exactly when every code unit of [s] is white
    space. *)
Lemma trim_empty_iff (s : jsstring) :
  trim s = [] <-> forallb is_whitespace s = true.
Proof.
  unfold trim, trimEnd. split.
  - intros Ht. apply trimStart_nil_iff.
    apply (f_equal reverse) in Ht. rewrite reverse_involutive in Ht.
    change (reverse []) with (@nil N) in Ht.
    destruct (trimStart s) as [|c r] eqn:Hs; [reflexivity|].
    exfalso.
    assert (Hlast : exists r' d, c :: r = d :: r' /\ is_whitespace d = false).
    { clear Ht. induction s as [|d s IH]; simpl in Hs; [discriminate|].
      destruct (is_whitespace d) eqn:Hd; [auto|].
      inversion Hs; subst. eauto. }
    destruct Hlast as (r' & d & Heq & Hd). rewrite Heq in Ht.
    clear Heq Hs.
    assert (Hall : forall l, trimStart (reverse l) = [] ->
                     forallb is_whitespace l = true).
    { intros l Hl. apply trimStart_nil_iff in Hl.
      rewrite forallb_forall in *. intros x Hx. apply Hl.
      apply list_elem_of_In. rewrite elem_of_reverse.
      apply list_elem_of_In. exact Hx. }
    apply Hall in Ht. simpl in Ht. rewrite Hd in Ht. discriminate.
  - intros Hs. rewrite (trimStart_all_whitespace s Hs). reflexivity.
Qed.

Lemma startsWith_spec (s p : jsstring) :
  startsWith s p = true <-> exists after, s = p ++ after.
Proof.
  revert s. induction p as [|c p IH]; intros s; simpl.
  - destruct s; split; eauto.
  - destruct s as [|d s]; simpl.
    + split; [discriminate|]. intros [a Ha]. discriminate.
    + rewrite andb_true_iff, bool_decide_eq_true, IH. split.
      * intros [-> [a ->]]. eauto.
      * intros [a Ha]. injection Ha as -> ->. eauto.
Qed.

(** [s.includes(sub)] holds exactly when [sub] occurs in [s]. *)
Lemma includes_spec (s sub : jsstring) :
  includes s sub = true <->
  exists before after, s = before ++ sub ++ after.
Proof.
  induction s as [|d s IH]; cbn [includes].
  - rewrite orb_false_r, startsWith_spec. split.
    + intros [a Ha]. exists [], a. exact Ha.
    + intros (bf & a & Ha). destruct bf as [|x bf]; [eauto|discriminate].
  - rewrite orb_true_iff, startsWith_spec, IH. split.
    + intros [[a Ha]|(bf & a & Ha)].
      * exists [], a. exact Ha.
      * exists (d :: bf), a. simpl. rewrite Ha. reflexivity.
    + intros (bf & a & Ha). destruct bf as [|x bf]; simpl in Ha.
      * left. eauto.
      * right. injection Ha as -> ->. eauto.
Qed.


(** ** The message bus service *)

Section BusProperties.

Import Bus.

Context `{Core} {W : Type} `{AgentEnv W}.

(** [getChannelParticipants] never throws and makes one request. *)
Lemma getChannelParticipants_run (ch : UUID) (w : W) :
  getChannelParticipants ch w =
    (Returns (participantsSeen ch w), (fetchParticipants ch w).2,
     [GetParticipants ch]).
Proof.
  unfold participantsSeen, outcome.
  unfold getChannelParticipants, try_catch, bind, call, ret, throw.
  destruct (fetchParticipants ch w) as [[r|e] w1]; simpl; [|reflexivity].
  destruct (ok r); simpl; [|reflexivity].
  destruct (json r) as [b|e]; simpl; [|reflexivity].
  destruct (pb_success b), (pb_data b); reflexivity.
Qed.

(** [handleIncomingMessage], with the tail of its [try] block named. *)
Lemma handleIncomingMessage_eq
    (svc : Service) (message : MessageServiceMessage) :
  handleIncomingMessage svc message =
    (let! participants := getChannelParticipants (channel_id message) in
     if negb (bool_decide (agentId ∈ participants)) then ret NotParticipant
     else
       try_catch
         (let! subscribed := validateServerSubscription svc message in
          if negb subscribed then ret NotSubscribed
          else
            let! notSelf := validateNotSelfMessage message in
            if negb notSelf then ret SelfAuthored
            else afterFilters message)
         (fun error => ret (Failed error))).
Proof. reflexivity. Qed.

(** [handleIncomingMessage] as a cascade: the three filters, then
    [afterFilters] with its exceptions caught. *)
Lemma handleIncomingMessage_run
    (svc : Service) (message : MessageServiceMessage) (w : W) :
  handleIncomingMessage svc message w =
    let w1 := (fetchParticipants (channel_id message) w).2 in
    let t1 := [GetParticipants (channel_id message)] in
    if negb (bool_decide (agentId ∈ participantsSeen (channel_id message) w))
    then (Returns NotParticipant, w1, t1)
    else if negb (bool_decide (server_id message ∈ subscribedServers svc))
    then (Returns NotSubscribed, w1, t1)
    else if bool_decide (author_id message = agentId)
    then (Returns SelfAuthored, w1, t1)
    else
      match afterFilters message w1 with
      | (Returns e, w2, t2) => (Returns e, w2, t1 ++ t2)
      | (Throws err, w2, t2) => (Returns (Failed err), w2, t1 ++ t2)
      end.
Proof.
  rewrite handleIncomingMessage_eq. unfold bind at 1.
  rewrite getChannelParticipants_run. cbv zeta.
  destruct (bool_decide (agentId ∈ participantsSeen (channel_id message) w));
    cbn [negb]; [|reflexivity].
  unfold try_catch, bind at 1, validateServerSubscription.
  destruct (bool_decide (server_id message ∈ subscribedServers svc));
    cbn [negb]; [|reflexivity].
  unfold ret at 1. cbn [negb]. unfold bind at 1, validateNotSelfMessage.
  destruct (bool_decide (author_id message = agentId)); cbn [negb];
    [reflexivity|].
  unfold ret at 1. cbn [negb].
  destruct (afterFilters message (fetchParticipants (channel_id message) w).2)
    as [[[e|err] w2] t2]; [reflexivity|].
  cbn. rewrite app_nil_r. reflexivity.
Qed.

(** A message stopped by one of the three filters: the participants
    request is the only call, and nothing reaches the runtime. *)
Lemma handleIncomingMessage_filtered
    (svc : Service) (message : MessageServiceMessage) (w : W) :
  agentId ∉ participantsSeen (channel_id message) w
  \/ server_id message ∉ subscribedServers svc
  \/ author_id message = agentId ->
  exists e,
    handleIncomingMessage svc message w
      = (Returns e, (fetchParticipants (channel_id message) w).2,
         [GetParticipants (channel_id message)])
    /\ (e = NotParticipant \/ e = NotSubscribed \/ e = SelfAuthored)
    /\ (agentId ∉ participantsSeen (channel_id message) w ->
        e = NotParticipant)
    /\ (server_id message ∉ subscribedServers svc -> e <> SelfAuthored).
Proof.
  intros Hdrop. rewrite handleIncomingMessage_run. cbv zeta.
  destruct (decide (agentId ∈ participantsSeen (channel_id message) w))
    as [Hin|Hout].
  - rewrite (bool_decide_eq_true_2 _ Hin). cbn [negb].
    destruct (decide (server_id message ∈ subscribedServers svc))
      as [Hsub|Hnot].
    + rewrite (bool_decide_eq_true_2 _ Hsub). cbn [negb].
      destruct (decide (author_id message = agentId)) as [Hself|Hother].
      * rewrite (bool_decide_eq_true_2 _ Hself).
        exists SelfAuthored. split; [reflexivity|].
        split; [auto|]. split; intros Hc; contradiction.
      * exfalso. destruct Hdrop as [Hd|[Hd|Hd]]; contradiction.
    + rewrite (bool_decide_eq_false_2 _ Hnot). cbn [negb].
      exists NotSubscribed. split; [reflexivity|].
      split; [auto|]. split; intros Hc; [contradiction|discriminate].
  - rewrite (bool_decide_eq_false_2 _ Hout). cbn [negb].
    exists NotParticipant. split; [reflexivity|].
    split; [auto|]. split; intros Hc; [reflexivity|discriminate].
Qed.

(** C3. A message for a channel whose participant list, as the service
    gets it from the participants endpoint, lacks the agent's id, is
    dropped with exit [NotParticipant]; the only call made is the
    participants request, so neither [ensureWorldExists] nor
    [ensureRoomExists] nor [createEntity] is called. *)
Theorem C3_not_participant_stops_before_creation
    (svc : Service) (message : MessageServiceMessage) (w : W) :
  agentId ∉ participantsSeen (channel_id message) w ->
  outcome (handleIncomingMessage svc message w) = Returns NotParticipant
  /\ trace (handleIncomingMessage svc message w)
       = [GetParticipants (channel_id message)]
  /\ Forall (fun c => isCreation c = false)
       (trace (handleIncomingMessage svc message w)).
Proof.
  intros Hout.
  destruct (handleIncomingMessage_filtered svc message w (or_introl Hout))
    as (e & Hrun & _ & He & _).
  rewrite Hrun, (He Hout). unfold outcome, trace. simpl.
  split; [reflexivity|]. split; [reflexivity|]. repeat constructor.
Qed.

(** C2. A message whose [author_id] is the agent's own id never
    reaches the runtime: the participants request is the only call and
    the world is left as that request left it, so no memory is created
    and no [MESSAGE_RECEIVED] event is emitted. *)
Theorem C2_self_message_suppressed
    (svc : Service) (message : MessageServiceMessage) (w : W) :
  author_id message = agentId ->
  trace (handleIncomingMessage svc message w)
    = [GetParticipants (channel_id message)]
  /\ world_after (handleIncomingMessage svc message w)
     = (fetchParticipants (channel_id message) w).2
  /\ Forall (fun c => onRuntime c = false)
       (trace (handleIncomingMessage svc message w))
  /\ emissions (trace (handleIncomingMessage svc message w)) = 0%nat
  /\ outcome (handleIncomingMessage svc message w) <> Returns Emitted.
Proof.
  intros Hself.
  destruct (handleIncomingMessage_filtered svc message w
              (or_intror (or_intror Hself))) as (e & Hrun & He & _).
  rewrite Hrun. unfold outcome, trace, world_after. simpl.
  split; [reflexivity|]. split; [reflexivity|]. split; [|split].
  - repeat constructor.
  - reflexivity.
  - destruct He as [He|[He|He]]; rewrite He; discriminate.
Qed.

(** C4. A message whose [server_id] is not in [subscribedServers] is
    dropped: the participants request is the only call and no method of
    the runtime is called at all, so neither [runtime.createMemory] nor
    the [MESSAGE_RECEIVED] handlers that could call it run for this
    message. *)
Theorem C4_unsubscribed_server_dropped
    (svc : Service) (message : MessageServiceMessage) (w : W) :
  server_id message ∉ subscribedServers svc ->
  trace (handleIncomingMessage svc message w)
    = [GetParticipants (channel_id message)]
  /\ world_after (handleIncomingMessage svc message w)
     = (fetchParticipants (channel_id message) w).2
  /\ Forall (fun c => onRuntime c = false)
       (trace (handleIncomingMessage svc message w))
  /\ emissions (trace (handleIncomingMessage svc message w)) = 0%nat
  /\ (outcome (handleIncomingMessage svc message w) = Returns NotParticipant
      \/ outcome (handleIncomingMessage svc message w) = Returns NotSubscribed).
Proof.
  intros Hnot.
  destruct (handleIncomingMessage_filtered svc message w
              (or_intror (or_introl Hnot))) as (e & Hrun & He & _ & Hns).
  rewrite Hrun. unfold outcome, trace, world_after. simpl.
  split; [reflexivity|]. split; [reflexivity|]. split; [|split].
  - repeat constructor.
  - reflexivity.
  - destruct He as [He|[He|He]]; subst e; auto.
    exfalso. exact (Hns Hnot eq_refl).
Qed.

(** C10. A [server_agent_update] for another agent leaves
    [subscribedServers] as it was; for this agent,
    [agent_added_to_server] adds the event's server id and nothing
    else, [agent_removed_from_server] removes that id and nothing else,
    and any other type leaves the set as it was. *)
Theorem C10_server_agent_update
    (data : ServerAgentUpdate) (svc : Service) :
  (upd_agentId data <> agentId ->
     subscribedServers (handleServerAgentUpdate data svc)
       = subscribedServers svc)
  /\ (upd_agentId data = agentId ->
      upd_type data = lit "agent_added_to_server" ->
      forall s, s ∈ subscribedServers (handleServerAgentUpdate data svc)
                <-> s = upd_serverId data \/ s ∈ subscribedServers svc)
  /\ (upd_agentId data = agentId ->
      upd_type data = lit "agent_removed_from_server" ->
      forall s, s ∈ subscribedServers (handleServerAgentUpdate data svc)
                <-> s <> upd_serverId data /\ s ∈ subscribedServers svc)
  /\ (upd_agentId data = agentId ->
      upd_type data <> lit "agent_added_to_server" ->
      upd_type data <> lit "agent_removed_from_server" ->
      subscribedServers (handleServerAgentUpdate data svc)
        = subscribedServers svc).
Proof.
  unfold handleServerAgentUpdate. split; [|split; [|split]].
  - intros Hne. rewrite (bool_decide_eq_false_2 _ Hne). reflexivity.
  - intros Hme Hadd s.
    rewrite (bool_decide_eq_true_2 _ Hme), (bool_decide_eq_true_2 _ Hadd).
    cbn. set_solver.
  - intros Hme Hrem s.
    assert (Hna : upd_type data <> lit "agent_added_to_server").
    { rewrite Hrem. vm_compute. discriminate. }
    rewrite (bool_decide_eq_true_2 _ Hme), (bool_decide_eq_false_2 _ Hna),
      (bool_decide_eq_true_2 _ Hrem). cbn.
    rewrite elem_of_difference, elem_of_singleton. tauto.
  - intros Hme Hna Hnr.
    rewrite (bool_decide_eq_true_2 _ Hme), (bool_decide_eq_false_2 _ Hna),
      (bool_decide_eq_false_2 _ Hnr). reflexivity.
Qed.

(** The tail of a delivery: which exits it has and how often it emits. *)
Lemma afterFilters_cases (message : MessageServiceMessage) (w : W) :
  let r := afterFilters message w in
  (outcome r = Returns DuplicateMemory /\ emissions (trace r) = 0%nat)
  \/ (exists cb w',
        outcome r = Returns Emitted /\ emissions (trace r) = 1%nat
        /\ (emitEvent MESSAGE_RECEIVED
              (createAgentMemory message
                 (createUniqueUuid agentId (author_id message))
                 (createUniqueUuid agentId (channel_id message))
                 (createUniqueUuid agentId (server_id message))) cb w').1
             = Returns tt
        /\ (emitEvent MESSAGE_RECEIVED
              (createAgentMemory message
                 (createUniqueUuid agentId (author_id message))
                 (createUniqueUuid agentId (channel_id message))
                 (createUniqueUuid agentId (server_id message))) cb w').2
             = world_after r)
  \/ (exists e, outcome r = Throws e /\ (emissions (trace r) <= 1)%nat).
Proof.
  unfold afterFilters, ensureWorldAndRoomExist, ensureAuthorEntityExists.
  unfold bind, try_catch, call, ret, throw, outcome, trace, world_after.
  cbv zeta.
  repeat
    (match goal with
     | |- context [ensureWorldExists ?x ?v] =>
         destruct (ensureWorldExists x v) as [[[]|?] ?]
     | |- context [ensureRoomExists ?x ?v] =>
         destruct (ensureRoomExists x v) as [[[]|?] ?]
     | |- context [getEntityById ?x ?v] =>
         destruct (getEntityById x v) as [[[?|]|?] ?]
     | |- context [createEntity ?x ?v] =>
         destruct (createEntity x v) as [[?|?] ?]
     | |- context [getMemoryById ?x ?v] =>
         destruct (getMemoryById x v) as [[[?|]|?] ?]
     | |- context [names_constraint ?e ?n] =>
         destruct (names_constraint e n)
     | |- context [emitEvent ?a ?b ?c ?v] =>
         destruct (emitEvent a b c v) as [[[]|?] ?] eqn:Hemit
     end; cbn [fst snd app]);
    try (left; split; reflexivity);
    try (right; right; eexists; split; [reflexivity|]; cbn; lia).
  all: right; left; do 2 eexists; split; [reflexivity|];
    split; [reflexivity|]; rewrite Hemit; split; reflexivity.
Qed.

(** With the memory already held, the tail of a delivery ends at the
    duplicate check, or earlier on an exception: it emits nothing. *)
Lemma afterFilters_duplicate (message : MessageServiceMessage) (w : W) :
  keepsMemories ->
  holdsMemory (createUniqueUuid agentId (id message)) w ->
  emissions (trace (afterFilters message w)) = 0%nat
  /\ (outcome (afterFilters message w) = Returns DuplicateMemory
      \/ exists e, outcome (afterFilters message w) = Throws e).
Proof.
  intros Hkeep Hw.
  unfold afterFilters, ensureWorldAndRoomExist, ensureAuthorEntityExists.
  unfold bind, try_catch, call, ret, throw, outcome, trace, world_after.
  cbv zeta. cbn [mem_id createAgentMemory].
  repeat
    (match goal with
     | Hm : holdsMemory ?i ?v |- context [ensureWorldExists ?x ?v] =>
         let Hn := fresh "Hm" in
         pose proof (proj1 (proj2 (Hkeep i v Hm)) x) as Hn; clear Hm;
         destruct (ensureWorldExists x v) as [[[]|?] ?]
     | Hm : holdsMemory ?i ?v |- context [ensureRoomExists ?x ?v] =>
         let Hn := fresh "Hm" in
         pose proof (proj1 (proj2 (proj2 (Hkeep i v Hm))) x) as Hn; clear Hm;
         destruct (ensureRoomExists x v) as [[[]|?] ?]
     | Hm : holdsMemory ?i ?v |- context [getEntityById ?x ?v] =>
         let Hn := fresh "Hm" in
         pose proof (proj1 (proj2 (proj2 (proj2 (Hkeep i v Hm)))) x) as Hn;
         clear Hm;
         destruct (getEntityById x v) as [[[?|]|?] ?]
     | Hm : holdsMemory ?i ?v |- context [createEntity ?x ?v] =>
         let Hn := fresh "Hm" in
         pose proof (proj2 (proj2 (proj2 (proj2 (Hkeep i v Hm)))) x) as Hn;
         clear Hm;
         destruct (createEntity x v) as [[?|?] ?]
     | Hm : holdsMemory ?i ?v |- context [getMemoryById ?i ?v] =>
         let m := fresh "m" in
         destruct Hm as [m Hm];
         destruct (getMemoryById i v) as [? ?]; cbn [fst] in Hm; subst
     | |- context [names_constraint ?e ?n] =>
         destruct (names_constraint e n)
     end; cbn [fst snd app] in *);
    (split; [reflexivity | first [left; reflexivity | right; eauto]]).
Qed.

(** A delivery emits [MESSAGE_RECEIVED] at most once. *)
Lemma handleIncomingMessage_emits_once
    (svc : Service) (message : MessageServiceMessage) (w : W) :
  (emissions (trace (handleIncomingMessage svc message w)) <= 1)%nat.
Proof.
  rewrite handleIncomingMessage_run. cbv zeta.
  repeat (match goal with
          | |- context [if ?b then _ else _] => destruct b; cbn [negb]
          end; try (cbn; lia)).
  pose proof (afterFilters_cases message
                (fetchParticipants (channel_id message) w).2) as Hc.
  cbv zeta in Hc. unfold outcome, trace in Hc.
  destruct (afterFilters message (fetchParticipants (channel_id message) w).2)
    as [[[e|err] w2] t2]; cbn [fst snd] in Hc; unfold trace; cbn [snd];
    unfold emissions in *; cbn [app List.filter isEmit length];
    destruct Hc as [[_ Hc]|[(cb & w' & _ & Hc & _)|(e' & _ & Hc)]]; lia.
Qed.

(** C1 (amended). The duplicate-delivery guard works on what the
    runtime holds; the service itself never calls [createMemory]. Take
    a runtime whose [MESSAGE_RECEIVED] handling stores the delivered
    memory under its id and whose other calls keep it. If a first
    delivery of a message emits the event and the emission returns,
    then a second delivery with the same message id, handled after the
    first has returned, emits nothing, so that both deliveries together
    emit exactly once; when it passes the three filters, the second
    delivery ends at the duplicate check or on a caught exception. *)
Theorem C1_second_delivery_emits_nothing
    (svc : Service) (first second : MessageServiceMessage) (w : W) :
  storesOnReceipt ->
  keepsMemories ->
  id first = id second ->
  outcome (handleIncomingMessage svc first w) = Returns Emitted ->
  let w1 := world_after (handleIncomingMessage svc first w) in
  emissions (trace (handleIncomingMessage svc first w)) = 1%nat
  /\ emissions (trace (handleIncomingMessage svc second w1)) = 0%nat
  /\ emissionsOfTwo svc first second w = 1%nat
  /\ holdsMemory (createUniqueUuid agentId (id second)) w1
  /\ (passesFilters svc second w1 ->
      outcome (handleIncomingMessage svc second w1) = Returns DuplicateMemory
      \/ exists e,
           outcome (handleIncomingMessage svc second w1) = Returns (Failed e)).
Proof.
  intros Hstore Hkeep Hid Hfirst. cbv zeta.
  assert (H1 : emissions (trace (handleIncomingMessage svc first w)) = 1%nat
               /\ holdsMemory (createUniqueUuid agentId (id second))
                    (world_after (handleIncomingMessage svc first w))).
  { revert Hfirst. rewrite handleIncomingMessage_run. cbv zeta.
    repeat (match goal with
            | |- context [if ?b then _ else _] => destruct b; cbn [negb]
            end; try (unfold outcome; cbn; discriminate)).
    pose proof (afterFilters_cases first
                  (fetchParticipants (channel_id first) w).2) as Hc.
    cbv zeta in Hc. unfold outcome, trace, world_after in Hc |- *.
    destruct (afterFilters first (fetchParticipants (channel_id first) w).2)
      as [[[e|err] w2] t2]; cbn [fst snd] in Hc |- *;
      [|discriminate].
    intros He. injection He as ->.
    destruct Hc as [[Hc _]|[(cb & w' & _ & Hn & Hret & Hworld)|(e' & Hc & _)]];
      try discriminate.
    split.
    - unfold emissions in *. cbn [app List.filter isEmit length]. exact Hn.
    - apply Hstore in Hret. rewrite Hworld in Hret.
      cbn [mem_id createAgentMemory] in Hret. rewrite <- Hid. exact Hret. }
  destruct H1 as [Hone Hheld].
  set (w1 := world_after (handleIncomingMessage svc first w)) in *.
  assert (H2 : emissions (trace (handleIncomingMessage svc second w1)) = 0%nat
               /\ (passesFilters svc second w1 ->
                   outcome (handleIncomingMessage svc second w1)
                     = Returns DuplicateMemory
                   \/ exists e,
                        outcome (handleIncomingMessage svc second w1)
                          = Returns (Failed e))).
  { rewrite handleIncomingMessage_run. cbv zeta.
    unfold passesFilters.
    destruct (decide (agentId ∈ participantsSeen (channel_id second) w1))
      as [Hin|Hout];
      [rewrite (bool_decide_eq_true_2 _ Hin)
      |rewrite (bool_decide_eq_false_2 _ Hout);
       split; [reflexivity|tauto]].
    destruct (decide (server_id second ∈ subscribedServers svc))
      as [Hsub|Hnot];
      [rewrite (bool_decide_eq_true_2 _ Hsub)
      |rewrite (bool_decide_eq_false_2 _ Hnot);
       split; [reflexivity|tauto]].
    destruct (decide (author_id second = agentId)) as [Hself|Hother];
      [rewrite (bool_decide_eq_true_2 _ Hself); split; [reflexivity|tauto]
      |rewrite (bool_decide_eq_false_2 _ Hother)].
    cbn [negb].
    pose proof (afterFilters_duplicate second
                  (fetchParticipants (channel_id second) w1).2 Hkeep
                  (proj1 (Hkeep _ _ Hheld) (channel_id second)))
      as [Hzero Hexit].
    unfold outcome, trace in Hzero, Hexit |- *.
    destruct (afterFilters second (fetchParticipants (channel_id second) w1).2)
      as [[[e|err] w2] t2]; cbn [fst snd] in Hzero, Hexit |- *.
    - split.
      + unfold emissions in *. cbn [app List.filter isEmit length].
        exact Hzero.
      + intros _. destruct Hexit as [He|[e' He]]; [|discriminate].
        injection He as ->. left; reflexivity.
    - split.
      + unfold emissions in *. cbn [app List.filter isEmit length].
        exact Hzero.
      + intros _. right. eexists; reflexivity. }
  destruct H2 as [Hzero Hexit].
  split; [exact Hone|]. split; [exact Hzero|].
  split; [unfold emissionsOfTwo; cbv zeta; fold w1; lia|].
  split; [exact Hheld|exact Hexit].
Qed.

Lemma choseIgnore_spec (c : Content) : choseIgnore c = true <-> saysIgnore c.
Proof.
  unfold choseIgnore, saysIgnore. destruct (actions c) as [acts|].
  - rewrite bool_decide_eq_true. split.
    + intros Hin. exists acts. auto.
    + intros (acts' & Heq & Hin). injection Heq as ->. exact Hin.
  - split; [discriminate|]. intros (acts' & Heq & _). discriminate.
Qed.

Lemma noText_spec (c : Content) : noText c = true <-> blank c.
Proof.
  unfold noText, blank. destruct (text c) as [[|ch t]|].
  - split; reflexivity.
  - rewrite bool_decide_eq_true. apply trim_empty_iff.
  - tauto.
Qed.

(** C5 (amended). A reply whose actions contain ["IGNORE"], or whose
    text is missing or only white space, causes no call at all, hence
    no POST to the submit endpoint. Any other reply is POSTed there,
    once, with the mapped-back [channel_id] and [server_id] and the
    reply's text, provided the room and world lookups return and map
    back to central ids and the lookup of the replied-to memory does not
    throw. When one of these lookups throws, the exception is caught:
    the function returns and nothing is POSTed, whatever the reply.
    Nothing is POSTed either when the room has no [channelId] or the
    world no [serverId]. *)
Theorem C5_reply_posted_unless_ignored_or_blank
    (agentRoomId agentWorldId : UUID) (c : Content)
    (inReplyToAgentMemoryId : option UUID)
    (originalMessage : option MessageServiceMessage) (w : W) :
  let r :=
    sendAgentResponseToBus agentRoomId agentWorldId c inReplyToAgentMemoryId
      originalMessage w in
  (saysIgnore c \/ blank c -> trace r = [] /\ posts (trace r) = [])
  /\ (~ saysIgnore c -> ~ blank c ->
      forall ch sv,
        mapsBack agentRoomId agentWorldId w ch sv ->
        lookupReturns inReplyToAgentMemoryId
          (worldAtLookup agentRoomId agentWorldId w) ->
        exists p,
          posts (trace r) = [p]
          /\ last (trace r) = Some (PostSubmit p)
          /\ p_channel_id p = ch /\ p_server_id p = sv
          /\ text c = Some (p_content p)
          /\ p_author_id p = agentId)
  /\ (lookupThrows agentRoomId agentWorldId inReplyToAgentMemoryId w ->
      outcome r = Returns tt /\ posts (trace r) = [])
  /\ (mapsNowhere agentRoomId agentWorldId w ->
      outcome r = Returns tt /\ posts (trace r) = []).
Proof.
  cbv zeta. split; [|split; [|split]].
  - intros Hsup.
    assert (Hb : choseIgnore c = true \/ noText c = true).
    { destruct Hsup as [Hi|Hb]; [left; apply choseIgnore_spec
                               |right; apply noText_spec]; assumption. }
    unfold sendAgentResponseToBus, try_catch.
    destruct (choseIgnore c); [split; reflexivity|].
    destruct Hb as [Hb|Hb]; [discriminate|]. rewrite Hb. split; reflexivity.
  - intros Hni Hnb ch sv (room & world & Hroom & Hworld & Hch & Hchne & Hsv & Hsvne)
      Hlook.
    assert (Hi : choseIgnore c = false).
    { destruct (choseIgnore c) eqn:E; [|reflexivity].
      exfalso. apply Hni, choseIgnore_spec, E. }
    assert (Hn : noText c = false).
    { destruct (noText c) eqn:E; [|reflexivity].
      exfalso. apply Hnb, noText_spec, E. }
    assert (Htext : exists t, text c = Some t).
    { unfold noText in Hn. destruct (text c) as [t|]; [eauto|discriminate]. }
    destruct Htext as [t Htext].
    unfold worldAtLookup in Hlook.
    unfold sendAgentResponseToBus, try_catch. rewrite Hi, Hn.
    unfold bind, call, ret, trace.
    destruct (getRoom agentRoomId w) as [oroom w1]. cbn [fst snd] in *.
    subst oroom.
    destruct (getWorld agentWorldId w1) as [oworld w2]. cbn [fst snd] in *.
    subst oworld. cbn [channelIdOf serverIdOf]. rewrite Hch, Hsv.
    destruct ch as [|c1 cs]; [contradiction|].
    destruct sv as [|s1 ss]; [contradiction|].
    destruct inReplyToAgentMemoryId as [[|m1 ms]|]; cbn [lookupReturns] in Hlook.
    + destruct (fetchSubmit _ w2) as [[okp|e] w3]; cbn;
        eexists; rewrite Htext; repeat split; reflexivity.
    + destruct Hlook as [o Ho].
      destruct (getMemoryById (m1 :: ms) w2) as [om w3]. cbn [fst] in Ho.
      subst om.
      destruct (sourceIdOf o) as [[|i1 rest]|];
        destruct (fetchSubmit _ w3) as [[okp|e] w4]; cbn;
        eexists; rewrite Htext; repeat split; reflexivity.
    + destruct (fetchSubmit _ w2) as [[okp|e] w3]; cbn;
        eexists; rewrite Htext; repeat split; reflexivity.
  - unfold lookupThrows, worldAtLookup.
    unfold sendAgentResponseToBus, try_catch.
    destruct (choseIgnore c); [intros _; split; reflexivity|].
    destruct (noText c); [intros _; split; reflexivity|].
    unfold bind, call, ret, trace, outcome.
    destruct (getRoom agentRoomId w) as [[room|e1] w1]; cbn [fst snd];
      [|intros _; split; reflexivity].
    destruct (getWorld agentWorldId w1) as [[world|e2] w2]; cbn [fst snd];
      [|intros _; split; reflexivity].
    destruct (channelIdOf room) as [[|c1 cs]|];
      try (intros _; destruct (serverIdOf world) as [[|? ?]|];
           destruct room; split; reflexivity).
    destruct (serverIdOf world) as [[|s1 ss]|];
      try (intros _; destruct room; split; reflexivity).
    destruct room as [theRoom|]; [|intros _; split; reflexivity].
    intros [[e He]|[[e He]|(m1 & ms & e & -> & He)]]; try discriminate.
    destruct (getMemoryById (m1 :: ms) w2) as [[om|e3] w3];
      cbn [fst snd] in He; [discriminate|].
    split; reflexivity.
  - unfold mapsNowhere.
    unfold sendAgentResponseToBus, try_catch.
    destruct (choseIgnore c); [intros _; split; reflexivity|].
    destruct (noText c); [intros _; split; reflexivity|].
    unfold bind, call, ret, trace, outcome.
    intros (room & world & Hroom & Hworld & Hnone).
    destruct (getRoom agentRoomId w) as [oroom w1]. cbn [fst snd] in *.
    subst oroom.
    destruct (getWorld agentWorldId w1) as [oworld w2]. cbn [fst snd] in *.
    subst oworld.
    destruct (channelIdOf room) as [[|c1 cs]|];
      try (destruct (serverIdOf world) as [[|? ?]|];
           destruct room; split; reflexivity).
    destruct (serverIdOf world) as [[|s1 ss]|];
      try (destruct room; split; reflexivity).
    destruct Hnone; discriminate.
Qed.

End BusProperties.

(** ** The channel router *)

Lemma is_str_true (v : JsVal) (s : jsstring) : is_str v s = true <-> v = JStr s.
Proof.
  unfold is_str. destruct v; try (split; discriminate).
  rewrite bool_decide_eq_true. split; [intros ->; reflexivity|].
  intros Heq. injection Heq as ->. reflexivity.
Qed.

Lemma is_str_false (v : JsVal) (s : jsstring) : v <> JStr s -> is_str v s = false.
Proof.
  intros Hne. destruct (is_str v s) eqn:E; [|reflexivity].
  apply is_str_true in E. contradiction.
Qed.

Lemma missing_falsy (v : JsVal) : Router.missing v -> truthy v = false.
Proof. intros [-> | ->]; reflexivity. Qed.

Section RouterProperties.

Import Router.

Context `{Core} `{Platform} {W : Type} `{AgentServer W}.

(** C7. A submission whose [channelId] or [author_id] is no
    identifier, whose [content] is missing, or whose [server_id] is
    neither the reserved all-zero id nor an identifier, is answered 400
    with an error naming the required fields; the server instance, the
    bus and the sockets are not called and the world is left as it
    was. *)
Theorem C7_invalid_submission_rejected
    (channelId : jsstring) (b : MessageBody) (w : W) :
  validateUuid (JStr channelId) = None
  \/ validateUuid (author_id b) = None
  \/ missing (content b)
  \/ badServerId b ->
  postMessage channelId b w
    = (Returns {| status := 400; body := Failure MissingRequiredFields |},
       w, []).
Proof.
  intros Hbad.
  assert (Hrej : rejects channelId b = true).
  { unfold rejects. cbv zeta.
    destruct Hbad as [Hc|[Ha|[Hm|[Hs1 Hs2]]]].
    - rewrite Hc. reflexivity.
    - rewrite Ha. cbn. rewrite orb_true_r. reflexivity.
    - rewrite (missing_falsy _ Hm). cbn. rewrite !orb_true_r. reflexivity.
    - rewrite (is_str_false _ _ Hs1), Hs2. cbn. rewrite !orb_true_r.
      reflexivity. }
  unfold postMessage. rewrite Hrej. reflexivity.
Qed.


Lemma serverKnown_exists (cid : UUID) (b : MessageBody) (w : W) servers :
  (getServers (getChannelDetails cid w).2).1 = Returns servers ->
  (exists s, s ∈ servers /\ server_id b = JStr (ms_id s)) ->
  existsb (fun s => is_str (server_id b) (ms_id s)) servers = true.
Proof.
  intros _ (s & Hin & Heq). apply existsb_exists. exists s. split.
  - apply list_elem_of_In. exact Hin.
  - apply is_str_true. exact Heq.
Qed.

(** The run of a valid submission for a channel that does not exist,
    on a server that does: every way it can go. *)
Lemma postMessage_autoCreate_run
    (channelId : jsstring) (cid : UUID) (b : MessageBody) (w : W) :
  validateUuid (JStr channelId) = Some cid ->
  rejects channelId b = false ->
  channelAbsent cid w ->
  serverKnown cid b w ->
  let w2 := worldAtCreateChannel cid w in
  let channelData := channelDataFor cid b (toISOStringNow w2) in
  let data := newRootMessageData cid b in
  let start :=
    [GetChannelDetails cid; GetServers;
     CreateChannel channelData (participantsFor b)] in
  let failed := {| status := 500; body := Failure FailedToProcessMessage |} in
  postMessage channelId b w
  = match createChannel channelData (participantsFor b) w2 with
    | (Throws e, w3) =>
        (Returns {| status := 500;
                    body := Failure (FailedToCreateChannel (err_message e)) |},
         w3, start)
    | (Returns _, w3) =>
        match createMessage data w3 with
        | (Throws _, w4) => (Returns failed, w4, start ++ [CreateMessage data])
        | (Returns m, w4) =>
            if truthy_str (crm_id m) then
              let event := new_message (messageForBusOf b m) in
              let sent := start ++ [CreateMessage data; BusEmit event] in
              match busEmit event w4 with
              | (Throws _, w5) => (Returns failed, w5, sent)
              | (Returns _, w5) =>
                  let answer :=
                    {| status := 201;
                       body := Success (messageForBusOf b m) |} in
                  let broadcast :=
                    broadcastOf cid b (messageForBusOf b m) in
                  if socketIO w5 then
                    match socketEmit cid broadcast w5 with
                    | (Throws _, w6) =>
                        (Returns failed, w6,
                         sent ++ [SocketEmit cid broadcast])
                    | (Returns _, w6) =>
                        (Returns answer, w6,
                         sent ++ [SocketEmit cid broadcast])
                    end
                  else (Returns answer, w5, sent)
              end
            else (Returns failed, w4, start ++ [CreateMessage data])
        end
    end.
Proof.
  intros Hcid Hvalid Habsent (servers & Hservers & Hknown). cbv zeta.
  pose proof (serverKnown_exists cid b w servers Hservers Hknown) as Hex.
  unfold channelAbsent in Habsent. unfold worldAtCreateChannel in *.
  unfold postMessage. rewrite Hvalid, Hcid.
  change (default [] (Some cid)) with cid.
  unfold autoCreateChannel, respond, read.
  unfold bind, try_catch, call, ret, throw.
  destruct (getChannelDetails cid w) as [o1 w1]. cbn [fst snd] in *.
  assert (Hno : match o1 with
                | Returns (Some _) => False
                | _ => True
                end).
  { destruct Habsent as [Ha|[e Ha]]; rewrite Ha; exact I. }
  destruct o1 as [[c0|]|e1]; [contradiction| |];
    cbn -[existsb truthy_str];
    (destruct (getServers w1) as [o2 w2]; cbn [fst snd] in *; subst o2;
     cbn -[existsb truthy_str]; rewrite Hex; cbn -[existsb truthy_str];
     destruct (createChannel _ (participantsFor b) w2) as [[ch|e3] w3];
     cbn -[existsb truthy_str]; [|reflexivity];
     destruct (createMessage (newRootMessageData cid b) w3) as [[m|e4] w4];
     cbn -[existsb truthy_str]; [|reflexivity];
     destruct (truthy_str (crm_id m)); cbn -[existsb truthy_str];
     [|reflexivity];
     destruct (busEmit (new_message (messageForBusOf b m)) w4)
       as [[[]|e5] w5];
     cbn -[existsb truthy_str]; [|reflexivity];
     destruct (socketIO w5); [|reflexivity];
     destruct (socketEmit cid _ w5) as [[[]|e6] w6]; reflexivity).
Qed.





End RouterProperties.

Section RoundTrip.

Import Router Client.

Context `{Core} `{Platform} {W : Type} `{AgentServer W}.

Variable currentClientCentralId : UUID.
Variable USER_NAME : jsstring.
Variable initialServerId : JsVal.
Variable now : Z.


End RoundTrip.

Section UploadProperties.

Import Router.

Context `{Core}.

Variable ALLOWED_MEDIA_MIME_TYPES : list jsstring.

(** C9. For a valid [channelId] and an attached file: a file whose
    MIME type is not in the allow-list, whose filename is missing
    (absent or empty) or contains [..] or [/], or whose size exceeds
    50 MB, is answered 400; any other file is answered with success and
    the relative URL [/media/uploads/channels/{channelId}/{filename}]. *)
Theorem C9_upload_validation
    (channelIdRaw : jsstring) (cid : UUID) (f : MulterFile) :
  validateUuid (JStr channelIdRaw) = Some cid ->
  cid <> [] ->
  let r := uploadMedia ALLOWED_MEDIA_MIME_TYPES channelIdRaw (Some f) in
  (refused ALLOWED_MEDIA_MIME_TYPES f ->
     status r = 400 /\ exists e, body r = Failure e)
  /\ (~ refused ALLOWED_MEDIA_MIME_TYPES f ->
      exists n d,
        filename f = Some n
        /\ status r = 200
        /\ body r = Success d
        /\ url d = lit "/media/uploads/channels/" ++ cid ++ lit "/" ++ n
        /\ up_filename d = n).
Proof.
  intros Hcid Hne. cbv zeta. unfold uploadMedia, refused. rewrite Hcid.
  destruct cid as [|c cs]; [contradiction|].
  destruct (decide (mimetype f ∈ ALLOWED_MEDIA_MIME_TYPES)) as [Hok|Hbad].
  2:{ rewrite (bool_decide_eq_false_2 _ Hbad). cbn. split; [eauto|].
      intros Hnr. exfalso. apply Hnr. left. exact Hbad. }
  rewrite (bool_decide_eq_true_2 _ Hok). cbn [negb].
  destruct (filename f) as [[|n0 ns]|] eqn:Hname.
  - cbn. split; [eauto|]. intros Hnr. exfalso. apply Hnr. auto.
  - destruct (includes (n0 :: ns) (lit "..")) eqn:Hdots.
    { cbn. split; [eauto|]. intros Hnr. exfalso. apply Hnr.
      do 3 right. left. exists (n0 :: ns). split; [reflexivity|].
      left. apply includes_spec. exact Hdots. }
    destruct (includes (n0 :: ns) (lit "/")) eqn:Hslash.
    { cbn. split; [eauto|]. intros Hnr. exfalso. apply Hnr.
      do 3 right. left. exists (n0 :: ns). split; [reflexivity|].
      right. apply includes_spec. exact Hslash. }
    cbn [orb].
    destruct (size f >? maxFileSize) eqn:Hsize.
    { cbn. split; [eauto|]. intros Hnr. exfalso. apply Hnr.
      do 4 right. unfold maxFileSize in Hsize. lia. }
    split.
    + intros [Hr|[Hr|[Hr|[(n & Hn & Hr)|Hr]]]]; try contradiction;
        try discriminate.
      * injection Hn as <-. exfalso.
        destruct Hr as [Hr|Hr]; apply includes_spec in Hr; congruence.
      * exfalso. unfold maxFileSize in Hsize. lia.
    + intros _. do 2 eexists. repeat split; reflexivity.
  - cbn. split; [eauto|]. intros Hnr. exfalso. apply Hnr. auto.
Qed.

End UploadProperties.

(** ** The properties on the concrete deployment *)

Section Instances.

Import Example.

Lemma runtime_storesOnReceipt : Bus.storesOnReceipt (H0 := runtime).
Proof.
  intros m cb w _. exists m. cbn. unfold findMemory. cbn.
  rewrite bool_decide_eq_true_2 by reflexivity. reflexivity.
Qed.

Lemma runtime_keepsMemories : Bus.keepsMemories (H0 := runtime).
Proof. intros i w Hm. repeat split; intros; exact Hm. Qed.

(** On the deployed runtime, a message delivered twice is emitted
    once. *)
Lemma C1_witness :
  outcome
    (Bus.handleIncomingMessage (H0 := runtime) service (busMessage user1)
       agentWorld) = Returns Bus.Emitted
  /\ Bus.emissionsOfTwo (H0 := runtime) service (busMessage user1)
       (busMessage user1) agentWorld = 1%nat.
Proof.
  assert (Hfirst :
    outcome
      (Bus.handleIncomingMessage (H0 := runtime) service (busMessage user1)
         agentWorld) = Returns Bus.Emitted) by (vm_compute; reflexivity).
  split; [exact Hfirst|].
  exact (proj1 (proj2 (proj2
    (C1_second_delivery_emits_nothing (H0 := runtime) service
       (busMessage user1) (busMessage user1) agentWorld
       runtime_storesOnReceipt runtime_keepsMemories eq_refl Hfirst)))).
Defined.

(** C1 as stated fails on a runtime whose [MESSAGE_RECEIVED] handling
    stores nothing: both deliveries pass the filters, the second finds
    no memory, and the event is emitted twice. *)
Lemma C1_counterexample :
  let r1 :=
    Bus.handleIncomingMessage (H0 := forgetfulRuntime) service
      (busMessage user1) agentWorld in
  let r2 :=
    Bus.handleIncomingMessage (H0 := forgetfulRuntime) service
      (busMessage user1) (world_after r1) in
  Bus.passesFilters (H0 := forgetfulRuntime) service (busMessage user1)
    agentWorld
  /\ Bus.passesFilters (H0 := forgetfulRuntime) service (busMessage user1)
       (world_after r1)
  /\ outcome r2 = Returns Bus.Emitted
  /\ memories (world_after r2) = []
  /\ ~ (Bus.emissionsOfTwo (H0 := forgetfulRuntime) service
          (busMessage user1) (busMessage user1) agentWorld <= 1)%nat.
Proof.
  cbv zeta.
  assert (Hpass : forall w,
    participants w = [user1; agent1] ->
    Bus.passesFilters (H0 := forgetfulRuntime) service (busMessage user1) w).
  { intros w Hw. unfold Bus.passesFilters, Bus.participantsSeen.
    rewrite getChannelParticipants_run. unfold outcome. cbn.
    rewrite Hw. split; [|split].
    - apply elem_of_cons. right. apply elem_of_cons. left. reflexivity.
    - apply elem_of_singleton. reflexivity.
    - vm_compute. discriminate. }
  split; [apply Hpass; reflexivity|].
  split; [apply Hpass; vm_compute; reflexivity|].
  split; [vm_compute; reflexivity|].
  split; [vm_compute; reflexivity|].
  vm_compute. lia.
Qed.

Lemma C2_witness :
  Bus.author_id (busMessage agent1) = Bus.agentId (AgentEnv := runtime)
  /\ Bus.emissions
       (trace
          (Bus.handleIncomingMessage (H0 := runtime) service
             (busMessage agent1) agentWorld)) = 0%nat.
Proof.
  split; [reflexivity|].
  exact (proj1 (proj2 (proj2 (proj2
    (C2_self_message_suppressed (H0 := runtime) service (busMessage agent1)
       agentWorld eq_refl))))).
Defined.

Lemma agent_not_among_strangers :
  (Bus.agentId (AgentEnv := runtime))
    ∉ Bus.participantsSeen (H0 := runtime) channel1 strangersWorld.
Proof.
  unfold Bus.participantsSeen. rewrite getChannelParticipants_run.
  unfold outcome. cbn. intros Hin.
  apply elem_of_cons in Hin as [Hin|Hin]; [vm_compute in Hin; discriminate|].
  apply elem_of_cons in Hin as [Hin|Hin]; [vm_compute in Hin; discriminate|].
  apply elem_of_nil in Hin. exact Hin.
Qed.

Lemma C3_witness :
  ((Bus.agentId (AgentEnv := runtime))
     ∉ Bus.participantsSeen (H0 := runtime) channel1 strangersWorld)
  /\ trace
       (Bus.handleIncomingMessage (H0 := runtime) service (busMessage user1)
          strangersWorld) = [Bus.GetParticipants channel1].
Proof.
  split; [exact agent_not_among_strangers|].
  exact (proj1 (proj2
    (C3_not_participant_stops_before_creation (H0 := runtime) service
       (busMessage user1) strangersWorld agent_not_among_strangers))).
Defined.

Lemma C4_witness :
  ((Bus.server_id (busMessage user1)) ∉ (∅ : gset UUID))
  /\ Bus.emissions
       (trace
          (Bus.handleIncomingMessage (H0 := runtime)
             {| Bus.subscribedServers := ∅ |} (busMessage user1) agentWorld))
     = 0%nat.
Proof.
  split; [apply not_elem_of_empty|].
  exact (proj1 (proj2 (proj2 (proj2
    (C4_unsubscribed_server_dropped (H0 := runtime)
       {| Bus.subscribedServers := ∅ |} (busMessage user1) agentWorld
       (not_elem_of_empty _)))))).
Defined.

Lemma hello_not_ignored : ~ Bus.saysIgnore (reply (Some (lit "hello")) None).
Proof. intros (acts & Hacts & _). discriminate Hacts. Qed.

Lemma hello_not_blank : ~ Bus.blank (reply (Some (lit "hello")) None).
Proof. unfold Bus.blank. cbn. vm_compute. discriminate. Qed.

Lemma room_maps_back (env : Bus.AgentEnv AgentWorld) (s l : bool) :
  env = runtimeWith s l ->
  Bus.mapsBack (H0 := env) (lit "room") (lit "world") agentWorld
    channel1 server1.
Proof.
  intros ->. unfold Bus.mapsBack. cbn. do 2 eexists.
  repeat split; try reflexivity; vm_compute; discriminate.
Qed.

Lemma memory_lookup_throws :
  Bus.lookupThrows (H0 := failingRuntime) (lit "room") (lit "world")
    (Some (lit "memory")) agentWorld.
Proof.
  right. right. exists 109%N, (lit "emory").
  exists (mkError (Some (lit "connection lost"))).
  split; vm_compute; reflexivity.
Qed.

Lemma C5_witness :
  ~ Bus.saysIgnore (reply (Some (lit "hello")) None)
  /\ ~ Bus.blank (reply (Some (lit "hello")) None)
  /\ (exists p,
        Bus.posts
          (trace
             (Bus.sendAgentResponseToBus (H0 := runtime) (lit "room")
                (lit "world") (reply (Some (lit "hello")) None)
                (Some (lit "memory")) None agentWorld)) = [p]
        /\ Bus.p_channel_id p = channel1
        /\ Bus.p_content p = lit "hello")
  /\ Bus.posts
       (trace
          (Bus.sendAgentResponseToBus (H0 := failingRuntime) (lit "room")
             (lit "world") (reply (Some (lit "hello")) None)
             (Some (lit "memory")) None agentWorld)) = [].
Proof.
  split; [exact hello_not_ignored|]. split; [exact hello_not_blank|].
  split.
  - destruct
      (proj1 (proj2
         (C5_reply_posted_unless_ignored_or_blank (H0 := runtime) (lit "room")
            (lit "world") (reply (Some (lit "hello")) None)
            (Some (lit "memory")) None agentWorld))
         hello_not_ignored hello_not_blank channel1 server1
         (room_maps_back runtime true false eq_refl)
         (ex_intro _ None eq_refl))
      as (p & Hposts & _ & Hch & _ & Htext & _).
    exists p. split; [exact Hposts|]. split; [exact Hch|].
    cbn in Htext. injection Htext as Htext. symmetry. exact Htext.
  - exact (proj2
      (proj1 (proj2 (proj2
         (C5_reply_posted_unless_ignored_or_blank (H0 := failingRuntime)
            (lit "room") (lit "world") (reply (Some (lit "hello")) None)
            (Some (lit "memory")) None agentWorld)))
         memory_lookup_throws)).
Defined.

(** C5 as stated fails when the lookup of the replied-to memory
    throws: the reply is neither ignored nor blank, the room and world
    map back to central ids, and yet nothing is POSTed. *)
Lemma C5_counterexample :
  ~ Bus.saysIgnore (reply (Some (lit "hello")) None)
  /\ ~ Bus.blank (reply (Some (lit "hello")) None)
  /\ Bus.mapsBack (H0 := failingRuntime) (lit "room") (lit "world")
       agentWorld channel1 server1
  /\ Bus.posts
       (trace
          (Bus.sendAgentResponseToBus (H0 := failingRuntime) (lit "room")
             (lit "world") (reply (Some (lit "hello")) None)
             (Some (lit "memory")) (Some (busMessage user1)) agentWorld))
     = [].
Proof.
  split; [exact hello_not_ignored|]. split; [exact hello_not_blank|].
  split; [exact (room_maps_back failingRuntime true true eq_refl)|].
  vm_compute. reflexivity.
Qed.

Lemma channel1_valid : validateUuid (JStr channel1) = Some channel1.
Proof. vm_compute. reflexivity. Qed.


Lemma channel1_absent (fail : bool) :
  Router.channelAbsent channel1 (serverWorld fail).
Proof. left. reflexivity. Qed.








Lemma C7_witness :
  Router.missing (Router.content (guiBody JUndefined))
  /\ Router.postMessage channel1 (guiBody JUndefined) (serverWorld false)
     = (Returns {| Router.status := 400;
                   Router.body := Router.Failure Router.MissingRequiredFields |},
        serverWorld false, []).
Proof.
  split; [left; reflexivity|].
  apply C7_invalid_submission_rejected.
  right. right. left. left. reflexivity.
Defined.




Lemma picture_not_refused :
  ~ Router.refused [lit "image/png"] (mediaFile (lit "cat.png") 1024).
Proof.
  unfold Router.refused. cbn.
  intros [Hr|[Hr|[Hr|[(n & Hn & Hr)|Hr]]]].
  - apply Hr. apply elem_of_cons. left. reflexivity.
  - discriminate Hr.
  - vm_compute in Hr. discriminate Hr.
  - injection Hn as <-.
    destruct Hr as [Hr|Hr]; apply includes_spec in Hr; vm_compute in Hr;
      discriminate Hr.
  - lia.
Qed.

Lemma C9_witness :
  validateUuid (JStr channel1) = Some channel1
  /\ channel1 <> []
  /\ exists d,
       Router.body
         (Router.uploadMedia [lit "image/png"] channel1
            (Some (mediaFile (lit "cat.png") 1024)))
       = Router.Success d
       /\ Router.url d
          = lit "/media/uploads/channels/" ++ channel1 ++ lit "/"
            ++ lit "cat.png".
Proof.
  assert (Hne : channel1 <> []) by (vm_compute; discriminate).
  split; [exact channel1_valid|]. split; [exact Hne|].
  destruct
    (proj2
       (C9_upload_validation [lit "image/png"] channel1 channel1
          (mediaFile (lit "cat.png") 1024) channel1_valid Hne)
       picture_not_refused)
    as (n & d & Hn & _ & Hbody & Hurl & _).
  exists d. split; [exact Hbody|].
  cbn in Hn. injection Hn as <-. exact Hurl.
Defined.

Lemma C10_witness :
  let added :=
    {| Bus.upd_agentId := agent1;
       Bus.upd_type := lit "agent_added_to_server";
       Bus.upd_serverId := server1 |} in
  let foreign :=
    {| Bus.upd_agentId := user1;
       Bus.upd_type := lit "agent_added_to_server";
       Bus.upd_serverId := server1 |} in
  Bus.upd_agentId added = Bus.agentId (AgentEnv := runtime)
  /\ Bus.upd_agentId foreign <> Bus.agentId (AgentEnv := runtime)
  /\ (server1
        ∈ Bus.subscribedServers
            (Bus.handleServerAgentUpdate (H0 := runtime) added
               {| Bus.subscribedServers := ∅ |}))
  /\ Bus.subscribedServers
       (Bus.handleServerAgentUpdate (H0 := runtime) foreign
          {| Bus.subscribedServers := ∅ |}) = ∅.
Proof.
  cbv zeta.
  assert (Hne : user1 <> agent1) by (vm_compute; discriminate).
  split; [reflexivity|]. split; [exact Hne|]. split.
  - apply (proj1 (proj2
      (C10_server_agent_update (H0 := runtime)
         {| Bus.upd_agentId := agent1;
            Bus.upd_type := lit "agent_added_to_server";
            Bus.upd_serverId := server1 |}
         {| Bus.subscribedServers := ∅ |})) eq_refl eq_refl server1).
    left. reflexivity.
  - exact (proj1
      (C10_server_agent_update (H0 := runtime)
         {| Bus.upd_agentId := user1;
            Bus.upd_type := lit "agent_added_to_server";
            Bus.upd_serverId := server1 |}
         {| Bus.subscribedServers := ∅ |}) Hne).
Defined.

End Instances.

(** ** Further properties of the message bus service *)

Section BusFurther.

Import Bus BusConditions.

Context `{Core} {W : Type} `{AgentEnv W}.

Lemma participantsUnavailable_seen (ch : UUID) (w : W) :
  participantsUnavailable ch w -> participantsSeen ch w = [].
Proof.
  unfold participantsUnavailable, participantsSeen, outcome.
  unfold getChannelParticipants, try_catch, bind, call, ret, throw.
  destruct (fetchParticipants ch w) as [[r|e] w1]; cbn [fst]; [|reflexivity].
  intros [Hok|[[e He]|(b & Hb & Hs)]].
  - rewrite Hok. reflexivity.
  - destruct (ok r); [|reflexivity]. rewrite He. reflexivity.
  - destruct (ok r); [|reflexivity]. rewrite Hb.
    destruct Hs as [Hs|Hs]; rewrite Hs; [reflexivity|].
    destruct (pb_success b); reflexivity.
Qed.

(** X2. The participant filter fails closed: when the participants
    endpoint gives no list (the request throws, the response is not ok,
    the body cannot be read or lacks [success] or [data]), the message
    is dropped as from a channel the agent takes no part in, and the
    request is the only call made. *)
Theorem X2_participants_failure_drops_message
    (svc : Service) (message : MessageServiceMessage) (w : W) :
  participantsUnavailable (channel_id message) w ->
  handleIncomingMessage svc message w
    = (Returns NotParticipant, (fetchParticipants (channel_id message) w).2,
       [GetParticipants (channel_id message)]).
Proof.
  intros Hun. rewrite handleIncomingMessage_run. cbv zeta.
  rewrite (participantsUnavailable_seen _ _ Hun).
  rewrite bool_decide_eq_false_2 by apply not_elem_of_nil. reflexivity.
Qed.

Lemma names_constraint_spec (error : JsError) (name : string) :
  lit name <> [] ->
  names_constraint error name = true <-> mentions error name.
Proof.
  intros Hname.
  unfold names_constraint, mentions, Router.contains.
  destruct (err_message error) as [[|c s]|].
  - split; [discriminate|]. intros (m & Hm & bf & af & Hc).
    injection Hm as <-. exfalso. apply Hname.
    destruct bf; [|discriminate]. cbn [app] in Hc.
    destruct (lit name); [reflexivity|discriminate].
  - rewrite includes_spec. split.
    + intros Hc. eauto.
    + intros (m & Hm & Hc). injection Hm as <-. exact Hc.
  - split; [discriminate|]. intros (m & Hm & _). discriminate.
Qed.

Lemma lit_worlds_pkey : lit "worlds_pkey" <> [].
Proof. vm_compute. discriminate. Qed.

Lemma lit_rooms_pkey : lit "rooms_pkey" <> [].
Proof. vm_compute. discriminate. Qed.

(** X3. Duplicate-key errors count as success: when
    [ensureWorldExists] returns or throws an error whose message
    contains [worlds_pkey], and [ensureRoomExists] returns or throws
    one whose message contains [rooms_pkey], [ensureWorldAndRoomExist]
    makes both calls and returns the two derived ids. *)
Theorem X3_duplicate_key_errors_count_as_created
    (message : MessageServiceMessage) (w : W) :
  createdOrExists (ensureWorldExists (worldFor message) w).1 "worlds_pkey" ->
  createdOrExists
    (ensureRoomExists (roomFor message)
       (ensureWorldExists (worldFor message) w).2).1 "rooms_pkey" ->
  ensureWorldAndRoomExist message w
    = (Returns
         (createUniqueUuid agentId (server_id message),
          createUniqueUuid agentId (channel_id message)),
       (ensureRoomExists (roomFor message)
          (ensureWorldExists (worldFor message) w).2).2,
       [EnsureWorldExists (worldFor message);
        EnsureRoomExists (roomFor message)]).
Proof.
  unfold createdOrExists, ensureWorldAndRoomExist.
  unfold bind, try_catch, call, ret, throw. cbv zeta.
  destruct (ensureWorldExists (worldFor message) w) as [[[]|e1] w1];
    cbn [fst snd]; intros Hw.
  - destruct (ensureRoomExists (roomFor message) w1) as [[[]|e2] w2];
      cbn [fst snd]; intros Hr; [reflexivity|].
    apply (names_constraint_spec _ _ lit_rooms_pkey) in Hr.
    rewrite Hr. reflexivity.
  - apply (names_constraint_spec _ _ lit_worlds_pkey) in Hw. rewrite Hw.
    destruct (ensureRoomExists (roomFor message) w1) as [[[]|e2] w2];
      cbn [fst snd]; intros Hr; [reflexivity|].
    apply (names_constraint_spec _ _ lit_rooms_pkey) in Hr.
    rewrite Hr. reflexivity.
Qed.

Lemma passesFilters_run
    (svc : Service) (message : MessageServiceMessage) (w : W) :
  passesFilters svc message w ->
  handleIncomingMessage svc message w =
    match afterFilters message (worldAfterFetch message w) with
    | (Returns e, w2, t2) =>
        (Returns e, w2, GetParticipants (channel_id message) :: t2)
    | (Throws err, w2, t2) =>
        (Returns (Failed err), w2, GetParticipants (channel_id message) :: t2)
    end.
Proof.
  intros (Hin & Hsub & Hother). rewrite handleIncomingMessage_run. cbv zeta.
  rewrite (bool_decide_eq_true_2 _ Hin), (bool_decide_eq_true_2 _ Hsub),
    (bool_decide_eq_false_2 _ Hother).
  reflexivity.
Qed.

(** X4. Any other error of world creation aborts the delivery: for a
    message that passed the three filters, when [ensureWorldExists]
    throws an error whose message does not contain [worlds_pkey], the
    delivery ends as failed with that error right after this call;
    neither the room nor the entity is touched and nothing is
    emitted. *)
Theorem X4_creation_error_aborts_delivery
    (svc : Service) (message : MessageServiceMessage) (w : W) (e : JsError) :
  passesFilters svc message w ->
  (ensureWorldExists (worldFor message) (worldAfterFetch message w)).1
    = Throws e ->
  ~ mentions e "worlds_pkey" ->
  handleIncomingMessage svc message w
    = (Returns (Failed e),
       (ensureWorldExists (worldFor message) (worldAfterFetch message w)).2,
       [GetParticipants (channel_id message);
        EnsureWorldExists (worldFor message)]).
Proof.
  intros Hpass Hthrow Hno. rewrite (passesFilters_run _ _ _ Hpass).
  assert (Hc : names_constraint e "worlds_pkey" = false).
  { destruct (names_constraint e "worlds_pkey") eqn:E; [|reflexivity].
    exfalso. apply Hno, (names_constraint_spec _ _ lit_worlds_pkey), E. }
  unfold afterFilters, ensureWorldAndRoomExist.
  unfold bind, try_catch, call, ret, throw. cbv zeta.
  destruct (ensureWorldExists (worldFor message) (worldAfterFetch message w))
    as [o w1]. cbn [fst snd] in *. subst o. rewrite Hc. reflexivity.
Qed.

(** X5. The author's entity is created only when the lookup finds
    none. When [getEntityById] finds one, it is the only call; when it
    finds none, [createEntity] follows, for an entity with the derived
    id and a single name: the author's display name, or [User-] and the
    first eight units of the author id when that name is missing or
    empty. *)
Theorem X5_entity_created_only_when_absent
    (message : MessageServiceMessage) (w : W) :
  let i := createUniqueUuid agentId (author_id message) in
  (forall ent,
     (getEntityById i w).1 = Returns (Some ent) ->
     ensureAuthorEntityExists message w
       = (Returns i, (getEntityById i w).2, [GetEntityById i]))
  /\ ((getEntityById i w).1 = Returns None ->
      trace (ensureAuthorEntityExists message w)
        = [GetEntityById i; CreateEntity (entityFor message)]
      /\ entity_id (entityFor message) = i
      /\ (truthy_str (author_display_name message) = false ->
          names (entityFor message)
            = [lit "User-" ++ take 8 (author_id message)])
      /\ (forall n, author_display_name message = Some n -> n <> [] ->
          names (entityFor message) = [n])).
Proof.
  cbv zeta. unfold ensureAuthorEntityExists.
  unfold bind, call, ret, trace. cbv zeta. split.
  - intros ent Hfound.
    destruct (getEntityById (createUniqueUuid agentId (author_id message)) w)
      as [o w1]. cbn [fst snd] in *. subst o. reflexivity.
  - intros Hnone.
    destruct (getEntityById (createUniqueUuid agentId (author_id message)) w)
      as [o w1]. cbn [fst snd] in *. subst o.
    split.
    + destruct (createEntity (entityFor message) w1) as [[b|e] w2]; reflexivity.
    + split; [reflexivity|]. unfold entityFor, str_or, substring0. cbn [names].
      split.
      * destruct (author_display_name message) as [[|c s]|];
          [reflexivity|discriminate|reflexivity].
      * intros n -> Hn. destruct n; [contradiction|reflexivity].
Qed.

Lemma afterFilters_emits_memoryFor
    (message : MessageServiceMessage) (w : W) (ev : EventType) (m : Memory) :
  EmitEvent ev m ∈ trace (afterFilters message w) -> m = memoryFor message.
Proof.
  unfold afterFilters, ensureWorldAndRoomExist, ensureAuthorEntityExists.
  unfold bind, try_catch, call, ret, throw, trace. cbv zeta.
  repeat
    (match goal with
     | |- context [ensureWorldExists ?x ?v] =>
         destruct (ensureWorldExists x v) as [[[]|?] ?]
     | |- context [ensureRoomExists ?x ?v] =>
         destruct (ensureRoomExists x v) as [[[]|?] ?]
     | |- context [getEntityById ?x ?v] =>
         destruct (getEntityById x v) as [[[?|]|?] ?]
     | |- context [createEntity ?x ?v] =>
         destruct (createEntity x v) as [[?|?] ?]
     | |- context [getMemoryById ?x ?v] =>
         destruct (getMemoryById x v) as [[[?|]|?] ?]
     | |- context [names_constraint ?e ?n] =>
         destruct (names_constraint e n)
     | |- context [emitEvent ?a ?b ?c ?v] =>
         destruct (emitEvent a b c v) as [[[]|?] ?]
     end; cbn [fst snd app]);
    intros Hin;
    repeat (apply elem_of_cons in Hin as [Hin|Hin];
            [try discriminate Hin;
             try (injection Hin as _ ->; reflexivity)|]);
    apply elem_of_nil in Hin; contradiction.
Qed.

(** X6. [MESSAGE_RECEIVED] is emitted only for a message that passed
    the three filters, and the memory it carries is the one built from
    that message: its id is derived from the message id, its
    [metadata.sourceId] is the central message id, its text is the
    message content, and its room, world and entity ids are derived
    from the channel, server and author ids. *)
Theorem X6_emission_carries_the_derived_memory
    (svc : Service) (message : MessageServiceMessage) (w : W)
    (ev : EventType) (m : Memory) :
  EmitEvent ev m ∈ trace (handleIncomingMessage svc message w) ->
  passesFilters svc message w
  /\ m = memoryFor message
  /\ mem_id m = createUniqueUuid agentId (id message)
  /\ sourceIdOf (Some m) = Some (id message)
  /\ text (mem_content m) = Some (content message)
  /\ roomId m = createUniqueUuid agentId (channel_id message)
  /\ worldId m = createUniqueUuid agentId (server_id message)
  /\ entityId m = createUniqueUuid agentId (author_id message).
Proof.
  intros Hin.
  assert (Hpass : passesFilters svc message w).
  { revert Hin. rewrite handleIncomingMessage_run. cbv zeta.
    unfold passesFilters.
    destruct (decide (agentId ∈ participantsSeen (channel_id message) w))
      as [Hp|Hp];
      [rewrite (bool_decide_eq_true_2 _ Hp)
      |rewrite (bool_decide_eq_false_2 _ Hp); cbn; intros Hin;
       apply elem_of_cons in Hin as [Hin|Hin];
       [discriminate|apply elem_of_nil in Hin; contradiction]].
    destruct (decide (server_id message ∈ subscribedServers svc)) as [Hs|Hs];
      [rewrite (bool_decide_eq_true_2 _ Hs)
      |rewrite (bool_decide_eq_false_2 _ Hs); cbn; intros Hin;
       apply elem_of_cons in Hin as [Hin|Hin];
       [discriminate|apply elem_of_nil in Hin; contradiction]].
    destruct (decide (author_id message = agentId)) as [Ha|Ha];
      [rewrite (bool_decide_eq_true_2 _ Ha); cbn; intros Hin;
       apply elem_of_cons in Hin as [Hin|Hin];
       [discriminate|apply elem_of_nil in Hin; contradiction]|].
    intros _. auto. }
  split; [exact Hpass|].
  assert (Hm : m = memoryFor message).
  { revert Hin. rewrite (passesFilters_run _ _ _ Hpass).
    pose proof (afterFilters_emits_memoryFor message
                  (worldAfterFetch message w) ev m) as Hmem.
    unfold trace in *.
    destruct (afterFilters message (worldAfterFetch message w))
      as [[[e|err] w2] t2]; cbn [snd] in *; intros Hin;
      (apply elem_of_cons in Hin as [Hin|Hin]; [discriminate|auto]). }
  split; [exact Hm|]. subst m. repeat split; reflexivity.
Qed.

(** X7. A reply is threaded back to the central message: when the
    reply is neither ignored nor blank, the room and world map back,
    and the runtime returns, under the id the reply refers to, the
    memory that was built for a central message with a non-empty id,
    then the POSTed payload's [in_reply_to_message_id] is that central
    message's id. *)
Theorem X7_reply_threads_back_to_central_message
    (agentRoomId agentWorldId : UUID) (c : Content)
    (message : MessageServiceMessage)
    (originalMessage : option MessageServiceMessage)
    (w : W) (ch sv : UUID) :
  ~ saysIgnore c -> ~ blank c ->
  mapsBack agentRoomId agentWorldId w ch sv ->
  mem_id (memoryFor message) <> [] ->
  id message <> [] ->
  (getMemoryById (mem_id (memoryFor message))
     (worldAtLookup agentRoomId agentWorldId w)).1
    = Returns (Some (memoryFor message)) ->
  exists p,
    posts
      (trace
         (sendAgentResponseToBus agentRoomId agentWorldId c
            (Some (mem_id (memoryFor message))) originalMessage w)) = [p]
    /\ p_in_reply_to_message_id p = Some (id message)
    /\ p_channel_id p = ch /\ p_server_id p = sv.
Proof.
  intros Hni Hnb (room & world & Hroom & Hworld & Hch & Hchne & Hsv & Hsvne)
    Hmid Hid Hlook.
  assert (Hi : choseIgnore c = false).
  { destruct (choseIgnore c) eqn:E; [|reflexivity].
    exfalso. apply Hni, choseIgnore_spec, E. }
  assert (Hn : noText c = false).
  { destruct (noText c) eqn:E; [|reflexivity].
    exfalso. apply Hnb, noText_spec, E. }
  unfold worldAtLookup in Hlook.
  unfold sendAgentResponseToBus, try_catch. rewrite Hi, Hn.
  unfold bind, call, ret, trace.
  destruct (getRoom agentRoomId w) as [oroom w1]. cbn [fst snd] in *.
  subst oroom.
  destruct (getWorld agentWorldId w1) as [oworld w2]. cbn [fst snd] in *.
  subst oworld. cbn [channelIdOf serverIdOf]. rewrite Hch, Hsv.
  destruct ch as [|c1 cs]; [contradiction|].
  destruct sv as [|s1 ss]; [contradiction|].
  destruct (mem_id (memoryFor message)) as [|m1 ms] eqn:Hm; [contradiction|].
  destruct (getMemoryById (m1 :: ms) w2) as [om w3]. cbn [fst] in Hlook.
  subst om.
  change (sourceIdOf (Some (memoryFor message))) with (Some (id message)).
  destruct (id message) as [|i1 rest] eqn:Hidm; [contradiction|].
  destruct (fetchSubmit _ w3) as [[okp|e] w4]; cbn;
    eexists; repeat split; reflexivity.
Qed.


(** X9. [sendAgentResponseToBus] never throws and POSTs at most once.
    A POST, when there is one, is its last call, is made for a reply
    that is neither ignored nor blank, and carries the agent's id as
    author, [agent_response] as source type and the reply's text as
    content. *)
Theorem X9_reply_posted_at_most_once
    (agentRoomId agentWorldId : UUID) (c : Content)
    (inReplyToAgentMemoryId : option UUID)
    (originalMessage : option MessageServiceMessage) (w : W) :
  let r :=
    sendAgentResponseToBus agentRoomId agentWorldId c inReplyToAgentMemoryId
      originalMessage w in
  outcome r = Returns tt
  /\ (length (posts (trace r)) <= 1)%nat
  /\ forall p,
       p ∈ posts (trace r) ->
       ~ saysIgnore c /\ ~ blank c
       /\ last (trace r) = Some (PostSubmit p)
       /\ p_author_id p = agentId
       /\ p_source_type p = lit "agent_response"
       /\ text c = Some (p_content p).
Proof.
  cbv zeta. unfold sendAgentResponseToBus, try_catch.
  destruct (choseIgnore c) eqn:Hi.
  { cbn. split; [reflexivity|]. split; [lia|].
    intros p Hp. apply elem_of_nil in Hp. contradiction. }
  destruct (noText c) eqn:Hn.
  { cbn. split; [reflexivity|]. split; [lia|].
    intros p Hp. apply elem_of_nil in Hp. contradiction. }
  assert (Hni : ~ saysIgnore c).
  { intros Hs. apply choseIgnore_spec in Hs. congruence. }
  assert (Hnb : ~ blank c).
  { intros Hs. apply noText_spec in Hs. congruence. }
  assert (Htext : exists t, text c = Some t).
  { unfold noText in Hn. destruct (text c) as [t|]; [eauto|discriminate]. }
  destruct Htext as [t Htext]. rewrite Htext.
  unfold bind, call, ret, outcome, trace.
  repeat
    (match goal with
     | |- context [getRoom ?x ?v] =>
         destruct (getRoom x v) as [[[[[[|? ?]|] ?]|]|?] ?]
     | |- context [getWorld ?x ?v] =>
         destruct (getWorld x v) as [[[[[[|? ?]|]]|]|?] ?]
     | |- context [getMemoryById ?x ?v] =>
         destruct (getMemoryById x v) as [[?|?] ?]
     | |- context [match ?o with Some _ => _ | None => _ end] =>
         destruct o as [[|? ?]|]
     | |- context [fetchSubmit ?x ?v] =>
         destruct (fetchSubmit x v) as [[?|?] ?]
     end; cbn -[lit]);
    (split; [reflexivity|]; split; [lia|]; intros p Hp;
     repeat (apply elem_of_cons in Hp as [Hp|Hp];
             [subst p; cbn -[lit]; auto 10|]);
     apply elem_of_nil in Hp; contradiction).
Qed.

(** X10. Subscription events drive the server filter. After an
    [agent_removed_from_server] event for this agent and the message's
    server, a message from a channel the agent takes part in is dropped
    as not subscribed; after an [agent_added_to_server] event for them
    it is never dropped for that reason. *)
Theorem X10_subscription_events_drive_the_filter
    (data : ServerAgentUpdate) (svc : Service)
    (message : MessageServiceMessage) (w : W) :
  upd_agentId data = agentId ->
  upd_serverId data = server_id message ->
  (upd_type data = lit "agent_removed_from_server" ->
   agentId ∈ participantsSeen (channel_id message) w ->
   outcome (handleIncomingMessage (handleServerAgentUpdate data svc) message w)
     = Returns NotSubscribed)
  /\ (upd_type data = lit "agent_added_to_server" ->
      outcome
        (handleIncomingMessage (handleServerAgentUpdate data svc) message w)
        <> Returns NotSubscribed).
Proof.
  intros Hme Hserver. split.
  - intros Hrem Hin.
    assert (Hna : upd_type data <> lit "agent_added_to_server").
    { rewrite Hrem. vm_compute. discriminate. }
    rewrite handleIncomingMessage_run. cbv zeta.
    rewrite (bool_decide_eq_true_2 _ Hin). cbn [negb].
    unfold handleServerAgentUpdate.
    rewrite (bool_decide_eq_true_2 _ Hme), (bool_decide_eq_false_2 _ Hna),
      (bool_decide_eq_true_2 _ Hrem). cbn [negb subscribedServers].
    rewrite bool_decide_eq_false_2; [reflexivity|].
    rewrite elem_of_difference, elem_of_singleton. intros [_ Hne].
    apply Hne. symmetry. exact Hserver.
  - intros Hadd.
    rewrite handleIncomingMessage_run. cbv zeta.
    unfold handleServerAgentUpdate.
    rewrite (bool_decide_eq_true_2 _ Hme), (bool_decide_eq_true_2 _ Hadd).
    cbn [negb subscribedServers].
    rewrite (bool_decide_eq_true_2
               (server_id message ∈ {[upd_serverId data]} ∪ subscribedServers svc)).
    2:{ apply elem_of_union. left. apply elem_of_singleton.
        symmetry. exact Hserver. }
    cbn [negb].
    destruct (bool_decide (agentId ∈ participantsSeen (channel_id message) w));
      cbn [negb]; [|unfold outcome; cbn; discriminate].
    destruct (bool_decide (author_id message = agentId));
      [unfold outcome; cbn; discriminate|].
    pose proof (afterFilters_cases message
                  (fetchParticipants (channel_id message) w).2) as Hc.
    cbv zeta in Hc. unfold outcome in *.
    destruct (afterFilters message (fetchParticipants (channel_id message) w).2)
      as [[[e|err] w2] t2]; cbn [fst] in *; [|discriminate].
    intros Heq. injection Heq as ->.
    destruct Hc as [[Hc _]|[(cb & w' & Hc & _)|(e' & Hc & _)]]; discriminate.
Qed.

End BusFurther.

(** ** The participants check on an arbitrary body *)

Section BusUntypedProperties.

Import Bus.

Context `{Core} {W : Type} `{AgentEnv W} `{BusUntyped.ParticipantsEndpoint W}.

(** [getChannelParticipants] never throws and makes one request,
    whatever the body. *)
Lemma getChannelParticipantsJson_run (ch : UUID) (w : W) :
  BusUntyped.getChannelParticipants ch w
  = (Returns (BusUntyped.participantsJson ch w),
     (BusUntyped.fetchParticipantsJson ch w).2, [GetParticipants ch]).
Proof.
  unfold BusUntyped.participantsJson, outcome.
  unfold BusUntyped.getChannelParticipants, try_catch, bind, call, ret, throw.
  destruct (BusUntyped.fetchParticipantsJson ch w) as [[r|e] w1]; simpl;
    [|reflexivity].
  destruct (ok r); simpl; [|reflexivity].
  destruct (json r) as [data|e]; simpl; [|reflexivity].
  destruct (BusUntyped.property data "success") as [success|e]; simpl;
    [|reflexivity].
  destruct (truthy success && truthy (opt_get data "data")); reflexivity.
Qed.

(** A value without [includes] can only be the [data] of the body. *)
Lemma lacksIncludes_answered (ch : UUID) (w : W) :
  BusUntyped.lacksIncludes (BusUntyped.participantsJson ch w) ->
  BusUntyped.answeredWith ch w (BusUntyped.participantsJson ch w).
Proof.
  unfold BusUntyped.participantsJson, BusUntyped.answeredWith, outcome.
  unfold BusUntyped.getChannelParticipants, try_catch, bind, call, ret, throw.
  destruct (BusUntyped.fetchParticipantsJson ch w) as [[r|e] w1]; simpl;
    [|intros []].
  destruct (ok r) eqn:Hok; simpl; [|intros []].
  destruct (json r) as [data|e] eqn:Hjson; simpl; [|intros []].
  destruct (BusUntyped.property data "success") as [success|e] eqn:Hp; simpl;
    [|intros []].
  destruct (truthy success) eqn:Hs; simpl; [|intros []].
  destruct (truthy (opt_get data "data")) eqn:Hd; simpl; [|intros []].
  intros _. exists r, data. repeat split; try assumption; try reflexivity.
  unfold BusUntyped.property in Hp.
  destruct data; try discriminate; injection Hp as <-; exact Hs.
Qed.

(** [handleIncomingMessage] as a cascade: the participants check,
    which may throw, then the two other filters and [afterFilters] with
    its exceptions caught. *)
Lemma handleIncomingMessageJson_run
    (svc : Service) (message : MessageServiceMessage) (w : W) :
  BusUntyped.handleIncomingMessage svc message w =
    let w1 := (BusUntyped.fetchParticipantsJson (channel_id message) w).2 in
    let t1 := [GetParticipants (channel_id message)] in
    match
      BusUntyped.includesAgent
        (BusUntyped.participantsJson (channel_id message) w)
    with
    | Throws e => (Throws e, w1, t1)
    | Returns false => (Returns NotParticipant, w1, t1)
    | Returns true =>
        if negb (bool_decide (server_id message ∈ subscribedServers svc))
        then (Returns NotSubscribed, w1, t1)
        else if bool_decide (author_id message = agentId)
        then (Returns SelfAuthored, w1, t1)
        else
          match afterFilters message w1 with
          | (Returns e, w2, t2) => (Returns e, w2, t1 ++ t2)
          | (Throws err, w2, t2) => (Returns (Failed err), w2, t1 ++ t2)
          end
    end.
Proof.
  unfold BusUntyped.handleIncomingMessage. unfold bind at 1.
  rewrite getChannelParticipantsJson_run. cbv beta iota zeta.
  destruct (BusUntyped.includesAgent
              (BusUntyped.participantsJson (channel_id message) w))
    as [[|]|e]; [|reflexivity|reflexivity].
  cbn [negb].
  unfold try_catch, bind at 1, validateServerSubscription.
  destruct (bool_decide (server_id message ∈ subscribedServers svc));
    cbn [negb]; [|reflexivity].
  unfold ret at 1. cbn [negb]. unfold bind at 1, validateNotSelfMessage.
  destruct (bool_decide (author_id message = agentId)); cbn [negb];
    [reflexivity|].
  unfold ret at 1. cbn [negb].
  destruct (afterFilters message
              (BusUntyped.fetchParticipantsJson (channel_id message) w).2)
    as [[[e|err] w2] t2]; [reflexivity|].
  cbn. rewrite app_nil_r. reflexivity.
Qed.

(** X1. An exception escapes [handleIncomingMessage] only at the
    participants check. The participants request never throws. When
    the value it hands back has no [includes] (the endpoint answered
    ok, with a truthy [success] and a [data] that is neither an array
    nor a string), [participants.includes] throws ahead of the [try]
    block: the handler throws, the request being its only call. In
    every other case the handler returns, whatever the HTTP client and
    the runtime return or throw: without a further call when the
    agent's id is not found, and with another exit when it is found,
    be it as an element of an array or inside a string. *)
Theorem X1_exception_escapes_only_at_participants_check
    (svc : Service) (message : MessageServiceMessage) (w : W) :
  let r := BusUntyped.handleIncomingMessage svc message w in
  let v := BusUntyped.participantsJson (channel_id message) w in
  let w1 := (BusUntyped.fetchParticipantsJson (channel_id message) w).2 in
  BusUntyped.getChannelParticipants (channel_id message) w
    = (Returns v, w1, [GetParticipants (channel_id message)])
  /\ (BusUntyped.lacksIncludes v ->
      BusUntyped.answeredWith (channel_id message) w v
      /\ exists e, r = (Throws e, w1, [GetParticipants (channel_id message)]))
  /\ (BusUntyped.includesAgent v = Returns false ->
      r = (Returns NotParticipant, w1, [GetParticipants (channel_id message)]))
  /\ (BusUntyped.includesAgent v = Returns true ->
      exists exit, outcome r = Returns exit /\ exit <> NotParticipant)
  /\ (~ BusUntyped.lacksIncludes v -> exists exit, outcome r = Returns exit).
Proof.
  cbv zeta.
  split; [apply getChannelParticipantsJson_run|].
  assert (Hfound :
    BusUntyped.includesAgent
      (BusUntyped.participantsJson (channel_id message) w) = Returns true ->
    exists exit,
      outcome (BusUntyped.handleIncomingMessage svc message w) = Returns exit
      /\ exit <> NotParticipant).
  { intros Hinc. rewrite handleIncomingMessageJson_run. cbv zeta.
    rewrite Hinc.
    destruct (bool_decide (server_id message ∈ subscribedServers svc));
      cbn [negb];
      [|unfold outcome; cbn; eexists; split; [reflexivity|discriminate]].
    destruct (bool_decide (author_id message = agentId));
      [unfold outcome; cbn; eexists; split; [reflexivity|discriminate]|].
    pose proof (afterFilters_cases message
                  (BusUntyped.fetchParticipantsJson (channel_id message) w).2)
      as Hcases.
    cbv zeta in Hcases. unfold outcome in *.
    destruct (afterFilters message
                (BusUntyped.fetchParticipantsJson (channel_id message) w).2)
      as [[[e|err] w2] t2]; cbn in *;
      (eexists; split; [reflexivity|]); [|discriminate].
    intros ->.
    destruct Hcases as [[Hc _]|[(cb & w' & Hc & _)|(e & Hc & _)]];
      discriminate. }
  split; [|split; [|split; [exact Hfound|]]].
  - intros Hlacks. split; [apply lacksIncludes_answered; exact Hlacks|].
    rewrite handleIncomingMessageJson_run. cbv zeta.
    destruct (BusUntyped.participantsJson (channel_id message) w);
      try contradiction; cbn; eexists; reflexivity.
  - intros Hinc. rewrite handleIncomingMessageJson_run. cbv zeta.
    rewrite Hinc. reflexivity.
  - intros Hhas.
    destruct (BusUntyped.includesAgent
                (BusUntyped.participantsJson (channel_id message) w))
      as [[|]|e] eqn:Hinc.
    + destruct (Hfound eq_refl) as (exit & Hexit & _). eauto.
    + rewrite handleIncomingMessageJson_run. cbv zeta. rewrite Hinc.
      eexists. reflexivity.
    + exfalso. apply Hhas.
      destruct (BusUntyped.participantsJson (channel_id message) w);
        try exact I; discriminate.
Qed.

(** Read as the channel router answers it, the body makes the two
    handlers one: on such bodies [BusUntyped.handleIncomingMessage] is
    [Bus.handleIncomingMessage]. *)
Lemma readsAs_participants (data : JsVal) (body : ParticipantsBody) :
  BusUntyped.readsAs data body ->
  (match BusUntyped.property data "success" with
   | Throws _ => JArr []
   | Returns success =>
       if truthy success && truthy (opt_get data "data")
       then opt_get data "data" else JArr []
   end)
  = JArr (JStr <$> match pb_success body, pb_data body with
                   | true, Some participants => participants
                   | _, _ => []
                   end).
Proof.
  intros [Hs Hd]. unfold BusUntyped.property.
  destruct (pb_data body) as [participants|].
  - destruct data; try discriminate Hd; cbn beta iota.
    rewrite Hd, <- Hs. destruct (pb_success body); reflexivity.
  - destruct data; cbn beta iota; try (destruct (pb_success body); reflexivity);
      rewrite Hd, andb_false_r; destruct (pb_success body); reflexivity.
Qed.

Lemma includesAgent_identifiers (participants : list jsstring) :
  BusUntyped.includesAgent (JArr (JStr <$> participants))
  = Returns (bool_decide (agentId ∈ participants)).
Proof.
  unfold BusUntyped.includesAgent. f_equal.
  induction participants as [|p participants IH]; [reflexivity|].
  cbn [fmap list_fmap existsb is_str]. rewrite IH.
  apply Bool.eq_iff_eq_true.
  rewrite orb_true_iff, !bool_decide_eq_true, elem_of_cons.
  split; (intros [Heq|Hin]; [left; congruence|right; exact Hin]).
Qed.

Lemma typedView_participants (ch : UUID) (w : W) :
  BusUntyped.typedView ->
  BusUntyped.participantsJson ch w = JArr (JStr <$> participantsSeen ch w)
  /\ (BusUntyped.fetchParticipantsJson ch w).2 = (fetchParticipants ch w).2.
Proof.
  intros Hview. destruct (Hview ch w) as [Hw Hr]. split; [|symmetry; exact Hw].
  unfold BusUntyped.participantsJson, participantsSeen, outcome.
  unfold BusUntyped.getChannelParticipants, getChannelParticipants.
  unfold try_catch, bind, call, ret, throw.
  destruct (BusUntyped.fetchParticipantsJson ch w) as [[raw|e] w1];
    destruct (fetchParticipants ch w) as [[typed|e'] w1'];
    cbn [fst snd] in *; try contradiction; [|reflexivity].
  destruct Hr as [Hok Hjson]. rewrite <- Hok.
  destruct (ok raw); cbn; [|reflexivity].
  destruct (json raw) as [data|e]; destruct (json typed) as [body|e'];
    try contradiction; cbn; [|reflexivity].
  pose proof (readsAs_participants data body Hjson) as Hread.
  destruct (BusUntyped.property data "success") as [success|e]; cbn.
  - destruct (truthy success && truthy (opt_get data "data")); cbn;
      rewrite Hread; destruct (pb_success body), (pb_data body); reflexivity.
  - rewrite Hread. destruct (pb_success body), (pb_data body); reflexivity.
Qed.

Lemma handleIncomingMessage_typedView
    (svc : Service) (message : MessageServiceMessage) (w : W) :
  BusUntyped.typedView ->
  BusUntyped.handleIncomingMessage svc message w
  = handleIncomingMessage svc message w.
Proof.
  intros Hview.
  destruct (typedView_participants (channel_id message) w Hview) as [Hv Hw].
  rewrite handleIncomingMessageJson_run, handleIncomingMessage_run.
  cbv zeta. rewrite Hv, Hw, includesAgent_identifiers.
  destruct (bool_decide (agentId ∈ participantsSeen (channel_id message) w));
    reflexivity.
Qed.

End BusUntypedProperties.

Section BusUntypedInstances.

Import Example UntypedFixture.

Lemma X1_witness :
  (exists e,
     BusUntyped.handleIncomingMessage (H0 := runtime)
       (H1 := endpointAnswering countOnly) service (busMessage user1)
       agentWorld
     = (Throws e, agentWorld, [Bus.GetParticipants channel1]))
  /\ exists exit,
       outcome
         (BusUntyped.handleIncomingMessage (H0 := runtime)
            (H1 := endpointAnswering joined) service (busMessage user1)
            agentWorld)
       = Returns exit
       /\ exit <> Bus.NotParticipant.
Proof.
  split.
  - destruct
      (X1_exception_escapes_only_at_participants_check (H0 := runtime)
         (H1 := endpointAnswering countOnly) service (busMessage user1)
         agentWorld)
      as (_ & Hthrows & _).
    exact (proj2 (Hthrows I)).
  - destruct
      (X1_exception_escapes_only_at_participants_check (H0 := runtime)
         (H1 := endpointAnswering joined) service (busMessage user1)
         agentWorld)
      as (_ & _ & _ & Hfound & _).
    apply Hfound. vm_compute. reflexivity.
Defined.

End BusUntypedInstances.

Section BusFurtherInstances.

Import Example Fixture.

Ltac passes_filters :=
  unfold Bus.passesFilters; refine (conj _ (conj _ _));
  [apply list_elem_of_In; vm_compute; right; left; reflexivity
  |apply (bool_decide_unpack _); vm_compute; exact I
  |vm_compute; discriminate].

Lemma runtime_passes :
  Bus.passesFilters (H0 := runtime) service (busMessage user1) agentWorld.
Proof. passes_filters. Qed.

Lemma X2_witness :
  BusConditions.participantsUnavailable (H0 := offlineRuntime) channel1
    agentWorld
  /\ outcome
       (Bus.handleIncomingMessage (H0 := offlineRuntime) service
          (busMessage user1) agentWorld) = Returns Bus.NotParticipant.
Proof.
  assert (Hun :
    BusConditions.participantsUnavailable (H0 := offlineRuntime) channel1
      agentWorld) by exact I.
  split; [exact Hun|].
  rewrite (X2_participants_failure_drops_message (H0 := offlineRuntime)
             service (busMessage user1) agentWorld Hun).
  reflexivity.
Defined.

Lemma duplicate_world_mentioned :
  BusConditions.mentions
    (mkError (Some (lit "duplicate key violates constraint worlds_pkey")))
    "worlds_pkey".
Proof.
  eexists. split; [reflexivity|]. apply includes_spec.
  vm_compute. reflexivity.
Qed.

Lemma X3_witness :
  outcome
    (Bus.ensureWorldAndRoomExist
       (H0 := worldFailing
                (lit "duplicate key violates constraint worlds_pkey"))
       (busMessage user1) agentWorld)
  = Returns
      (createUniqueUuid agent1 server1, createUniqueUuid agent1 channel1).
Proof.
  rewrite (X3_duplicate_key_errors_count_as_created
             (H0 := worldFailing
                      (lit "duplicate key violates constraint worlds_pkey"))
             (busMessage user1) agentWorld duplicate_world_mentioned I).
  reflexivity.
Defined.

Lemma lost_connection_not_mentioned :
  ~ BusConditions.mentions (mkError (Some (lit "connection lost")))
      "worlds_pkey".
Proof.
  intros (m & Hm & Hc). injection Hm as <-.
  apply includes_spec in Hc. vm_compute in Hc. discriminate Hc.
Qed.

Lemma X4_witness :
  Bus.passesFilters (H0 := worldFailing (lit "connection lost")) service
    (busMessage user1) agentWorld
  /\ outcome
       (Bus.handleIncomingMessage
          (H0 := worldFailing (lit "connection lost")) service
          (busMessage user1) agentWorld)
     = Returns (Bus.Failed (mkError (Some (lit "connection lost")))).
Proof.
  assert (Hpass :
    Bus.passesFilters (H0 := worldFailing (lit "connection lost")) service
      (busMessage user1) agentWorld)
    by passes_filters.
  split; [exact Hpass|].
  rewrite (X4_creation_error_aborts_delivery
             (H0 := worldFailing (lit "connection lost")) service
             (busMessage user1) agentWorld
             (mkError (Some (lit "connection lost"))) Hpass eq_refl
             lost_connection_not_mentioned).
  reflexivity.
Defined.

Lemma X5_witness :
  trace
    (Bus.ensureAuthorEntityExists (H0 := acquaintedRuntime)
       (busMessage user1) agentWorld)
  = [Bus.GetEntityById (createUniqueUuid agent1 user1)]
  /\ Bus.names (Bus.entityFor (H0 := runtime) (busMessage user1))
     = [lit "User-" ++ take 8 user1].
Proof.
  split.
  - rewrite (proj1
      (X5_entity_created_only_when_absent (H0 := acquaintedRuntime)
         (busMessage user1) agentWorld) knownEntity eq_refl).
    reflexivity.
  - exact (proj1 (proj2 (proj2 (proj2
      (X5_entity_created_only_when_absent (H0 := runtime)
         (busMessage user1) agentWorld) eq_refl))) eq_refl).
Defined.

Lemma emitted_in_first_delivery :
  Bus.EmitEvent Bus.MESSAGE_RECEIVED
    (BusConditions.memoryFor (H0 := runtime) (busMessage user1))
  ∈ trace
      (Bus.handleIncomingMessage (H0 := runtime) service (busMessage user1)
         agentWorld).
Proof.
  apply list_elem_of_In. vm_compute. do 6 right. left. reflexivity.
Qed.

Lemma X6_witness :
  Bus.sourceIdOf
    (Some (BusConditions.memoryFor (H0 := runtime) (busMessage user1)))
  = Some message1
  /\ Bus.passesFilters (H0 := runtime) service (busMessage user1) agentWorld.
Proof.
  destruct
    (X6_emission_carries_the_derived_memory (H0 := runtime) service
       (busMessage user1) agentWorld Bus.MESSAGE_RECEIVED
       (BusConditions.memoryFor (H0 := runtime) (busMessage user1))
       emitted_in_first_delivery)
    as (Hpass & _ & _ & Hsource & _).
  split; [exact Hsource|exact Hpass].
Defined.

Lemma X7_witness :
  exists p,
    Bus.posts
      (trace
         (Bus.sendAgentResponseToBus (H0 := runtime) (lit "room")
            (lit "world") (reply (Some (lit "hello")) None)
            (Some
               (Bus.mem_id
                  (BusConditions.memoryFor (H0 := runtime)
                     (busMessage user1))))
            (Some (busMessage user1)) rememberingWorld)) = [p]
    /\ Bus.p_in_reply_to_message_id p = Some message1.
Proof.
  destruct
    (X7_reply_threads_back_to_central_message (H0 := runtime) (lit "room")
       (lit "world") (reply (Some (lit "hello")) None) (busMessage user1)
       (Some (busMessage user1)) rememberingWorld channel1 server1
       hello_not_ignored hello_not_blank)
    as (p & Hposts & Hreply & _).
  - unfold Bus.mapsBack. cbn. do 2 eexists.
    repeat split; try reflexivity; vm_compute; discriminate.
  - vm_compute. discriminate.
  - vm_compute. discriminate.
  - vm_compute. reflexivity.
  - exists p. split; [exact Hposts|exact Hreply].
Defined.

Lemma X10_witness :
  outcome
    (Bus.handleIncomingMessage (H0 := runtime)
       (Bus.handleServerAgentUpdate (H0 := runtime)
          {| Bus.upd_agentId := agent1;
             Bus.upd_type := lit "agent_removed_from_server";
             Bus.upd_serverId := server1 |} service)
       (busMessage user1) agentWorld)
  = Returns Bus.NotSubscribed.
Proof.
  apply (proj1
    (X10_subscription_events_drive_the_filter (H0 := runtime)
       {| Bus.upd_agentId := agent1;
          Bus.upd_type := lit "agent_removed_from_server";
          Bus.upd_serverId := server1 |} service (busMessage user1)
       agentWorld eq_refl eq_refl) eq_refl).
  exact (proj1 runtime_passes).
Defined.

End BusFurtherInstances.

(** ** Further properties of the channel router *)

Section RouterFurther.

Import Router RouterConditions.

Context `{Core} `{Platform} {W : Type} `{AgentServer W}.

Ltac run_post :=
  repeat
    (match goal with
     | |- context [getChannelDetails ?c ?v] =>
         destruct (getChannelDetails c v) as [[[?|]|?] ?]
     | |- context [getServers ?v] =>
         destruct (getServers v) as [[?|?] ?]
     | |- context [existsb ?f ?l] => destruct (existsb f l)
     | |- context [createChannel ?d ?q ?v] =>
         destruct (createChannel d q v) as [[?|?] ?]
     | |- context [createMessage ?d ?v] =>
         destruct (createMessage d v) as [[?|?] ?] eqn:Hcreate
     | |- context [truthy_str (crm_id ?x)] =>
         destruct (truthy_str (crm_id x)) eqn:Hid
     | |- context [busEmit ?e ?v] =>
         destruct (busEmit e v) as [[[]|?] ?]
     | |- context [socketIO ?v] => destruct (socketIO v)
     | |- context [socketEmit ?c ?q ?v] =>
         destruct (socketEmit c q v) as [[[]|?] ?]
     end; cbn -[existsb truthy_str]).

Lemma precedes_later (x y c : Call) (t : list Call) :
  precedes x y t -> precedes x y (c :: t).
Proof.
  intros (t1 & t2 & t3 & ->). exists (c :: t1), t2, t3. reflexivity.
Qed.

Lemma precedes_here (x y : Call) (t : list Call) :
  y ∈ t -> precedes x y (x :: t).
Proof.
  intros Hin. apply list_elem_of_split in Hin as (t2 & t3 & ->).
  exists [], t2, t3. reflexivity.
Qed.

(** X11. The submission route always answers: whatever the server
    instance, the bus and the sockets return or throw, the handler
    returns a response, and its status is 201, 400 or 500. *)
Theorem X11_submission_always_answered
    (channelId : jsstring) (b : MessageBody) (w : W) :
  exists r,
    outcome (postMessage channelId b w) = Returns r
    /\ (status r = 201 \/ status r = 400 \/ status r = 500).
Proof.
  unfold postMessage.
  destruct (rejects channelId b); [eexists; split; [reflexivity|auto]|].
  unfold autoCreateChannel, respond, read.
  unfold bind, try_catch, call, ret, throw, outcome.
  run_post; eexists; (split; [reflexivity|cbn; auto]).
Qed.

(** X12. No [new_message] without a stored message: every
    [new_message] event the submission route puts on the bus comes
    after a [createMessage] call that returned a message with an id,
    and carries that message. *)
Theorem X12_new_message_only_after_store
    (channelId : jsstring) (b : MessageBody) (w : W) (e : BusEvent) :
  BusEmit e ∈ trace (postMessage channelId b w) ->
  exists cid w3 m,
    validateUuid (JStr channelId) = Some cid
    /\ (createMessage (newRootMessageData cid b) w3).1 = Returns m
    /\ truthy_str (crm_id m) = true
    /\ e = new_message (messageForBusOf b m)
    /\ precedes (CreateMessage (newRootMessageData cid b)) (BusEmit e)
         (trace (postMessage channelId b w)).
Proof.
  unfold postMessage.
  destruct (rejects channelId b) eqn:Hrej.
  { cbn. intros Hin. apply elem_of_nil in Hin. contradiction. }
  assert (Hcid : exists cid, validateUuid (JStr channelId) = Some cid).
  { unfold rejects in Hrej. cbv zeta in Hrej.
    destruct (validateUuid (JStr channelId)) as [cid|]; [eauto|discriminate]. }
  destruct Hcid as [cid Hcid]. rewrite Hcid.
  change (default [] (Some cid)) with cid.
  unfold autoCreateChannel, respond, read.
  unfold bind, try_catch, call, ret, throw, trace, precedes.
  run_post;
    intros Hin;
    repeat (apply elem_of_cons in Hin as [Hin|Hin];
            [try discriminate Hin;
             try (injection Hin as ->;
                  do 3 eexists; split; [reflexivity|];
                  split; [rewrite Hcreate; reflexivity|];
                  split; [exact Hid|]; split; [reflexivity|];
                  repeat
                    first
                      [ apply precedes_here; rewrite !elem_of_cons; auto 10
                      | apply precedes_later ])|]);
    apply elem_of_nil in Hin; contradiction.
Qed.

Lemma unknown_server_not_found (cid : UUID) (b : MessageBody) (w : W) servers :
  (forall s, s ∈ servers -> server_id b <> JStr (ms_id s)) ->
  existsb (fun s => is_str (server_id b) (ms_id s)) servers = false.
Proof.
  intros Hnone. destruct (existsb _ servers) eqn:E; [|reflexivity].
  apply existsb_exists in E as (s & Hin & Hs).
  apply list_elem_of_In in Hin. apply is_str_true in Hs.
  exfalso. exact (Hnone s Hin Hs).
Qed.

Lemma absent_channel_lookup (cid : UUID) (w : W) :
  channelAbsent cid w ->
  match (getChannelDetails cid w).1 with
  | Returns (Some _) => False
  | _ => True
  end.
Proof. intros [Ha|[e Ha]]; rewrite Ha; exact I. Qed.

(** X13. A submission for a missing channel on a server the instance
    does not list is answered 500 with a server-does-not-exist error;
    after the channel lookup and the server listing nothing else is
    called: no channel and no message is created and nothing is put on
    the bus. *)
Theorem X13_unknown_server_creates_nothing
    (channelId : jsstring) (cid : UUID) (b : MessageBody) (w : W) :
  accepted channelId b cid ->
  channelAbsent cid w ->
  serverUnknown cid b w ->
  postMessage channelId b w
    = (Returns {| status := 500;
                  body := Failure (ServerDoesNotExist (server_id b)) |},
       (getServers (getChannelDetails cid w).2).2,
       [GetChannelDetails cid; GetServers]).
Proof.
  intros [Hcid Hvalid] Habsent (servers & Hservers & Hnone).
  pose proof (unknown_server_not_found cid b w servers Hnone) as Hex.
  pose proof (absent_channel_lookup cid w Habsent) as Hno.
  unfold postMessage. rewrite Hvalid, Hcid.
  change (default [] (Some cid)) with cid.
  unfold autoCreateChannel, respond, read.
  unfold bind, try_catch, call, ret, throw.
  destruct (getChannelDetails cid w) as [o1 w1]. cbn [fst snd] in *.
  destruct o1 as [[c0|]|e1]; [contradiction| |];
    cbn -[existsb truthy_str];
    (destruct (getServers w1) as [o2 w2]; cbn [fst snd] in *; subst o2;
     cbn -[existsb truthy_str]; rewrite Hex; reflexivity).
Qed.

(** X14. When the auto-creation fails (the server listing throws, or
    [createChannel] throws for a listed server), the submission is
    answered 500 with a failed-to-create-channel error carrying the
    error's message; [createMessage] is never called and nothing is put
    on the bus. *)
Theorem X14_failed_auto_creation_stores_nothing
    (channelId : jsstring) (cid : UUID) (b : MessageBody) (w : W)
    (e : JsError) :
  accepted channelId b cid ->
  channelAbsent cid w ->
  creationThrows cid b w e ->
  outcome (postMessage channelId b w)
    = Returns {| status := 500;
                 body := Failure (FailedToCreateChannel (err_message e)) |}
  /\ Forall (fun c => isCreateMessage c = false /\ isBusEmit c = false)
       (trace (postMessage channelId b w)).
Proof.
  intros [Hcid Hvalid] Habsent Hthrows.
  pose proof (absent_channel_lookup cid w Habsent) as Hno.
  unfold creationThrows, serverKnown, worldAtCreateChannel in Hthrows.
  unfold postMessage. rewrite Hvalid, Hcid.
  change (default [] (Some cid)) with cid.
  unfold autoCreateChannel, respond, read.
  unfold bind, try_catch, call, ret, throw, outcome, trace.
  destruct (getChannelDetails cid w) as [o1 w1]. cbn [fst snd] in *.
  destruct o1 as [[c0|]|e1]; [contradiction| |];
    cbn -[existsb truthy_str];
    (destruct (getServers w1) as [o2 w2]; cbn [fst snd] in *;
     destruct Hthrows as [->|[(servers & -> & Hknown) Hcreate]];
     [cbn; split; [reflexivity|repeat constructor]
     |assert (Hex : existsb (fun s => is_str (server_id b) (ms_id s)) servers
                    = true)
        by (destruct Hknown as (s & Hin & Heq); apply existsb_exists;
            exists s; split;
            [apply list_elem_of_In; exact Hin|apply is_str_true; exact Heq]);
      cbn -[existsb truthy_str]; rewrite Hex; cbn -[existsb truthy_str];
      destruct (createChannel _ (participantsFor b) w2) as [o3 w3];
      cbn [fst snd] in *; subst o3; cbn;
      split; [reflexivity|repeat constructor]]).
Qed.

(** X15. A submission for a channel that exists skips the
    auto-creation: the servers are not listed and no channel is
    created; [createMessage] is the call right after the channel
    lookup. *)
Theorem X15_existing_channel_skips_auto_creation
    (channelId : jsstring) (cid : UUID) (b : MessageBody) (w : W)
    (ch : Channel) :
  accepted channelId b cid ->
  (getChannelDetails cid w).1 = Returns (Some ch) ->
  Forall (fun c => isAutoCreation c = false)
    (trace (postMessage channelId b w))
  /\ exists rest,
       trace (postMessage channelId b w)
         = GetChannelDetails cid
           :: CreateMessage (newRootMessageData cid b) :: rest.
Proof.
  intros [Hcid Hvalid] Hfound.
  unfold postMessage. rewrite Hvalid, Hcid.
  change (default [] (Some cid)) with cid.
  unfold autoCreateChannel, respond, read.
  unfold bind, try_catch, call, ret, throw, trace.
  destruct (getChannelDetails cid w) as [o1 w1]. cbn [fst snd] in *.
  subst o1. cbn -[existsb truthy_str].
  run_post; (split; [repeat constructor|eexists; reflexivity]).
Qed.

(** X16. A message the store returns without an id is never
    announced. Take any accepted submission. When it gets as far as
    [createMessage] (its channel exists, or was absent and has been
    created) and [createMessage] returns a message whose id is missing
    or empty, the answer is 500, [createMessage] is the last call, and
    neither the bus nor the sockets are called. When it does not get
    that far, [createMessage] is not called and nothing is announced
    either. *)
Theorem X16_message_without_id_is_not_announced
    (channelId : jsstring) (cid : UUID) (b : MessageBody) (w : W) :
  accepted channelId b cid ->
  let r := postMessage channelId b w in
  let data := newRootMessageData cid b in
  (forall m,
     reachesStore cid b w ->
     (createMessage data (worldBeforeStore cid b w)).1 = Returns m ->
     truthy_str (crm_id m) = false ->
     outcome r
       = Returns {| status := 500; body := Failure FailedToProcessMessage |}
     /\ world_after r = (createMessage data (worldBeforeStore cid b w)).2
     /\ last (trace r) = Some (CreateMessage data)
     /\ Forall (fun c => isBusEmit c = false /\ isSocketEmit c = false)
          (trace r)
     /\ ((exists ch, (getChannelDetails cid w).1 = Returns (Some ch)) ->
         trace r = [GetChannelDetails cid; CreateMessage data])
     /\ (channelAbsent cid w ->
         trace r
           = [GetChannelDetails cid; GetServers;
              CreateChannel
                (channelDataFor cid b
                   (toISOStringNow (worldAtCreateChannel cid w)))
                (participantsFor b);
              CreateMessage data]))
  /\ (~ reachesStore cid b w ->
      Forall
        (fun c =>
           isCreateMessage c = false /\ isBusEmit c = false
           /\ isSocketEmit c = false)
        (trace r)).
Proof.
  intros [Hcid Hvalid]. cbv zeta. split.
  - intros m [[ch Hfound]|(Habsent & Hknown & [ch Hch])] Hcreate Hid.
    + assert (Hexists : channelAbsent cid w -> False)
        by (intros [Ha|[e Ha]]; rewrite Hfound in Ha; discriminate).
      unfold worldBeforeStore in *. rewrite Hfound in *.
      unfold postMessage. rewrite Hvalid, Hcid.
      change (default [] (Some cid)) with cid.
      unfold autoCreateChannel, respond, read.
      unfold bind, try_catch, call, ret, throw, outcome, trace, world_after.
      destruct (getChannelDetails cid w) as [o1 w1]. cbn [fst snd] in *.
      subst o1. cbn -[existsb truthy_str].
      destruct (createMessage (newRootMessageData cid b) w1) as [o2 w2].
      cbn [fst snd] in *. subst o2. cbn -[existsb truthy_str].
      rewrite Hid. cbn.
      split; [reflexivity|]. split; [reflexivity|]. split; [reflexivity|].
      split; [repeat constructor|]. split; [reflexivity|].
      intros Ha. destruct (Hexists Ha).
    + assert (Hworld : worldBeforeStore cid b w = worldAtCreateMessage cid b w).
      { unfold worldBeforeStore.
        destruct Habsent as [Ha|[e Ha]]; rewrite Ha; reflexivity. }
      rewrite Hworld in *.
      rewrite (postMessage_autoCreate_run channelId cid b w Hcid Hvalid
                 Habsent Hknown).
      cbv zeta. unfold worldAtCreateMessage in *.
      unfold outcome, trace, world_after.
      destruct (createChannel _ (participantsFor b)
                  (worldAtCreateChannel cid w)) as [o3 w3].
      cbn [fst snd] in *. subst o3.
      destruct (createMessage (newRootMessageData cid b) w3) as [o4 w4].
      cbn [fst snd] in *. subst o4. rewrite Hid. cbn.
      split; [reflexivity|]. split; [reflexivity|]. split; [reflexivity|].
      split; [repeat constructor|]. split; [|reflexivity].
      intros [ch' Hfound]. destruct Habsent as [Ha|[e Ha]];
        rewrite Ha in Hfound; discriminate.
  - intros Hnot. unfold reachesStore, channelAbsent, serverKnown,
      worldAtCreateChannel in Hnot.
    unfold postMessage. rewrite Hvalid, Hcid.
    change (default [] (Some cid)) with cid.
    unfold autoCreateChannel, respond, read.
    unfold bind, try_catch, call, ret, throw, trace.
    destruct (getChannelDetails cid w) as [o1 w1]. cbn [fst snd] in *.
    destruct o1 as [[c0|]|e1]; [exfalso; apply Hnot; eauto| |];
      cbn -[existsb truthy_str];
      (destruct (getServers w1) as [[servers|e2] w2]; cbn [fst snd] in *;
       cbn -[existsb truthy_str]; [|repeat constructor];
       destruct (existsb (fun s => is_str (server_id b) (ms_id s)) servers)
         eqn:Hex; cbn -[existsb truthy_str]; [|repeat constructor];
       assert (Hknown : exists servers',
                 Returns servers = Returns servers'
                 /\ exists s, s ∈ servers' /\ server_id b = JStr (ms_id s))
         by (apply existsb_exists in Hex as (s & Hin & Hs);
             exists servers; split; [reflexivity|];
             exists s; split;
             [apply list_elem_of_In; exact Hin|apply is_str_true; exact Hs]);
       destruct (createChannel _ (participantsFor b) w2) as [[ch|e3] w3];
       cbn -[existsb truthy_str]; [|repeat constructor];
       exfalso; apply Hnot; right; split; [eauto|]; split; [exact Hknown|];
       eauto).
Qed.

(** X17. The fetch route asks the store once, or not at all. With an
    invalid [channelId] it answers 400 without a call. Otherwise it
    makes exactly one [getMessagesForChannel] call: with limit 50 when
    no [limit] is given, and with no upper time bound when [before] is
    absent, empty, not a number or zero. *)
Theorem X17_fetch_paging_defaults
    (channelIdRaw : jsstring) (limit before : option jsstring) (w : W) :
  (validateUuid (JStr channelIdRaw) = None ->
   getMessages channelIdRaw limit before w
     = (Returns {| status := 400; body := Failure InvalidChannelId |}, w, []))
  /\ (forall cid,
        validateUuid (JStr channelIdRaw) = Some cid -> cid <> [] ->
        exists beforeDate,
          trace (getMessages channelIdRaw limit before w)
            = [GetMessagesForChannel cid (limitAsked limit) beforeDate]
          /\ (limit = None -> limitAsked limit = Some 50)
          /\ (unbounded before -> beforeDate = None)
          /\ (forall s n,
                before = Some s -> parseInt10 s = Some n -> n <> 0 ->
                s <> [] -> beforeDate = Some n)).
Proof.
  split.
  - intros Hbad. unfold getMessages. cbv zeta. rewrite Hbad. reflexivity.
  - intros cid Hcid Hne. unfold getMessages. cbv zeta. rewrite Hcid.
    destruct cid as [|c cs]; [contradiction|].
    unfold bind, try_catch, call, respond, ret, throw, trace.
    eexists. split.
    + match goal with
      | |- context [getMessagesForChannel ?c ?l ?d ?v] =>
          destruct (getMessagesForChannel c l d v) as [[rows|e] w1]
      end; cbn.
      * destruct (mapOutcome toGuiMessage rows);
          unfold limitAsked, truthy_str;
          destruct limit as [[|? ?]|]; reflexivity.
      * unfold limitAsked, truthy_str;
          destruct limit as [[|? ?]|]; reflexivity.
    + split; [intros ->; reflexivity|]. split.
      * intros [->|[->|(s & -> & Hs)]]; try reflexivity.
        destruct s as [|x s]; [reflexivity|]. cbn.
        destruct Hs as [->| ->]; reflexivity.
      * intros s n -> Hs Hn Hsne. destruct s as [|x s]; [contradiction|].
        cbn. rewrite Hs. destruct (n =? 0) eqn:E; [lia|reflexivity].
Qed.

Lemma mapOutcome_unparsable (rows : list CentralRootMessage) :
  (exists m, m ∈ rows /\ unparsable m) ->
  exists e, mapOutcome toGuiMessage rows = Throws e.
Proof.
  induction rows as [|r rows IH]; intros (m & Hin & Hm).
  - apply elem_of_nil in Hin. contradiction.
  - cbn [mapOutcome]. apply elem_of_cons in Hin as [->|Hin].
    + destruct Hm as (s & e & Hraw & Hparse).
      unfold toGuiMessage. rewrite Hraw, Hparse. eauto.
    + destruct (toGuiMessage r); [|eauto].
      destruct (IH (ex_intro _ m (conj Hin Hm))) as [e ->]. eauto.
Qed.

(** X18. One unreadable row fails the whole fetch: when the store
    returns rows of which one has, as raw message, text that
    [JSON.parse] rejects, the answer is 500 and no message is
    returned. *)
Theorem X18_unparsable_row_fails_the_fetch
    (channelIdRaw : jsstring) (cid : UUID) (limit before : option jsstring)
    (w : W) (limitN beforeDate : option Z) (rows : list CentralRootMessage) :
  validateUuid (JStr channelIdRaw) = Some cid -> cid <> [] ->
  trace (getMessages channelIdRaw limit before w)
    = [GetMessagesForChannel cid limitN beforeDate] ->
  (getMessagesForChannel cid limitN beforeDate w).1 = Returns rows ->
  (exists m, m ∈ rows /\ unparsable m) ->
  outcome (getMessages channelIdRaw limit before w)
    = Returns {| status := 500; body := Failure FailedToFetchMessages |}.
Proof.
  intros Hcid Hne. unfold getMessages. cbv zeta. rewrite Hcid.
  destruct cid as [|c cs]; [contradiction|].
  unfold bind, try_catch, call, respond, ret, throw, trace, outcome.
  match goal with
  | |- context [getMessagesForChannel ?c ?l ?d ?v] =>
      destruct (getMessagesForChannel c l d v) as [[rows'|e] w1] eqn:Hget
  end; cbn.
  - destruct (mapOutcome toGuiMessage rows') as [gs|e] eqn:Hmap; cbn.
    + intros Ht. injection Ht as <- <-. rewrite Hget. cbn.
      intros Hr. injection Hr as <-. intros Hbad.
      apply mapOutcome_unparsable in Hbad as [e He]. congruence.
    + reflexivity.
  - reflexivity.
Qed.

End RouterFurther.

Section FetchToInterface.

Import Router RouterConditions Client.

Context `{Core} `{Platform} {W : Type} `{AgentServer W}.

Variable currentClientCentralId : UUID.
Variable USER_NAME : jsstring.
Variable initialServerId : JsVal.
Variable now : Z.

Lemma toGuiMessage_reads (m : CentralRootMessage) (g : GuiMessage) (v : JsVal) :
  toGuiMessage m = Returns g -> rawRead m v ->
  row g = m
  /\ gui_thought g = opt_get v "thought"
  /\ gui_actions g = opt_get v "actions".
Proof.
  unfold toGuiMessage, rawRead.
  destruct (crm_rawMessage m) as [| |b0|n|s|items|fields];
    try (intros Hg ->; injection Hg as <-; auto).
  destruct (JSON_parse s) as [v'|e]; [|discriminate].
  intros Hg Hv. injection Hv as ->. injection Hg as <-. auto.
Qed.

Lemma mapOutcome_readable (rows : list CentralRootMessage) :
  (forall m, m ∈ rows -> exists v, rawRead m v) ->
  exists gs,
    mapOutcome toGuiMessage rows = Returns gs
    /\ row <$> gs = rows
    /\ forall g, g ∈ gs -> toGuiMessage (row g) = Returns g.
Proof.
  induction rows as [|m rows IH]; intros Hall.
  - exists []. split; [reflexivity|]. split; [reflexivity|].
    intros g Hg. apply elem_of_nil in Hg. contradiction.
  - destruct IH as (gs & Hmap & Hrows & Hgs).
    { intros m' Hm'. apply Hall. apply elem_of_cons. auto. }
    destruct (Hall m) as [v Hv]; [apply elem_of_cons; auto|].
    assert (Hg : exists g, toGuiMessage m = Returns g /\ row g = m).
    { unfold toGuiMessage, rawRead in *.
      destruct (crm_rawMessage m); try (eexists; split; reflexivity).
      rewrite Hv. eexists; split; reflexivity. }
    destruct Hg as (g & Hg & Hrow).
    exists (g :: gs). cbn [mapOutcome]. rewrite Hg, Hmap.
    split; [reflexivity|]. split; [cbn; rewrite Hrow, Hrows; reflexivity|].
    intros g' Hin. apply elem_of_cons in Hin as [->|Hin]; [|auto].
    rewrite Hrow. exact Hg.
Qed.

(** X19. What the agent thought reaches the interface. When the store
    returns rows whose raw messages can all be read (an object as it
    is, text through [JSON.parse]), the fetch answers 200 with one
    message per row, in order, whose [thought] and [actions] are those
    of the row's raw message; the client shows them for a message of
    another author and hides them, with the name [USER_NAME], for a
    message of the current user. *)
Theorem X19_thought_reaches_the_interface
    (channelIdRaw : jsstring) (cid : UUID) (limit before : option jsstring)
    (w : W) (limitN beforeDate : option Z) (rows : list CentralRootMessage) :
  validateUuid (JStr channelIdRaw) = Some cid -> cid <> [] ->
  trace (getMessages channelIdRaw limit before w)
    = [GetMessagesForChannel cid limitN beforeDate] ->
  (getMessagesForChannel cid limitN beforeDate w).1 = Returns rows ->
  (forall m, m ∈ rows -> exists v, rawRead m v) ->
  exists gs,
    outcome (getMessages channelIdRaw limit before w)
      = Returns {| status := 200; body := Success gs |}
    /\ row <$> gs = rows
    /\ forall g v serverIdToUse,
         g ∈ gs -> rawRead (row g) v ->
         let ui :=
           transformServerMessageToUiMessage currentClientCentralId USER_NAME
             initialServerId now g serverIdToUse in
         gui_thought g = opt_get v "thought"
         /\ gui_actions g = opt_get v "actions"
         /\ (crm_authorId (row g) <> currentClientCentralId ->
             thought ui = opt_get v "thought"
             /\ actions ui = opt_get v "actions")
         /\ (crm_authorId (row g) = currentClientCentralId ->
             thought ui = JUndefined /\ actions ui = JUndefined
             /\ name ui = JStr USER_NAME).
Proof.
  intros Hcid Hne. unfold getMessages. cbv zeta. rewrite Hcid.
  destruct cid as [|c cs]; [contradiction|].
  unfold bind, try_catch, call, respond, ret, throw, trace, outcome.
  match goal with
  | |- context [getMessagesForChannel ?c ?l ?d ?v] =>
      destruct (getMessagesForChannel c l d v) as [[rows'|e] w1] eqn:Hget
  end; cbn.
  - destruct (mapOutcome toGuiMessage rows') as [gs|e] eqn:Hmap; cbn;
      intros Ht; injection Ht as <- <-; rewrite Hget; cbn;
      intros Hr; injection Hr as <-; intros Hall;
      destruct (mapOutcome_readable rows' Hall) as (gs' & Hmap' & Hrows & Hgs);
      rewrite Hmap in Hmap'; [|discriminate].
    injection Hmap' as <-.
    exists gs. split; [reflexivity|]. split; [exact Hrows|].
    intros g v sid Hin Hread.
    destruct (toGuiMessage_reads _ _ _ (Hgs g Hin) Hread) as (_ & Ht & Ha).
    split; [exact Ht|]. split; [exact Ha|]. split.
    + intros Hother. cbn.
      rewrite (bool_decide_eq_false_2 _ Hother). cbn. auto.
    + intros Hme. cbn. rewrite (bool_decide_eq_true_2 _ Hme). cbn. auto.
  - intros Ht. injection Ht as <- <-. rewrite Hget. cbn. discriminate.
Qed.

End FetchToInterface.

Section RouterFurtherInstances.

Import Example ServerFixture.

Lemma greeting_accepted_as_channel1 :
  RouterConditions.accepted channel1 (guiBody (JStr (lit "hi"))) channel1.
Proof. split; vm_compute; reflexivity. Qed.

Lemma greeting_announced :
  Router.BusEmit
    (Router.new_message
       (Router.messageForBusOf (guiBody (JStr (lit "hi")))
          (storedMessage
             (Router.newRootMessageData channel1
                (guiBody (JStr (lit "hi")))))))
  ∈ trace
      (Router.postMessage channel1 (guiBody (JStr (lit "hi")))
         (serverWorld false)).
Proof. apply list_elem_of_In. vm_compute. do 4 right. left. reflexivity. Qed.

Lemma X12_witness :
  exists cid,
    Router.precedes
      (Router.CreateMessage
         (Router.newRootMessageData cid (guiBody (JStr (lit "hi")))))
      (Router.BusEmit
         (Router.new_message
            (Router.messageForBusOf (guiBody (JStr (lit "hi")))
               (storedMessage
                  (Router.newRootMessageData channel1
                     (guiBody (JStr (lit "hi"))))))))
      (trace
         (Router.postMessage channel1 (guiBody (JStr (lit "hi")))
            (serverWorld false))).
Proof.
  destruct
    (X12_new_message_only_after_store channel1 (guiBody (JStr (lit "hi")))
       (serverWorld false) _ greeting_announced)
    as (cid & _ & _ & _ & _ & _ & _ & Hprec).
  exists cid. exact Hprec.
Defined.

Lemma stray_accepted : RouterConditions.accepted channel1 strayBody channel1.
Proof. split; vm_compute; reflexivity. Qed.

Lemma stray_server_unknown :
  RouterConditions.serverUnknown channel1 strayBody (serverWorld false).
Proof.
  unfold RouterConditions.serverUnknown. cbn. eexists. split; [reflexivity|].
  intros s Hin. apply elem_of_cons in Hin as [->|Hin];
    [vm_compute; discriminate|apply elem_of_nil in Hin; contradiction].
Qed.

Lemma X13_witness :
  RouterConditions.accepted channel1 strayBody channel1
  /\ outcome (Router.postMessage channel1 strayBody (serverWorld false))
     = Returns
         {| Router.status := 500;
            Router.body :=
              Router.Failure (Router.ServerDoesNotExist (JStr server1)) |}.
Proof.
  split; [exact stray_accepted|].
  rewrite (X13_unknown_server_creates_nothing channel1 channel1 strayBody
             (serverWorld false) stray_accepted (channel1_absent false)
             stray_server_unknown).
  reflexivity.
Defined.

Lemma channels_down_throws :
  RouterConditions.creationThrows (H1 := channelsDown) channel1
    (guiBody (JStr (lit "hi"))) (serverWorld false)
    (mkError (Some (lit "channels table is locked"))).
Proof.
  right. split; [|reflexivity].
  unfold Router.serverKnown. cbn. eexists. split; [reflexivity|].
  eexists. split; [apply elem_of_cons; left; reflexivity|reflexivity].
Qed.

Lemma X14_witness :
  outcome
    (Router.postMessage (H1 := channelsDown) channel1
       (guiBody (JStr (lit "hi"))) (serverWorld false))
  = Returns
      {| Router.status := 500;
         Router.body :=
           Router.Failure
             (Router.FailedToCreateChannel
                (Some (lit "channels table is locked"))) |}.
Proof.
  exact (proj1
    (X14_failed_auto_creation_stores_nothing (H1 := channelsDown) channel1
       channel1 (guiBody (JStr (lit "hi"))) (serverWorld false)
       (mkError (Some (lit "channels table is locked")))
       greeting_accepted_as_channel1 (or_introl eq_refl)
       channels_down_throws)).
Defined.

Lemma X15_witness :
  exists rest,
    trace
      (Router.postMessage channel1 (guiBody (JStr (lit "hi")))
         establishedWorld)
    = Router.GetChannelDetails channel1
      :: Router.CreateMessage
           (Router.newRootMessageData channel1 (guiBody (JStr (lit "hi"))))
      :: rest.
Proof.
  exact (proj2
    (X15_existing_channel_skips_auto_creation channel1 channel1
       (guiBody (JStr (lit "hi"))) establishedWorld channel1Row
       greeting_accepted_as_channel1 eq_refl)).
Defined.

Lemma X16_witness :
  outcome
    (Router.postMessage (H1 := anonymousStore) channel1
       (guiBody (JStr (lit "hi"))) establishedWorld)
  = Returns
      {| Router.status := 500;
         Router.body := Router.Failure Router.FailedToProcessMessage |}
  /\ trace
       (Router.postMessage (H1 := anonymousStore) channel1
          (guiBody (JStr (lit "hi"))) (serverWorld false))
     = [Router.GetChannelDetails channel1; Router.GetServers;
        Router.CreateChannel
          (Router.channelDataFor channel1 (guiBody (JStr (lit "hi")))
             (lit "2025-01-01T00:00:00.000Z"))
          [JStr user1];
        Router.CreateMessage
          (Router.newRootMessageData channel1 (guiBody (JStr (lit "hi"))))].
Proof.
  pose (lost :=
    withoutId
      (storedMessage
         (Router.newRootMessageData channel1 (guiBody (JStr (lit "hi")))))).
  split.
  - destruct
      (proj1
         (X16_message_without_id_is_not_announced (H1 := anonymousStore)
            channel1 channel1 (guiBody (JStr (lit "hi"))) establishedWorld
            greeting_accepted_as_channel1)
         lost)
      as (Hout & _); [| | |exact Hout].
    + left. exists channel1Row. reflexivity.
    + reflexivity.
    + reflexivity.
  - destruct
      (proj1
         (X16_message_without_id_is_not_announced (H1 := anonymousStore)
            channel1 channel1 (guiBody (JStr (lit "hi"))) (serverWorld false)
            greeting_accepted_as_channel1)
         lost)
      as (_ & _ & _ & _ & _ & Htrace).
    + right. split; [left; reflexivity|]. split.
      * unfold Router.serverKnown. cbn. eexists. split; [reflexivity|].
        eexists. split; [apply elem_of_cons; left; reflexivity|reflexivity].
      * eexists. reflexivity.
    + reflexivity.
    + reflexivity.
    + apply Htrace. left. reflexivity.
Defined.

Lemma X17_witness :
  validateUuid (JStr channel1) = Some channel1
  /\ trace (Router.getMessages channel1 None None (serverWorld false))
     = [Router.GetMessagesForChannel channel1 (Some 50) None].
Proof.
  split; [exact channel1_valid|].
  destruct
    (proj2 (X17_fetch_paging_defaults channel1 None None (serverWorld false))
       channel1 channel1_valid)
    as (beforeDate & Htrace & Hlimit & Hnone & _).
  - vm_compute. discriminate.
  - rewrite Htrace, (Hlimit eq_refl), (Hnone (or_introl eq_refl)).
    reflexivity.
Defined.

Lemma X18_witness :
  outcome
    (Router.getMessages channel1 None None
       (worldWith [agentRow (JStr (lit "not json"))]))
  = Returns
      {| Router.status := 500;
         Router.body := Router.Failure Router.FailedToFetchMessages |}.
Proof.
  apply (X18_unparsable_row_fails_the_fetch channel1 channel1 None None
           (worldWith [agentRow (JStr (lit "not json"))]) (Some 50) None
           [agentRow (JStr (lit "not json"))] channel1_valid).
  - vm_compute. discriminate.
  - vm_compute. reflexivity.
  - vm_compute. reflexivity.
  - exists (agentRow (JStr (lit "not json"))). split.
    + apply elem_of_cons. left. reflexivity.
    + do 2 eexists. split; reflexivity.
Defined.

Lemma X19_witness :
  exists gs,
    outcome
      (Router.getMessages channel1 None None
         (worldWith
            [agentRow (JObj [(lit "thought", JStr (lit "be kind"))])]))
    = Returns {| Router.status := 200; Router.body := Router.Success gs |}
    /\ forall g,
         g ∈ gs ->
         Client.thought
           (Client.transformServerMessageToUiMessage user1 (lit "You")
              JUndefined 0 g JUndefined)
         = JStr (lit "be kind").
Proof.
  destruct
    (X19_thought_reaches_the_interface user1 (lit "You") JUndefined 0
       channel1 channel1 None None
       (worldWith [agentRow (JObj [(lit "thought", JStr (lit "be kind"))])])
       (Some 50) None
       [agentRow (JObj [(lit "thought", JStr (lit "be kind"))])]
       channel1_valid)
    as (gs & Hout & Hrows & Hall).
  - vm_compute. discriminate.
  - vm_compute. reflexivity.
  - vm_compute. reflexivity.
  - intros m Hm. apply elem_of_cons in Hm as [->|Hm];
      [eexists; reflexivity|apply elem_of_nil in Hm; contradiction].
  - exists gs. split; [exact Hout|]. intros g Hg.
    assert (Hrow :
      Router.row g
      = agentRow (JObj [(lit "thought", JStr (lit "be kind"))])).
    { assert (Hin : Router.row g ∈ Router.row <$> gs)
        by (apply list_elem_of_fmap; eauto).
      rewrite Hrows in Hin. apply elem_of_cons in Hin as [Hin|Hin];
        [exact Hin|apply elem_of_nil in Hin; contradiction]. }
    destruct (Hall g (JObj [(lit "thought", JStr (lit "be kind"))])
                JUndefined Hg) as (_ & _ & Hother & _).
    + rewrite Hrow. reflexivity.
    + rewrite (proj1 (Hother ltac:(rewrite Hrow; vm_compute; discriminate))).
      vm_compute. reflexivity.
Defined.

End RouterFurtherInstances.

(** ** Properties of the channel management routes *)

Section ManagementProperties.

Import Management.

Context `{Core} {W : Type} `{ChannelStore W}.

Lemma invalidId_cases (raw : jsstring) :
  invalidId raw ->
  validateUuid (JStr raw) = None \/ validateUuid (JStr raw) = Some [].
Proof.
  unfold invalidId. destruct (validateUuid (JStr raw)) as [[|c cs]|]; auto.
  discriminate.
Qed.

Ltac run_route :=
  unfold notify; unfold bind, try_catch, call, reply, ret, throw.

(** X20. An identifier that [validateUuid] refuses stops every
    channel route before the store: details, participants, clear,
    update and delete-channel answer 400 without a call, and so does
    delete-message when either of its two identifiers is refused. The
    same holds for the channels of a server, unless the identifier is
    the default server's, and for the creation of a channel with such
    a [messageServerId]. *)
Theorem X20_invalid_id_touches_nothing
    (raw other : jsstring) (b : ChannelUpdates) (w : W) :
  invalidId raw ->
  detailsRoute raw w
    = (Returns {| code := 400; answer := Error InvalidChannel |}, w, [])
  /\ participantsRoute raw w
     = (Returns {| code := 400; answer := Error InvalidChannel |}, w, [])
  /\ clearMessagesRoute raw w
     = (Returns {| code := 400; answer := Error InvalidChannel |}, w, [])
  /\ updateChannelRoute raw b w
     = (Returns {| code := 400; answer := Error InvalidChannel |}, w, [])
  /\ deleteChannelRoute raw w
     = (Returns {| code := 400; answer := Error InvalidChannel |}, w, [])
  /\ deleteMessageRoute raw other w
     = (Returns {| code := 400; answer := Error InvalidChannelIdOrMessageId |},
        w, [])
  /\ deleteMessageRoute other raw w
     = (Returns {| code := 400; answer := Error InvalidChannelIdOrMessageId |},
        w, [])
  /\ (raw <> Router.DEFAULT_SERVER_ID ->
      serverChannelsRoute raw w
        = (Returns {| code := 400; answer := Error InvalidServerId |}, w, []))
  /\ (forall body,
        cb_messageServerId body = JStr raw ->
        exists e,
          createChannelRoute body w
            = (Returns {| code := 400; answer := Error e |}, w, [])).
Proof.
  intros Hbad.
  assert (Hroutes :
    (raw <> Router.DEFAULT_SERVER_ID ->
     serverChannelsRoute raw w
       = (Returns {| code := 400; answer := Error InvalidServerId |}, w, []))
    /\ (forall body,
          cb_messageServerId body = JStr raw ->
          exists e,
            createChannelRoute body w
              = (Returns {| code := 400; answer := Error e |}, w, []))).
  { split.
    - intros Hne. unfold serverChannelsRoute, serverIdOrDefault.
      rewrite (is_str_false (JStr raw) Router.DEFAULT_SERVER_ID)
        by congruence.
      destruct (invalidId_cases raw Hbad) as [-> | ->]; reflexivity.
    - intros body Hbody. unfold createChannelRoute. rewrite Hbody.
      destruct (negb (truthy (JStr raw)) || negb (truthy (cb_name body))
                || negb (truthy (cb_type body)));
        [eexists; reflexivity|].
      unfold invalidId in Hbad. rewrite Hbad. eexists. reflexivity. }
  unfold detailsRoute, participantsRoute, clearMessagesRoute,
    updateChannelRoute, deleteChannelRoute, deleteMessageRoute.
  destruct (invalidId_cases raw Hbad) as [Hv | Hv]; rewrite Hv;
    repeat (split; [try reflexivity;
                    destruct (validateUuid (JStr other)) as [[|c cs]|];
                    reflexivity|]);
    exact Hroutes.
Qed.

(** X21. The deletion of a message is announced only once it has
    happened: a [message_deleted] event on the bus means both
    identifiers were valid and [deleteMessage] returned; the event
    carries the two validated identifiers, follows the deletion
    directly, and is followed by nothing but the socket notification
    for the same message and channel. *)
Theorem X21_message_deleted_only_after_deletion
    (channelIdRaw messageIdRaw : jsstring) (w : W) (e : CleanupEvent) :
  BusEmit e ∈ trace (deleteMessageRoute channelIdRaw messageIdRaw w) ->
  exists cid mid rest,
    validAs channelIdRaw cid /\ validAs messageIdRaw mid
    /\ e = message_deleted mid cid
    /\ (deleteMessage mid w).1 = Returns tt
    /\ trace (deleteMessageRoute channelIdRaw messageIdRaw w)
       = DeleteMessage mid :: BusEmit e :: rest
    /\ Forall (fun c => c = SocketEmit cid (messageDeleted mid cid)) rest.
Proof.
  unfold deleteMessageRoute.
  destruct (validateUuid (JStr channelIdRaw)) as [[|c cs]|] eqn:Hc;
    try (cbn; intros Hin; apply elem_of_nil in Hin; contradiction).
  destruct (validateUuid (JStr messageIdRaw)) as [[|m ms]|] eqn:Hm;
    try (cbn; intros Hin; apply elem_of_nil in Hin; contradiction).
  run_route. unfold trace.
  destruct (deleteMessage (m :: ms) w) as [[[]|e1] w1] eqn:Hdel; cbn.
  - destruct (busEmit (message_deleted (m :: ms) (c :: cs)) w1)
      as [[[]|e2] w2]; cbn.
    + destruct (socketIO w2); cbn;
        [destruct (socketEmit (c :: cs)
                     (messageDeleted (m :: ms) (c :: cs)) w2)
           as [[[]|e3] w3]; cbn|];
        intros Hin;
        (apply elem_of_cons in Hin as [Hin|Hin]; [discriminate|]);
        (apply elem_of_cons in Hin as [Hin|Hin];
         [injection Hin as ->
         |try (apply elem_of_cons in Hin as [Hin|Hin]; [discriminate|]);
          apply elem_of_nil in Hin; contradiction]);
        exists (c :: cs), (m :: ms); eexists;
        (split; [split; [assumption|discriminate]|]);
        (split; [split; [assumption|discriminate]|]);
        (split; [reflexivity|]); (split; [rewrite Hdel; reflexivity|]);
        (split; [reflexivity|repeat constructor]).
    + intros Hin.
      apply elem_of_cons in Hin as [Hin|Hin]; [discriminate|].
      apply elem_of_cons in Hin as [Hin|Hin];
        [injection Hin as ->
        |apply elem_of_nil in Hin; contradiction].
      exists (c :: cs), (m :: ms), [].
      split; [split; [assumption|discriminate]|].
      split; [split; [assumption|discriminate]|].
      split; [reflexivity|]. split; [rewrite Hdel; reflexivity|].
      split; [reflexivity|constructor].
  - intros Hin.
    apply elem_of_cons in Hin as [Hin|Hin]; [discriminate|].
    apply elem_of_nil in Hin. contradiction.
Qed.

(** X22. The two ways the deletion of a message fails. When
    [deleteMessage] throws, the answer is 500 and nothing is announced.
    When [deleteMessage] returns and the bus emission throws, the
    answer is 500 as well, although the message is gone from the
    store, and the sockets are not notified. *)
Theorem X22_deletion_failures
    (channelIdRaw messageIdRaw : jsstring) (cid mid : UUID) (w : W) :
  validAs channelIdRaw cid -> validAs messageIdRaw mid ->
  (forall err,
     (deleteMessage mid w).1 = Throws err ->
     deleteMessageRoute channelIdRaw messageIdRaw w
       = (Returns {| code := 500; answer := Error FailedToDeleteMessage |},
          (deleteMessage mid w).2, [DeleteMessage mid]))
  /\ (forall err,
        (deleteMessage mid w).1 = Returns tt ->
        (busEmit (message_deleted mid cid) (deleteMessage mid w).2).1
          = Throws err ->
        deleteMessageRoute channelIdRaw messageIdRaw w
          = (Returns {| code := 500; answer := Error FailedToDeleteMessage |},
             (busEmit (message_deleted mid cid) (deleteMessage mid w).2).2,
             [DeleteMessage mid; BusEmit (message_deleted mid cid)])).
Proof.
  intros [Hc Hcne] [Hm Hmne]. unfold deleteMessageRoute. rewrite Hc, Hm.
  destruct cid as [|c cs]; [contradiction|].
  destruct mid as [|m ms]; [contradiction|].
  run_route.
  destruct (deleteMessage (m :: ms) w) as [o1 w1]. cbn [fst snd].
  split.
  - intros err ->. reflexivity.
  - intros err ->.
    destruct (busEmit (message_deleted (m :: ms) (c :: cs)) w1) as [o2 w2].
    cbn [fst snd]. intros ->. reflexivity.
Qed.

(** X23. A channel is deleted only after its messages were counted,
    and its deletion is announced as a clearing. When the query for
    the messages throws, [deleteChannel] is never called and the
    answer is 500. When the query and [deleteChannel] return, the
    next call puts [channel_cleared] for that channel on the bus, the
    event the clearing of a channel emits once [clearChannelMessages]
    has returned; the answer is 204 when the emission and the socket
    notification return as well. No other event is put on the bus by
    the two routes, and none unless the store call returned. *)
Theorem X23_channel_deletion_counts_first
    (channelIdRaw : jsstring) (w : W) :
  (forall cid err,
     validAs channelIdRaw cid ->
     (getMessagesForChannel cid w).1 = Throws err ->
     deleteChannelRoute channelIdRaw w
       = (Returns {| code := 500; answer := Error FailedToDeleteChannel |},
          (getMessagesForChannel cid w).2, [GetMessagesForChannel cid]))
  /\ (forall cid messages,
        validAs channelIdRaw cid ->
        let w1 := (getMessagesForChannel cid w).2 in
        let w2 := (deleteChannel cid w1).2 in
        let w3 := (busEmit (channel_cleared cid) w2).2 in
        (getMessagesForChannel cid w).1 = Returns messages ->
        (deleteChannel cid w1).1 = Returns tt ->
        (exists rest,
           trace (deleteChannelRoute channelIdRaw w)
           = GetMessagesForChannel cid :: DeleteChannel cid
             :: BusEmit (channel_cleared cid) :: rest)
        /\ ((busEmit (channel_cleared cid) w2).1 = Returns tt ->
            (socketIO w3 = true ->
             (socketEmit cid (channelDeleted cid) w3).1 = Returns tt) ->
            outcome (deleteChannelRoute channelIdRaw w)
              = Returns {| code := 204; answer := NoBody |}))
  /\ (forall cid,
        validAs channelIdRaw cid ->
        let w1 := (clearChannelMessages cid w).2 in
        let w2 := (busEmit (channel_cleared cid) w1).2 in
        (clearChannelMessages cid w).1 = Returns tt ->
        (exists rest,
           trace (clearMessagesRoute channelIdRaw w)
           = ClearChannelMessages cid :: BusEmit (channel_cleared cid)
             :: rest)
        /\ ((busEmit (channel_cleared cid) w1).1 = Returns tt ->
            (socketIO w2 = true ->
             (socketEmit cid (channelCleared cid) w2).1 = Returns tt) ->
            outcome (clearMessagesRoute channelIdRaw w)
              = Returns {| code := 204; answer := NoBody |}))
  /\ (forall e,
        BusEmit e ∈ trace (deleteChannelRoute channelIdRaw w) ->
        exists cid rest,
          validAs channelIdRaw cid /\ e = channel_cleared cid
          /\ trace (deleteChannelRoute channelIdRaw w)
             = GetMessagesForChannel cid :: DeleteChannel cid
               :: BusEmit e :: rest
          /\ Forall (fun c => c = SocketEmit cid (channelDeleted cid)) rest)
  /\ (forall e,
        BusEmit e ∈ trace (clearMessagesRoute channelIdRaw w) ->
        exists cid rest,
          validAs channelIdRaw cid /\ e = channel_cleared cid
          /\ trace (clearMessagesRoute channelIdRaw w)
             = ClearChannelMessages cid :: BusEmit e :: rest
          /\ Forall (fun c => c = SocketEmit cid (channelCleared cid)) rest).
Proof.
  unfold deleteChannelRoute, clearMessagesRoute.
  destruct (validateUuid (JStr channelIdRaw)) as [[|c cs]|] eqn:Hc.
  - split; [intros cid err [Hv Hne]; congruence|].
    split; [intros cid messages [Hv Hne]; congruence|].
    split; [intros cid [Hv Hne]; congruence|].
    split; cbn; intros e Hin; apply elem_of_nil in Hin; contradiction.
  - split; [|split; [|split; [|split]]].
    + intros cid err [Hv Hne] Hthrows. rewrite Hc in Hv.
      injection Hv as <-. run_route.
      destruct (getMessagesForChannel (c :: cs) w) as [o1 w1].
      cbn [fst snd] in *. subst o1. reflexivity.
    + intros cid messages [Hv Hne]. rewrite Hc in Hv. injection Hv as <-.
      cbv zeta. run_route. unfold trace, outcome.
      destruct (getMessagesForChannel (c :: cs) w) as [o1 w1].
      cbn [fst snd]. intros ->.
      destruct (deleteChannel (c :: cs) w1) as [o2 w2].
      cbn [fst snd]. intros ->. cbn.
      destruct (busEmit (channel_cleared (c :: cs)) w2) as [[[]|e3] w3];
        cbn [fst snd]; cbn.
      * destruct (socketIO w3); cbn;
          [destruct (socketEmit (c :: cs) (channelDeleted (c :: cs)) w3)
             as [[[]|e4] w4]; cbn|];
          (split; [eexists; reflexivity|]); intros _ Hsock;
          try reflexivity; specialize (Hsock eq_refl); discriminate.
      * split; [eexists; reflexivity|]. intros Hb. discriminate.
    + intros cid [Hv Hne]. rewrite Hc in Hv. injection Hv as <-.
      cbv zeta. run_route. unfold trace, outcome.
      destruct (clearChannelMessages (c :: cs) w) as [o1 w1].
      cbn [fst snd]. intros ->. cbn.
      destruct (busEmit (channel_cleared (c :: cs)) w1) as [[[]|e3] w3];
        cbn [fst snd]; cbn.
      * destruct (socketIO w3); cbn;
          [destruct (socketEmit (c :: cs) (channelCleared (c :: cs)) w3)
             as [[[]|e4] w4]; cbn|];
          (split; [eexists; reflexivity|]); intros _ Hsock;
          try reflexivity; specialize (Hsock eq_refl); discriminate.
      * split; [eexists; reflexivity|]. intros Hb. discriminate.
    + intros e. run_route. unfold trace.
      destruct (getMessagesForChannel (c :: cs) w) as [[msgs|e1] w1]; cbn;
        [|intros Hin; apply elem_of_cons in Hin as [Hin|Hin];
          [discriminate|apply elem_of_nil in Hin; contradiction]].
      destruct (deleteChannel (c :: cs) w1) as [[[]|e2] w2]; cbn;
        [|intros Hin; repeat (apply elem_of_cons in Hin as [Hin|Hin];
                              [discriminate|]);
          apply elem_of_nil in Hin; contradiction].
      destruct (busEmit (channel_cleared (c :: cs)) w2) as [[[]|e3] w3]; cbn;
        [destruct (socketIO w3); cbn;
         [destruct (socketEmit (c :: cs) (channelDeleted (c :: cs)) w3)
            as [[[]|e4] w4]; cbn|]|];
        intros Hin;
        (apply elem_of_cons in Hin as [Hin|Hin]; [discriminate|]);
        (apply elem_of_cons in Hin as [Hin|Hin]; [discriminate|]);
        (apply elem_of_cons in Hin as [Hin|Hin];
         [injection Hin as ->
         |try (apply elem_of_cons in Hin as [Hin|Hin]; [discriminate|]);
          apply elem_of_nil in Hin; contradiction]);
        exists (c :: cs); eexists;
        (split; [split; [assumption|discriminate]|]);
        (split; [reflexivity|]);
        (split; [reflexivity|repeat constructor]).
    + intros e. run_route. unfold trace.
      destruct (clearChannelMessages (c :: cs) w) as [[[]|e2] w2]; cbn;
        [|intros Hin; repeat (apply elem_of_cons in Hin as [Hin|Hin];
                              [discriminate|]);
          apply elem_of_nil in Hin; contradiction].
      destruct (busEmit (channel_cleared (c :: cs)) w2) as [[[]|e3] w3]; cbn;
        [destruct (socketIO w3); cbn;
         [destruct (socketEmit (c :: cs) (channelCleared (c :: cs)) w3)
            as [[[]|e4] w4]; cbn|]|];
        intros Hin;
        (apply elem_of_cons in Hin as [Hin|Hin]; [discriminate|]);
        (apply elem_of_cons in Hin as [Hin|Hin];
         [injection Hin as ->
         |try (apply elem_of_cons in Hin as [Hin|Hin]; [discriminate|]);
          apply elem_of_nil in Hin; contradiction]);
        exists (c :: cs); eexists;
        (split; [split; [assumption|discriminate]|]);
        (split; [reflexivity|]);
        (split; [reflexivity|repeat constructor]).
  - split; [intros cid err [Hv Hne]; congruence|].
    split; [intros cid messages [Hv Hne]; congruence|].
    split; [intros cid [Hv Hne]; congruence|].
    split; cbn; intros e Hin; apply elem_of_nil in Hin; contradiction.
Qed.

(** X24. The DM route and its server. A request whose two user ids
    validate to the same result (the same user, or both refused) is
    answered 400 without a call. A [findOrCreateCentralDmChannel] call
    is made for the two validated, different users, and is the last
    call; its server is the default server when none is given, the
    given server when [getServerById] finds it, and the default server
    when [getServerById] finds none. When [getServerById] throws, the
    answer is 500 and no channel is asked for. *)
Theorem X24_dm_channel_server_choice
    (targetRaw currentRaw serverRaw : JsVal) (w : W) :
  let r := dmChannelRoute targetRaw currentRaw serverRaw w in
  (validateUuid targetRaw = validateUuid currentRaw ->
   exists e, r = (Returns {| code := 400; answer := Error e |}, w, []))
  /\ (forall cur tgt srv,
        FindOrCreateCentralDmChannel cur tgt srv ∈ trace r ->
        validateUuid currentRaw = Some cur
        /\ validateUuid targetRaw = Some tgt
        /\ cur <> tgt
        /\ ((truthy_str (serverIdOrDefault serverRaw) = false
             /\ srv = Router.DEFAULT_SERVER_ID
             /\ trace r = [FindOrCreateCentralDmChannel cur tgt srv])
            \/ exists p,
                 serverIdOrDefault serverRaw = Some p
                 /\ trace r
                    = [GetServerById p; FindOrCreateCentralDmChannel cur tgt srv]
                 /\ (((exists sv, (getServerById p w).1 = Returns (Some sv))
                      /\ srv = p)
                     \/ ((getServerById p w).1 = Returns None
                         /\ srv = Router.DEFAULT_SERVER_ID))))
  /\ (forall p err,
        truthy_str (validateUuid targetRaw) = true ->
        truthy_str (validateUuid currentRaw) = true ->
        validateUuid targetRaw <> validateUuid currentRaw ->
        serverIdOrDefault serverRaw = Some p -> p <> [] ->
        (getServerById p w).1 = Throws err ->
        r = (Returns {| code := 500;
                        answer := Error FailedToFindOrCreateDmChannel |},
             (getServerById p w).2, [GetServerById p])).
Proof.
  cbv zeta. unfold dmChannelRoute. cbv zeta.
  destruct (validateUuid targetRaw) as [[|t ts]|] eqn:Ht;
    try (cbn -[serverIdOrDefault];
         split; [intros _; eexists; reflexivity|];
         split; [intros cur tgt srv Hin; apply elem_of_nil in Hin;
                 contradiction|];
         intros; discriminate).
  destruct (validateUuid currentRaw) as [[|c cs]|] eqn:Hcur;
    try (cbn -[serverIdOrDefault];
         split; [intros _; eexists; reflexivity|];
         split; [intros cur tgt srv Hin; apply elem_of_nil in Hin;
                 contradiction|];
         intros; discriminate).
  cbn [truthy_str negb orb].
  case_bool_decide as Hsame.
  { split; [intros _; eexists; reflexivity|].
    split; [intros cur tgt srv Hin; apply elem_of_nil in Hin; contradiction|].
    intros; contradiction. }
  split; [intros Heq; contradiction|].
  change (default [] (Some (c :: cs))) with (c :: cs).
  change (default [] (Some (t :: ts))) with (t :: ts).
  assert (Hdiff : c :: cs <> t :: ts) by congruence.
  run_route. unfold trace.
  destruct (serverIdOrDefault serverRaw) as [[|p ps]|] eqn:Hsrv;
    cbn [truthy_str].
  - split.
    + cbn. intros cur tgt srv.
      destruct (findOrCreateCentralDmChannel (c :: cs) (t :: ts)
                  Router.DEFAULT_SERVER_ID w) as [[ch|e] w1]; cbn;
        intros Hin; apply elem_of_cons in Hin as [Hin|Hin];
        try (apply elem_of_nil in Hin; contradiction);
        injection Hin as -> -> ->; auto 10.
    + intros p err _ _ _ Hp Hne. injection Hp as <-. contradiction.
  - change (default [] (Some (p :: ps))) with (p :: ps).
    destruct (getServerById (p :: ps) w) as [[[sv|]|e0] w0] eqn:Hget; cbn.
    + split; [|intros q err _ _ _ Hq _; injection Hq as <-;
               rewrite Hget; discriminate].
      intros cur tgt srv.
      destruct (findOrCreateCentralDmChannel (c :: cs) (t :: ts)
                  (p :: ps) w0) as [[ch|e] w1]; cbn;
        intros Hin;
        (apply elem_of_cons in Hin as [Hin|Hin]; [discriminate|]);
        (apply elem_of_cons in Hin as [Hin|Hin];
         [|apply elem_of_nil in Hin; contradiction]);
        injection Hin as -> -> ->;
        (split; [reflexivity|]); (split; [reflexivity|]);
        (split; [exact Hdiff|]);
        right; exists (p :: ps);
        (split; [reflexivity|]); (split; [reflexivity|]);
        left; rewrite Hget; eauto.
    + split; [|intros q err _ _ _ Hq _; injection Hq as <-;
               rewrite Hget; discriminate].
      intros cur tgt srv.
      destruct (findOrCreateCentralDmChannel (c :: cs) (t :: ts)
                  Router.DEFAULT_SERVER_ID w0) as [[ch|e] w1]; cbn;
        intros Hin;
        (apply elem_of_cons in Hin as [Hin|Hin]; [discriminate|]);
        (apply elem_of_cons in Hin as [Hin|Hin];
         [|apply elem_of_nil in Hin; contradiction]);
        injection Hin as -> -> ->;
        (split; [reflexivity|]); (split; [reflexivity|]);
        (split; [exact Hdiff|]);
        right; exists (p :: ps);
        (split; [reflexivity|]); (split; [reflexivity|]);
        right; rewrite Hget; auto.
    + split.
      * intros cur tgt srv Hin.
        apply elem_of_cons in Hin as [Hin|Hin]; [discriminate|].
        apply elem_of_nil in Hin. contradiction.
      * intros q err _ _ _ Hq _ _. injection Hq as <-. rewrite Hget.
        reflexivity.
  - split.
    + cbn. intros cur tgt srv.
      destruct (findOrCreateCentralDmChannel (c :: cs) (t :: ts)
                  Router.DEFAULT_SERVER_ID w) as [[ch|e] w1]; cbn;
        intros Hin; apply elem_of_cons in Hin as [Hin|Hin];
        try (apply elem_of_nil in Hin; contradiction);
        injection Hin as -> -> ->; auto 10.
    + intros p err _ _ _ Hp. discriminate.
Qed.

Lemma invalidPayload_false (b : GroupBody) (ids : list JsVal) :
  truthy (gb_name b) = true -> serverIdAcceptable (gb_server_id b) ->
  gb_participantCentralUserIds b = JArr ids -> allIdentifiers ids ->
  invalidPayload b = false.
Proof.
  intros Hname Hsrv Hids Hall. unfold invalidPayload. cbv zeta.
  rewrite Hname, Hids. cbn [negb orb asArray].
  assert (Hok : is_str (gb_server_id b) Router.DEFAULT_SERVER_ID
                || truthy_str (validateUuid (gb_server_id b)) = true).
  { destruct Hsrv as [-> | Hv]; [|rewrite Hv; apply orb_true_r].
    cbn. rewrite bool_decide_eq_true_2; reflexivity. }
  rewrite Hok. cbn [negb orb].
  destruct (existsb _ ids) eqn:E; [|reflexivity].
  apply existsb_exists in E as (i & Hin & Hi).
  apply list_elem_of_In in Hin. rewrite (Hall i Hin) in Hi. discriminate.
Qed.

(** X25. The payload of a new group channel. A payload with a falsy
    name, a server id that is neither the default server nor an
    identifier, participants that are not an array, or one participant
    that is not an identifier is answered 400 without a call. Any other
    payload leads to exactly one [createChannel] call, with the
    participants as given, the server id as given, and the type as
    given, [ChannelType.GROUP] standing in for an [undefined] type
    only; the answer is 201 with the channel when the call returns and
    500 with the error's message when it throws. *)
Theorem X25_group_channel_payload (b : GroupBody) (w : W) :
  let r := centralChannelsRoute b w in
  ((truthy (gb_name b) = false
    \/ ~ serverIdAcceptable (gb_server_id b)
    \/ asArray (gb_participantCentralUserIds b) = None
    \/ (exists ids i,
          gb_participantCentralUserIds b = JArr ids /\ i ∈ ids
          /\ truthy_str (validateUuid i) = false)) ->
   r = (Returns {| code := 400; answer := Error InvalidPayload |}, w, []))
  /\ (forall ids,
        truthy (gb_name b) = true -> serverIdAcceptable (gb_server_id b) ->
        gb_participantCentralUserIds b = JArr ids -> allIdentifiers ids ->
        let data := groupDataFor b in
        trace r = [CreateChannel (WithParticipants data ids)]
        /\ gd_messageServerId data = gb_server_id b
        /\ (gb_type b = JUndefined -> gd_type data = JStr ChannelType_GROUP)
        /\ (gb_type b <> JUndefined -> gd_type data = gb_type b)
        /\ (forall ch,
              (createChannel (WithParticipants data ids) w).1 = Returns ch ->
              outcome r = Returns {| code := 201; answer := Data ch |})
        /\ (forall err,
              (createChannel (WithParticipants data ids) w).1 = Throws err ->
              outcome r
                = Returns
                    {| code := 500;
                       answer :=
                         Error (FailedToCreateGroupChannel (err_message err))
                    |})).
Proof.
  cbv zeta. split.
  - intros Hbad.
    assert (Hinv : invalidPayload b = true).
    { unfold invalidPayload. cbv zeta.
      destruct Hbad as [Hname|[Hsrv|[Harr|(ids & i & Hids & Hin & Hi)]]].
      - rewrite Hname. reflexivity.
      - destruct (is_str (gb_server_id b) Router.DEFAULT_SERVER_ID) eqn:E1.
        { exfalso. apply Hsrv. left. apply is_str_true. exact E1. }
        destruct (truthy_str (validateUuid (gb_server_id b))) eqn:E2.
        { exfalso. apply Hsrv. right. exact E2. }
        cbn. rewrite orb_true_r. reflexivity.
      - rewrite Harr. rewrite !orb_true_r. reflexivity.
      - rewrite Hids. cbn [asArray].
        assert (Hex : existsb (fun i => negb (truthy_str (validateUuid i))) ids
                      = true).
        { apply existsb_exists. exists i. split;
            [apply list_elem_of_In; exact Hin|rewrite Hi; reflexivity]. }
        rewrite Hex. apply orb_true_r. }
    unfold centralChannelsRoute. rewrite Hinv. reflexivity.
  - intros ids Hname Hsrv Hids Hall.
    unfold centralChannelsRoute.
    rewrite (invalidPayload_false b ids Hname Hsrv Hids Hall), Hids.
    cbn [asArray]. change (default [] (Some ids)) with ids.
    run_route. unfold trace, outcome.
    destruct (createChannel (WithParticipants (groupDataFor b) ids) w)
      as [[ch|e] w1]; cbn;
      (split; [reflexivity|]); (split; [reflexivity|]);
      (split; [intros Hty; unfold typeOrGroup; rewrite Hty; reflexivity|]);
      (split; [intros Hty; unfold typeOrGroup;
               destruct (gb_type b); try reflexivity; contradiction|]);
      (split; [intros ch' Hr; try discriminate; injection Hr as <-;
               reflexivity|]);
      intros err Hr; try discriminate; injection Hr as <-; reflexivity.
Qed.

End ManagementProperties.

Section ManagementInstances.

Import Example Management StoreFixture.

Lemma channel1_validAs : validAs channel1 channel1.
Proof. split; vm_compute; [reflexivity|discriminate]. Qed.

Lemma message1_validAs : validAs message1 message1.
Proof. split; vm_compute; [reflexivity|discriminate]. Qed.

Lemma X20_witness :
  invalidId (lit "not-an-id")
  /\ deleteChannelRoute (lit "not-an-id") (store false false false)
     = (Returns {| code := 400; answer := Error InvalidChannel |},
        store false false false, []).
Proof.
  assert (Hbad : invalidId (lit "not-an-id")) by (vm_compute; reflexivity).
  split; [exact Hbad|].
  destruct
    (X20_invalid_id_touches_nothing (lit "not-an-id") message1
       {| cu_name := JUndefined;
          cu_participantCentralUserIds := JUndefined;
          cu_metadata := JUndefined |}
       (store false false false) Hbad)
    as (_ & _ & _ & _ & Hdelete & _).
  exact Hdelete.
Defined.

Lemma deletion_announced :
  BusEmit (message_deleted message1 channel1)
  ∈ trace (deleteMessageRoute channel1 message1 (store false false false)).
Proof. apply list_elem_of_In. vm_compute. right. left. reflexivity. Qed.

Lemma X21_witness :
  exists rest,
    trace (deleteMessageRoute channel1 message1 (store false false false))
    = DeleteMessage message1
      :: BusEmit (message_deleted message1 channel1) :: rest.
Proof.
  destruct
    (X21_message_deleted_only_after_deletion channel1 message1
       (store false false false) _ deletion_announced)
    as (cid & mid & rest & [Hc _] & [Hm _] & _ & _ & Htrace & _).
  exists rest. rewrite Htrace.
  assert (mid = message1) as ->
    by (vm_compute in Hm; injection Hm as <-; reflexivity).
  reflexivity.
Defined.

Lemma X22_witness :
  deleteMessageRoute channel1 message1 (store true false false)
  = (Returns {| code := 500; answer := Error FailedToDeleteMessage |},
     store true false false, [DeleteMessage message1])
  /\ trace (deleteMessageRoute channel1 message1 (store false false true))
     = [DeleteMessage message1; BusEmit (message_deleted message1 channel1)]
  /\ held
       (world_after
          (deleteMessageRoute channel1 message1 (store false false true)))
     = [].
Proof.
  pose proof
    (proj1
       (X22_deletion_failures channel1 message1 channel1 message1
          (store true false false) channel1_validAs message1_validAs)
       (mkError (Some (lit "database is down")))) as Hstore.
  pose proof
    (proj2
       (X22_deletion_failures channel1 message1 channel1 message1
          (store false false true) channel1_validAs message1_validAs)
       (mkError (Some (lit "listener failed")))) as Hbus.
  split; [|split].
  - apply Hstore. vm_compute. reflexivity.
  - rewrite Hbus; [reflexivity|vm_compute; reflexivity..].
  - rewrite Hbus; [vm_compute; reflexivity|vm_compute; reflexivity..].
Defined.

Lemma X23_witness :
  deleteChannelRoute channel1 (store false true false)
  = (Returns {| code := 500; answer := Error FailedToDeleteChannel |},
     store false true false, [GetMessagesForChannel channel1])
  /\ (exists rest,
        trace (deleteChannelRoute channel1 (store false false false))
        = GetMessagesForChannel channel1 :: DeleteChannel channel1
          :: BusEmit (channel_cleared channel1) :: rest)
  /\ outcome (deleteChannelRoute channel1 (store false false false))
     = Returns {| code := 204; answer := NoBody |}
  /\ (exists rest,
        trace (clearMessagesRoute channel1 (store false false false))
        = ClearChannelMessages channel1 :: BusEmit (channel_cleared channel1)
          :: rest)
  /\ outcome (clearMessagesRoute channel1 (store false false false))
     = Returns {| code := 204; answer := NoBody |}.
Proof.
  destruct (X23_channel_deletion_counts_first channel1
              (store false true false)) as (Hcount & _).
  destruct (X23_channel_deletion_counts_first channel1
              (store false false false))
    as (_ & Hdeleted & Hcleared & _).
  split.
  { exact (Hcount channel1 (mkError (Some (lit "database is down")))
             channel1_validAs eq_refl). }
  destruct (Hdeleted channel1 [StoreFixture.rowOf (message1, channel1)]
              channel1_validAs)
    as (Htrace & Hanswer); [vm_compute; reflexivity..|].
  split; [exact Htrace|].
  split; [apply Hanswer; [|intros _]; vm_compute; reflexivity|].
  destruct (Hcleared channel1 channel1_validAs)
    as (Htrace' & Hanswer'); [vm_compute; reflexivity|].
  split; [exact Htrace'|].
  apply Hanswer'; [|intros _]; vm_compute; reflexivity.
Defined.

Lemma dm_asked_on_default_server :
  FindOrCreateCentralDmChannel user1 user2 Router.DEFAULT_SERVER_ID
  ∈ trace
      (dmChannelRoute (JStr user2) (JStr user1) (JStr message1)
         (store false false false)).
Proof. apply list_elem_of_In. vm_compute. right. left. reflexivity. Qed.

Lemma X24_witness :
  trace
    (dmChannelRoute (JStr user2) (JStr user1) (JStr message1)
       (store false false false))
  = [GetServerById message1;
     FindOrCreateCentralDmChannel user1 user2 Router.DEFAULT_SERVER_ID]
  /\ exists e,
       dmChannelRoute (JStr user1) (JStr user1) JUndefined
         (store false false false)
       = (Returns {| code := 400; answer := Error e |},
          store false false false, []).
Proof.
  split.
  - destruct
      (proj1 (proj2
         (X24_dm_channel_server_choice (JStr user2) (JStr user1)
            (JStr message1) (store false false false)))
         user1 user2 Router.DEFAULT_SERVER_ID dm_asked_on_default_server)
      as (_ & _ & _ & [(Hno & _)|(p & Hp & Htrace & _)]).
    + vm_compute in Hno. discriminate.
    + rewrite Htrace. vm_compute in Hp. injection Hp as <-. reflexivity.
  - exact (proj1
      (X24_dm_channel_server_choice (JStr user1) (JStr user1) JUndefined
         (store false false false)) eq_refl).
Defined.

Lemma X25_witness :
  centralChannelsRoute (groupBody (JArr [JStr user1; JNum 7]) JUndefined)
    (store false false false)
  = (Returns {| code := 400; answer := Error InvalidPayload |},
     store false false false, [])
  /\ gd_type
       (groupDataFor (groupBody (JArr [JStr user1; JStr user2]) JNull))
     = JNull.
Proof.
  split.
  - apply (proj1
      (X25_group_channel_payload
         (groupBody (JArr [JStr user1; JNum 7]) JUndefined)
         (store false false false))).
    right. right. right. exists [JStr user1; JNum 7], (JNum 7).
    split; [reflexivity|]. split; [|reflexivity].
    apply elem_of_cons. right. apply elem_of_cons. left. reflexivity.
  - destruct
      (proj2
         (X25_group_channel_payload
            (groupBody (JArr [JStr user1; JStr user2]) JNull)
            (store false false false))
         [JStr user1; JStr user2] eq_refl (or_introl eq_refl) eq_refl)
      as (_ & _ & _ & Hkind & _).
    + intros i Hin.
      apply elem_of_cons in Hin as [->|Hin]; [vm_compute; reflexivity|].
      apply elem_of_cons in Hin as [->|Hin]; [vm_compute; reflexivity|].
      apply elem_of_nil in Hin. contradiction.
    + apply Hkind. discriminate.
Defined.

End ManagementInstances.

(** ** Properties of the upload storage *)

Section StorageProperties.

Import Storage.

Lemma digitsOf_digits (fuel : nat) (n : N) (acc : jsstring) :
  Forall isDigitOrMinus acc -> Forall isDigitOrMinus (digitsOf fuel n acc).
Proof.
  revert n acc. induction fuel as [|fuel IH]; intros n acc Hacc; cbn;
    [exact Hacc|].
  assert (Hd : isDigitOrMinus (48 + n mod 10)%N).
  { right. pose proof (N.mod_upper_bound n 10 ltac:(discriminate)) as Hm.
    generalize dependent (n mod 10)%N. intros m Hm. lia. }
  destruct (n / 10 =? 0)%N; [constructor; assumption|].
  apply IH. constructor; assumption.
Qed.

Lemma digitsOf_app (fuel : nat) (n : N) (acc : jsstring) :
  digitsOf fuel n acc = digitsOf fuel n [] ++ acc.
Proof.
  revert n acc. induction fuel as [|f IH]; intros n acc; cbn; [reflexivity|].
  destruct (n / 10 =? 0)%N; [reflexivity|].
  rewrite IH, (IH _ [_]), <- app_assoc. reflexivity.
Qed.

Lemma valueOf_snoc (s : jsstring) (c : N) :
  valueOf (s ++ [c]) = (valueOf s * 10 + (c - 48))%N.
Proof. unfold valueOf. rewrite fold_left_app. reflexivity. Qed.

Lemma digitsOf_value (fuel : nat) (n : N) :
  (n < 2 ^ N.of_nat fuel)%N -> valueOf (digitsOf fuel n []) = n.
Proof.
  revert n. induction fuel as [|f IH]; intros n Hn.
  - cbn in *. lia.
  - cbn [digitsOf].
    pose proof (N.div_mod n 10 ltac:(discriminate)) as Hdm.
    pose proof (N.mod_upper_bound n 10 ltac:(discriminate)) as Hm.
    destruct (n / 10 =? 0)%N eqn:E.
    + apply N.eqb_eq in E. rewrite E in Hdm.
      generalize dependent (n mod 10)%N. intros m Hdm Hm. cbn. lia.
    + rewrite digitsOf_app, valueOf_snoc, IH.
      * generalize dependent (n mod 10)%N. generalize dependent (n / 10)%N.
        intros q _ m Hdm Hm. lia.
      * assert (Hle : (n / 10 <= n / 2)%N)
          by (apply N.div_le_compat_l; lia).
        assert (Hlt : (n / 2 < 2 ^ N.of_nat f)%N).
        { apply N.Div0.div_lt_upper_bound. rewrite <- N.pow_succ_r'.
          replace (N.succ (N.of_nat f)) with (N.of_nat (S f)) by lia.
          exact Hn. }
        generalize dependent (n / 10)%N. generalize dependent (n / 2)%N.
        intros h Hlt q _ _ Hle. lia.
Qed.

(** The digits [decimalN] writes denote the number: no digit is lost
    to the bound on their number. *)
Lemma decimalN_reads_back (n : N) : valueOf (decimalN n) = n.
Proof.
  unfold decimalN. apply digitsOf_value.
  pose proof (N.size_gt n) as Hs.
  eapply N.lt_le_trans; [exact Hs|].
  apply N.pow_le_mono_r; lia.
Qed.

Lemma decimal_digits (n : Z) : Forall isDigitOrMinus (decimal n).
Proof.
  unfold decimal, decimalN. destruct (n <? 0).
  - constructor; [left; reflexivity|]. apply digitsOf_digits. constructor.
  - apply digitsOf_digits. constructor.
Qed.

Lemma uniquePrefix_digits (now rnd : Z) :
  Forall isDigitOrMinus ((decimal now ++ lit "-" ++ decimal rnd) ++ lit "-").
Proof.
  repeat apply Forall_app_2; try apply decimal_digits;
    repeat constructor.
Qed.

Lemma digit_not_whitespace (c : N) :
  isDigitOrMinus c -> is_whitespace c = false.
Proof.
  intros Hc. unfold is_whitespace.
  apply orb_false_iff. split.
  - apply bool_decide_eq_false. rewrite !elem_of_cons, elem_of_nil.
    destruct Hc as [->|Hc]; intros Hin;
      repeat (destruct Hin as [Hin|Hin]; [lia|]); exact Hin.
  - apply andb_false_iff. left. apply N.leb_gt.
    destruct Hc as [->|Hc]; lia.
Qed.

Lemma squeeze_no_whitespace (inRun : bool) (s : jsstring) :
  Forall (fun c => is_whitespace c = false) (squeeze inRun s).
Proof.
  revert inRun. induction s as [|c s IH]; intros inRun; cbn; [constructor|].
  destruct (is_whitespace c) eqn:E.
  - destruct inRun; [apply IH|]. constructor; [reflexivity|apply IH].
  - constructor; [exact E|apply IH].
Qed.

Lemma startsWith_nil (s : jsstring) : startsWith s [] = true.
Proof. destruct s; reflexivity. Qed.

(** A separator: a unit that is no white space and not the
    underscore. *)
Lemma squeeze_includes_unit (d : N) (inRun : bool) (s : jsstring) :
  is_whitespace d = false -> d <> 95%N ->
  includes (squeeze inRun s) [d] = includes s [d].
Proof.
  intros Hd Hu. revert inRun.
  induction s as [|c s IH]; intros inRun; [reflexivity|].
  cbn [squeeze includes startsWith].
  destruct (is_whitespace c) eqn:E.
  - assert (Hcd : bool_decide (d = c) = false)
      by (apply bool_decide_eq_false; intros ->; congruence).
    rewrite Hcd. cbn [andb orb].
    destruct inRun; [apply IH|].
    cbn [includes startsWith].
    rewrite (bool_decide_eq_false_2 (d = 95%N)) by exact Hu.
    cbn [andb orb]. apply IH.
  - cbn [includes startsWith]. rewrite IH, !startsWith_nil. reflexivity.
Qed.

Lemma squeeze_starts_with_dot (s : jsstring) :
  startsWith (squeeze false s) [46%N] = startsWith s [46%N].
Proof.
  destruct s as [|c s]; [reflexivity|]. cbn [squeeze].
  destruct (is_whitespace c) eqn:E;
    [|cbn [startsWith]; rewrite !startsWith_nil; reflexivity].
  cbn [startsWith].
  assert (Hc : bool_decide (46%N = c) = false).
  { apply bool_decide_eq_false. intros <-. vm_compute in E. discriminate. }
  rewrite Hc. reflexivity.
Qed.

Lemma squeeze_includes_dots (inRun : bool) (s : jsstring) :
  includes (squeeze inRun s) [46%N; 46%N] = includes s [46%N; 46%N].
Proof.
  revert inRun. induction s as [|c s IH]; intros inRun; [reflexivity|].
  cbn [squeeze]. destruct (is_whitespace c) eqn:E.
  - assert (Hc : bool_decide (46%N = c) = false).
    { apply bool_decide_eq_false. intros <-. vm_compute in E. discriminate. }
    cbn [includes startsWith]. rewrite Hc. cbn [andb orb].
    destruct inRun; [apply IH|].
    cbn [includes startsWith]. rewrite IH. reflexivity.
  - cbn [includes]. rewrite IH. f_equal.
    cbn [startsWith]. f_equal.
    change (startsWith (squeeze false s) [46%N] = startsWith s [46%N]).
    apply squeeze_starts_with_dot.
Qed.

Lemma prefix_includes (pre s sub : jsstring) (d : N) (rest : jsstring) :
  sub = d :: rest -> Forall isDigitOrMinus pre -> ~ isDigitOrMinus d ->
  includes (pre ++ s) sub = includes s sub.
Proof.
  intros -> Hpre Hd. induction Hpre as [|c pre Hc Hpre IH]; [reflexivity|].
  cbn [app includes startsWith].
  rewrite (bool_decide_eq_false_2 (d = c))
    by (intros ->; contradiction).
  cbn [andb orb]. exact IH.
Qed.

Lemma dot_no_digit : ~ isDigitOrMinus 46%N.
Proof. intros [Hd|Hd]; [discriminate|lia]. Qed.

Lemma slash_no_digit : ~ isDigitOrMinus 47%N.
Proof. intros [Hd|Hd]; [discriminate|lia]. Qed.

Lemma storedName_includes_slash (now rnd : Z) (originalname : jsstring) :
  includes (storedName now rnd originalname) (lit "/")
  = includes originalname (lit "/").
Proof.
  unfold storedName. cbv zeta. rewrite app_assoc.
  change (lit "/") with [47%N].
  rewrite (prefix_includes _ _ _ 47%N [] eq_refl (uniquePrefix_digits now rnd)
             slash_no_digit).
  apply squeeze_includes_unit; [reflexivity|discriminate].
Qed.

Lemma storedName_includes_dots (now rnd : Z) (originalname : jsstring) :
  includes (storedName now rnd originalname) (lit "..")
  = includes originalname (lit "..").
Proof.
  unfold storedName. cbv zeta. rewrite app_assoc.
  change (lit "..") with [46%N; 46%N].
  rewrite (prefix_includes _ _ _ 46%N [46%N] eq_refl
             (uniquePrefix_digits now rnd) dot_no_digit).
  apply squeeze_includes_dots.
Qed.

Lemma storedName_nonempty (now rnd : Z) (originalname : jsstring) :
  exists c s, storedName now rnd originalname = c :: s.
Proof.
  unfold storedName. cbv zeta.
  destruct (decimal now) as [|c s] eqn:E; [|cbn; eauto].
  cbn. change (lit "-") with [45%N]. cbn. eauto.
Qed.

Section ChannelUploads.

Context `{Core} {W : Type} `{FileSystem W}.

Variable ALLOWED_MEDIA_MIME_TYPES : list jsstring.

(** X26. The upload directory is touched only for a valid channel id.
    A missing, empty or refused [channelId] makes [destination] hand
    an error to its callback without any file-system call. When it
    hands over a directory, that directory is
    [cwd/data/uploads/channels/channelId] for the id as given, the id
    is one [validateUuid] accepts (so the upload route will not answer
    with an invalid-channel error), and [mkdirSync] has been called
    exactly when [existsSync] said the directory was not there. *)
Theorem X26_destination_validates_before_disk
    (channelId : option jsstring) (w : W) :
  let r := destination channelId w in
  (truthy_str channelId = false
   \/ truthy_str (validateUuid (JStr (default [] channelId))) = false ->
   exists e, r = (Returns (cbError e), w, []))
  /\ (forall dir,
        outcome r = Returns (cbDirectory dir) ->
        exists cid,
          channelId = Some cid
          /\ truthy_str (validateUuid (JStr cid)) = true
          /\ dir = uploadDirFor cid w
          /\ (forall file,
                Router.body
                  (Router.uploadMedia ALLOWED_MEDIA_MIME_TYPES cid file)
                <> Router.Failure Router.InvalidChannelIdFormat)
          /\ (existsSync dir w = true ->
              trace r = [ExistsSync dir] /\ world_after r = w)
          /\ (existsSync dir w = false ->
              trace r = [ExistsSync dir; MkdirSync dir]
              /\ (mkdirSync dir w).1 = Returns tt)).
Proof.
  cbv zeta. unfold destination.
  destruct channelId as [[|c cs]|]; cbn [truthy_str negb];
    try (split; [intros _; eexists; reflexivity|];
         intros dir Hr; discriminate).
  change (default [] (Some (c :: cs))) with (c :: cs).
  destruct (truthy_str (validateUuid (JStr (c :: cs)))) eqn:Hvalid;
    cbn [negb].
  - split; [intros [Hno|Hno]; discriminate|].
    unfold bind, call, ret, outcome, trace, world_after.
    destruct (existsSync (uploadDirFor (c :: cs) w) w) eqn:Hex; cbn.
    + intros dir Hr. injection Hr as <-. exists (c :: cs).
      split; [reflexivity|]. split; [exact Hvalid|].
      split; [reflexivity|]. split.
      * intros file. unfold Router.uploadMedia.
        destruct (validateUuid (JStr (c :: cs))) as [[|x xs]|];
          try discriminate.
        destruct file as [f|]; [|discriminate].
        destruct (negb _); [discriminate|].
        destruct (Router.filename f) as [[|y ys]|]; try discriminate.
        destruct (_ || _); [discriminate|].
        destruct (_ >? _); discriminate.
      * rewrite Hex. split; [auto|discriminate].
    + destruct (mkdirSync (uploadDirFor (c :: cs) w) w) as [[[]|e] w1] eqn:Hmk;
        cbn; intros dir Hr; [|discriminate].
      injection Hr as <-. exists (c :: cs).
      split; [reflexivity|]. split; [exact Hvalid|].
      split; [reflexivity|]. split.
      * intros file. unfold Router.uploadMedia.
        destruct (validateUuid (JStr (c :: cs))) as [[|x xs]|];
          try discriminate.
        destruct file as [f|]; [|discriminate].
        destruct (negb _); [discriminate|].
        destruct (Router.filename f) as [[|y ys]|]; try discriminate.
        destruct (_ || _); [discriminate|].
        destruct (_ >? _); discriminate.
      * rewrite Hex, Hmk. split; [discriminate|auto].
  - split; [intros _; eexists; reflexivity|].
    intros dir Hr. discriminate.
Qed.

(** X27. The stored name and the upload route's filename check. Take
    a time value [now], a number [rnd] between 0 and 10^9, and an
    original name as multer hands it on, that is, without [/]. The
    name [channelStorage] gives the file contains no white space and
    no [/], and contains [..] exactly when the original name does. So,
    for a valid channel and an allowed type, the route refuses the
    file as 'Invalid filename detected' exactly when its original name
    contains [..], after multer has stored it; any other file of at
    most 50 MB is answered with the URL
    [/media/uploads/channels/{channelId}/{stored name}]. *)
Theorem X27_stored_name_and_upload_route
    (now rnd : Z) (mimetype originalname : jsstring) (size : Z)
    (channelIdRaw : jsstring) (cid : UUID) :
  Z.abs now <= 8640000000000000 -> 0 <= rnd <= 1000000000 ->
  validateUuid (JStr channelIdRaw) = Some cid -> cid <> [] ->
  mimetype ∈ ALLOWED_MEDIA_MIME_TYPES ->
  baseName originalname ->
  let name := storedName now rnd originalname in
  let r :=
    Router.uploadMedia ALLOWED_MEDIA_MIME_TYPES channelIdRaw
      (Some (storedFile now rnd mimetype originalname size)) in
  Forall (fun c => is_whitespace c = false) name
  /\ includes name (lit "/") = false
  /\ includes name (lit "..") = includes originalname (lit "..")
  /\ (includes originalname (lit "..") = true ->
      r = {| Router.status := 400;
             Router.body := Router.Failure Router.InvalidFilenameDetected |})
  /\ (includes originalname (lit "..") = false ->
      (size <= Router.maxFileSize ->
       exists d,
         r = {| Router.status := 200; Router.body := Router.Success d |}
         /\ Router.url d
            = lit "/media/uploads/channels/" ++ cid ++ lit "/" ++ name
         /\ Router.originalName d = originalname)
      /\ (Router.maxFileSize < size ->
          r = {| Router.status := 400;
                 Router.body := Router.Failure Router.FileTooLarge |})).
Proof.
  intros _ _ Hcid Hne Hallowed Hbase. cbv zeta.
  pose proof (storedName_includes_slash now rnd originalname) as Hslash.
  pose proof (storedName_includes_dots now rnd originalname) as Hdots.
  unfold baseName in Hbase. rewrite Hbase in Hslash.
  split; [|split; [exact Hslash|split; [exact Hdots|]]].
  - unfold storedName. cbv zeta. rewrite app_assoc.
    apply Forall_app_2; [|apply squeeze_no_whitespace].
    eapply Forall_impl; [apply uniquePrefix_digits|].
    intros c Hc. apply digit_not_whitespace. exact Hc.
  - unfold Router.uploadMedia. rewrite Hcid.
    destruct cid as [|c cs]; [contradiction|].
    cbn [storedFile Router.mimetype Router.filename Router.size
           Router.originalname].
    rewrite (bool_decide_eq_true_2 _ Hallowed). cbn [negb].
    destruct (storedName_nonempty now rnd originalname) as (x & xs & Hname).
    rewrite Hname. rewrite <- Hname. rewrite Hslash, Hdots.
    split.
    + intros ->. reflexivity.
    + intros ->. cbn [orb]. split.
      * intros Hsize.
        destruct (size >? Router.maxFileSize) eqn:E; [lia|].
        eexists. split; [reflexivity|]. split; reflexivity.
      * intros Hsize.
        destruct (size >? Router.maxFileSize) eqn:E; [reflexivity|lia].
Qed.

End ChannelUploads.

End StorageProperties.

Section StorageInstances.

Import Example Storage DiskFixture.

Lemma X26_witness :
  Storage.destination (Some channel1) emptyDisk
  = (Returns (cbDirectory channel1Dir),
     {| directories := [channel1Dir]; readOnly := false |},
     [ExistsSync channel1Dir; MkdirSync channel1Dir])
  /\ exists e,
       Storage.destination (Some (lit "../../etc")) emptyDisk
       = (Returns (cbError e), emptyDisk, []).
Proof.
  split; [vm_compute; reflexivity|].
  apply (proj1
    (X26_destination_validates_before_disk [lit "image/png"]
       (Some (lit "../../etc")) emptyDisk)).
  right. vm_compute. reflexivity.
Defined.

Lemma X27_witness :
  storedName 1700000000000 42 (lit "my  cat.png")
  = lit "1700000000000-42-my_cat.png"
  /\ Router.uploadMedia [lit "image/png"] channel1
       (Some
          (storedFile 1700000000000 42 (lit "image/png")
             (lit "my..cat.png") 1000))
     = {| Router.status := 400;
          Router.body := Router.Failure Router.InvalidFilenameDetected |}
  /\ exists d,
       Router.uploadMedia [lit "image/png"] channel1
         (Some
            (storedFile 1700000000000 42 (lit "image/png")
               (lit "my  cat.png") 1000))
       = {| Router.status := 200; Router.body := Router.Success d |}
       /\ Router.url d
          = lit "/media/uploads/channels/" ++ channel1 ++ lit "/"
            ++ storedName 1700000000000 42 (lit "my  cat.png").
Proof.
  split; [vm_compute; reflexivity|].
  destruct
    (X27_stored_name_and_upload_route [lit "image/png"] 1700000000000 42
       (lit "image/png") (lit "my..cat.png") 1000 channel1 channel1
       ltac:(lia) ltac:(lia) channel1_valid)
    as (_ & _ & _ & Hrefused & _).
  { vm_compute. discriminate. }
  { apply elem_of_cons. left. reflexivity. }
  { vm_compute. reflexivity. }
  split; [apply Hrefused; vm_compute; reflexivity|].
  destruct
    (X27_stored_name_and_upload_route [lit "image/png"] 1700000000000 42
       (lit "image/png") (lit "my  cat.png") 1000 channel1 channel1
       ltac:(lia) ltac:(lia) channel1_valid)
    as (_ & _ & _ & _ & Haccepted).
  { vm_compute. discriminate. }
  { apply elem_of_cons. left. reflexivity. }
  { vm_compute. reflexivity. }
  destruct (proj1 (Haccepted ltac:(vm_compute; reflexivity)))
    as (d & Hr & Hurl & _).
  { vm_compute. discriminate. }
  exists d. split; [exact Hr|exact Hurl].
Defined.

End StorageInstances.

(** ** Properties of the client's message list *)

Section HooksProperties.

Import Client Hooks.

(** *** The [Map] of entries *)

Lemma mapSet_keys {V} (k : option UUID) (v : V) (m : list (option UUID * V)) :
  (mapSet k v m).*1 = if bool_decide (k ∈ m.*1) then m.*1 else m.*1 ++ [k].
Proof.
  induction m as [|[k' v'] m IH]; [reflexivity|]. cbn [mapSet].
  destruct (decide (k' = k)) as [->|Hne].
  - rewrite (bool_decide_eq_true_2 (k = k)) by reflexivity.
    cbn. rewrite bool_decide_eq_true_2; [reflexivity|].
    apply elem_of_cons. auto.
  - rewrite (bool_decide_eq_false_2 (k' = k)) by exact Hne.
    cbn. rewrite IH.
    destruct (decide (k ∈ m.*1)) as [Hin|Hnin].
    + rewrite (bool_decide_eq_true_2 (k ∈ m.*1)) by exact Hin.
      rewrite bool_decide_eq_true_2; [reflexivity|].
      apply elem_of_cons. auto.
    + rewrite (bool_decide_eq_false_2 (k ∈ m.*1)) by exact Hnin.
      rewrite bool_decide_eq_false_2; [reflexivity|].
      intros Hin. apply elem_of_cons in Hin as [->|Hin]; contradiction.
Qed.

Lemma mapSet_NoDup {V} (k : option UUID) (v : V) (m : list (option UUID * V)) :
  NoDup m.*1 -> NoDup (mapSet k v m).*1.
Proof.
  intros Hm. rewrite mapSet_keys. case_bool_decide as Hk; [exact Hm|].
  apply NoDup_app. split; [exact Hm|]. split.
  - intros x Hx Hin. apply list_elem_of_singleton in Hin. subst x.
    contradiction.
  - apply NoDup_singleton.
Qed.

Lemma mapSet_elem {V} (k : option UUID) (v : V) (m : list (option UUID * V))
    (k' : option UUID) (v' : V) :
  NoDup m.*1 ->
  (k', v') ∈ mapSet k v m
  <-> (k' = k /\ v' = v) \/ (k' <> k /\ (k', v') ∈ m).
Proof.
  induction m as [|[k0 v0] m IH]; intros Hm; cbn [mapSet].
  - rewrite list_elem_of_singleton. split.
    + intros Heq. injection Heq as -> ->. auto.
    + intros [[-> ->]|[_ Hin]]; [reflexivity|].
      apply elem_of_nil in Hin. contradiction.
  - cbn in Hm. apply NoDup_cons in Hm as [Hk0 Hm].
    destruct (decide (k0 = k)) as [->|Hne0].
    + rewrite (bool_decide_eq_true_2 (k = k)) by reflexivity.
      rewrite !elem_of_cons. split.
      * intros [Heq|Hin]; [injection Heq as -> ->; auto|].
        right. split; [|auto]. intros ->. apply Hk0.
        apply list_elem_of_fmap. exists (k, v'). auto.
      * intros [[-> ->]|[Hne [Heq|Hin]]]; auto.
        injection Heq as -> ->. contradiction.
    + rewrite (bool_decide_eq_false_2 (k0 = k)) by exact Hne0.
      rewrite !elem_of_cons, (IH Hm). split.
      * intros [Heq|[[-> ->]|[Hne Hin]]]; auto.
        injection Heq as -> ->. auto.
      * intros [[-> ->]|[Hne [Heq|Hin]]]; auto.
Qed.

Lemma newMap_snoc {V} (entries : list (option UUID * V)) (e : option UUID * V) :
  newMap (entries ++ [e]) = mapSet e.1 e.2 (newMap entries).
Proof. unfold newMap. rewrite foldl_snoc. reflexivity. Qed.

Lemma newMap_NoDup {V} (entries : list (option UUID * V)) :
  NoDup (newMap entries).*1.
Proof.
  induction entries as [|e entries IH] using rev_ind; [constructor|].
  rewrite newMap_snoc. apply mapSet_NoDup. exact IH.
Qed.

(** An entry is in the map exactly when it is the last entry given
    for its key. *)
Lemma newMap_elem {V} (entries : list (option UUID * V))
    (k : option UUID) (v : V) :
  (k, v) ∈ newMap entries
  <-> last (List.filter (fun e => bool_decide (e.1 = k)) entries)
      = Some (k, v).
Proof.
  induction entries as [|[k0 v0] entries IH] using rev_ind.
  - cbn. split; [intros Hin; apply elem_of_nil in Hin; contradiction|].
    discriminate.
  - rewrite newMap_snoc, (mapSet_elem _ _ _ _ _ (newMap_NoDup entries)).
    rewrite List.filter_app. cbn [List.filter fst snd].
    destruct (decide (k0 = k)) as [->|Hne].
    + rewrite (bool_decide_eq_true_2 (k = k)) by reflexivity.
      rewrite last_snoc. split.
      * intros [[_ ->]|[Hne _]]; [reflexivity|contradiction].
      * intros Heq. injection Heq as ->. auto.
    + rewrite (bool_decide_eq_false_2 (k0 = k)) by exact Hne.
      rewrite app_nil_r, <- IH. split.
      * intros [[-> _]|[_ Hin]]; [contradiction|exact Hin].
      * intros Hin. right. split; [congruence|exact Hin].
Qed.

Lemma filter_fmap_entries (l : list UiMessage) (k : option UUID) :
  List.filter (fun e : option UUID * UiMessage => bool_decide (e.1 = k))
    ((fun item => (id item, item)) <$> l)
  = (fun item => (id item, item))
    <$> List.filter (fun x => bool_decide (id x = k)) l.
Proof.
  induction l as [|x l IH]; [reflexivity|]. cbn.
  destruct (bool_decide (id x = k)); cbn; rewrite IH; reflexivity.
Qed.

Lemma uniqueMessages_elem (l : list UiMessage) (m : UiMessage) :
  m ∈ uniqueMessages l <-> lastWithItsId l m.
Proof.
  unfold uniqueMessages, lastWithItsId. rewrite list_elem_of_fmap. split.
  - intros ([k v] & -> & Hin). cbn.
    apply newMap_elem in Hin. rewrite filter_fmap_entries in Hin.
    rewrite fmap_last in Hin.
    destruct (last (List.filter _ l)) as [x|] eqn:Hlast; [|discriminate].
    cbn in Hin. injection Hin as Hk ->. subst k. exact Hlast.
  - intros Hlast. exists (id m, m). split; [reflexivity|].
    apply newMap_elem. rewrite filter_fmap_entries, fmap_last, Hlast.
    reflexivity.
Qed.

Lemma newMap_entries {V} (entries : list (option UUID * V))
    (e : option UUID * V) :
  e ∈ newMap entries -> e ∈ entries.
Proof.
  revert e. induction entries as [|e0 entries IH] using rev_ind; intros [k v].
  - intros Hin. apply elem_of_nil in Hin. contradiction.
  - rewrite newMap_snoc, (mapSet_elem _ _ _ _ _ (newMap_NoDup entries)).
    rewrite elem_of_app, list_elem_of_singleton.
    intros [[-> ->]|[_ Hin]]; [right; destruct e0; reflexivity|].
    left. apply IH. exact Hin.
Qed.

Lemma uniqueMessages_uniqueIds (l : list UiMessage) :
  uniqueIds (uniqueMessages l).
Proof.
  unfold uniqueIds, uniqueMessages.
  assert (Hkeys :
    id <$> (snd <$> newMap ((fun item => (id item, item)) <$> l))
    = (newMap ((fun item => (id item, item)) <$> l)).*1).
  { pose proof (newMap_entries ((fun item => (id item, item)) <$> l)) as Hsub.
    induction (newMap ((fun item => (id item, item)) <$> l)) as [|[k v] M IH];
      [reflexivity|].
    cbn. f_equal.
    - assert (Hin : (k, v) ∈ (fun item => (id item, item)) <$> l)
        by (apply Hsub, elem_of_cons; auto).
      apply list_elem_of_fmap in Hin as (x & Heq & _).
      injection Heq as -> ->. reflexivity.
    - apply IH. intros e He. apply Hsub, elem_of_cons. auto. }
  rewrite Hkeys. apply newMap_NoDup.
Qed.

(** *** The sort *)

Lemma insertByCreatedAt_perm (x : UiMessage) (l : list UiMessage) :
  insertByCreatedAt x l ≡ₚ x :: l.
Proof.
  induction l as [|y l IH]; [reflexivity|]. cbn.
  destruct (createdAt x <=? createdAt y); [reflexivity|].
  rewrite IH. apply Permutation_swap.
Qed.

Lemma sortByCreatedAt_perm (l : list UiMessage) : sortByCreatedAt l ≡ₚ l.
Proof.
  induction l as [|x l IH]; [reflexivity|]. cbn.
  rewrite insertByCreatedAt_perm, IH. reflexivity.
Qed.

Lemma insertByCreatedAt_ascending (x : UiMessage) (l : list UiMessage) :
  ascending l -> ascending (insertByCreatedAt x l).
Proof.
  unfold ascending. induction l as [|y l IH]; intros Hl; cbn.
  - repeat constructor.
  - apply StronglySorted_inv in Hl as [Hl Hy].
    destruct (createdAt x <=? createdAt y) eqn:E.
    + apply Z.leb_le in E. constructor; [constructor; assumption|].
      constructor; [exact E|].
      eapply Forall_impl; [exact Hy|]. cbn. intros z Hz. lia.
    + apply Z.leb_gt in E. constructor; [apply IH; exact Hl|].
      rewrite insertByCreatedAt_perm. constructor; [lia|exact Hy].
Qed.

Lemma sortByCreatedAt_ascending (l : list UiMessage) :
  ascending (sortByCreatedAt l).
Proof.
  induction l as [|x l IH]; [constructor|].
  cbn. apply insertByCreatedAt_ascending. exact IH.
Qed.

Lemma sortByCreatedAt_elem (l : list UiMessage) (m : UiMessage) :
  m ∈ sortByCreatedAt l <-> m ∈ l.
Proof. rewrite (sortByCreatedAt_perm l). reflexivity. Qed.

Lemma sortByCreatedAt_uniqueIds (l : list UiMessage) :
  uniqueIds (sortByCreatedAt l) <-> uniqueIds l.
Proof. unfold uniqueIds. rewrite (sortByCreatedAt_perm l). reflexivity. Qed.

Lemma filter_none {A} (p : A -> bool) (l : list A) :
  (forall y, y ∈ l -> p y = false) -> List.filter p l = [].
Proof.
  induction l as [|x l IH]; intros Hl; [reflexivity|]. cbn.
  rewrite (Hl x) by (apply elem_of_cons; auto).
  apply IH. intros y Hy. apply Hl, elem_of_cons. auto.
Qed.

Lemma filter_all {A} (p : A -> bool) (l : list A) :
  (forall y, y ∈ l -> p y = true) -> List.filter p l = l.
Proof.
  induction l as [|x l IH]; intros Hl; [reflexivity|]. cbn.
  rewrite (Hl x) by (apply elem_of_cons; auto).
  f_equal. apply IH. intros y Hy. apply Hl, elem_of_cons. auto.
Qed.

Lemma filter_elem {A} (p : A -> bool) (l : list A) (x : A) :
  x ∈ List.filter p l <-> x ∈ l /\ p x = true.
Proof. rewrite !list_elem_of_In. apply filter_In. Qed.

(** In a list without repeated ids a message is the only one with its
    id. *)
Lemma uniqueIds_filter (l : list UiMessage) (m : UiMessage) :
  uniqueIds l -> m ∈ l ->
  List.filter (fun x => bool_decide (id x = id m)) l = [m].
Proof.
  unfold uniqueIds. induction l as [|x l IH]; intros Hl Hm.
  - apply elem_of_nil in Hm. contradiction.
  - cbn in Hl. apply NoDup_cons in Hl as [Hx Hl]. cbn [List.filter].
    apply elem_of_cons in Hm as [->|Hm].
    + rewrite bool_decide_eq_true_2 by reflexivity. f_equal.
      apply filter_none. intros y Hy. apply bool_decide_eq_false.
      intros Heq. apply Hx. rewrite <- Heq.
      apply list_elem_of_fmap. eauto.
    + rewrite bool_decide_eq_false_2; [apply IH; assumption|].
      intros Heq. apply Hx. rewrite Heq. apply list_elem_of_fmap. eauto.
Qed.

Lemma lastWithItsId_elem (l : list UiMessage) (m : UiMessage) :
  lastWithItsId l m -> m ∈ l.
Proof.
  unfold lastWithItsId. intros Hlast.
  apply last_Some in Hlast as [l' Hl'].
  assert (Hin : m ∈ List.filter (fun x => bool_decide (id x = id m)) l)
    by (rewrite Hl'; apply elem_of_app; right; apply elem_of_cons; auto).
  apply filter_elem in Hin as [Hin _]. exact Hin.
Qed.

(** X28. After a fetch the list holds each id once, oldest first. The
    messages kept are exactly those that come last, for their id, in
    the combined list (the fetched messages, followed by the held ones
    when an older page was asked for). So when an older page is
    fetched into a list without repeated ids, every held message
    stays, also when the page brings a message with the same id; and
    a first load keeps fetched messages only. *)
Theorem X28_fetched_messages_unique_and_sorted
    (beforeTimestamp : option Z) (newUiMessages prev : list UiMessage) :
  let r := mergeFetched beforeTimestamp newUiMessages prev in
  uniqueIds r
  /\ ascending r
  /\ (forall m,
        m ∈ r
        <-> lastWithItsId (combinedWith beforeTimestamp newUiMessages prev) m)
  /\ (truthy_num beforeTimestamp = true -> uniqueIds prev ->
      forall m, m ∈ prev -> m ∈ r)
  /\ (truthy_num beforeTimestamp = false ->
      forall m, m ∈ r -> m ∈ newUiMessages).
Proof.
  cbv zeta. unfold mergeFetched. cbv zeta.
  assert (Helem : forall m,
    m ∈ sortByCreatedAt
          (uniqueMessages (combinedWith beforeTimestamp newUiMessages prev))
    <-> lastWithItsId (combinedWith beforeTimestamp newUiMessages prev) m).
  { intros m. rewrite sortByCreatedAt_elem. apply uniqueMessages_elem. }
  split; [apply sortByCreatedAt_uniqueIds, uniqueMessages_uniqueIds|].
  split; [apply sortByCreatedAt_ascending|].
  split; [exact Helem|]. split.
  - intros Hpage Hprev m Hm. apply Helem.
    unfold combinedWith, lastWithItsId. rewrite Hpage.
    rewrite List.filter_app, (uniqueIds_filter prev m Hprev Hm).
    apply last_snoc.
  - intros Hfirst m Hm. apply Helem in Hm.
    unfold combinedWith in Hm. rewrite Hfirst in Hm.
    apply lastWithItsId_elem in Hm. exact Hm.
Qed.

(** *** Adding and removing *)

Lemma findIndex_Some {A} (p : A -> bool) (l : list A) (i : nat) :
  findIndex p l = Some i ->
  exists l1 x l2,
    l = l1 ++ x :: l2 /\ length l1 = i /\ p x = true
    /\ forall y, y ∈ l1 -> p y = false.
Proof.
  revert i. induction l as [|x l IH]; intros i; cbn; [discriminate|].
  destruct (p x) eqn:Hx.
  - intros Hi. injection Hi as <-. exists [], x, l.
    repeat split; auto. intros y Hy. apply elem_of_nil in Hy. contradiction.
  - destruct (findIndex p l) as [j|]; [|discriminate].
    cbn. intros Hi. injection Hi as <-.
    destruct (IH j eq_refl) as (l1 & y & l2 & -> & <- & Hy & Hl1).
    exists (x :: l1), y, l2. repeat split; auto.
    intros z Hz. apply elem_of_cons in Hz as [->|Hz]; auto.
Qed.

Lemma findIndex_None {A} (p : A -> bool) (l : list A) :
  findIndex p l = None -> forall y, y ∈ l -> p y = false.
Proof.
  induction l as [|x l IH]; cbn.
  - intros _ y Hy. apply elem_of_nil in Hy. contradiction.
  - destruct (p x) eqn:Hx; [discriminate|].
    destruct (findIndex p l); [discriminate|].
    intros _ y Hy. apply elem_of_cons in Hy as [->|Hy]; auto.
Qed.

(** X29. [addMessage] adds or replaces. On a list without repeated
    ids the result is oldest first and again without repeated ids; it
    holds the new message and, of the old ones, exactly those with
    another id; its length is that of the old list when the id was
    there and one more when it was not. *)
Theorem X29_addMessage_adds_or_replaces
    (newMessage : UiMessage) (prev : list UiMessage) :
  uniqueIds prev ->
  let r := addMessage newMessage prev in
  ascending r
  /\ uniqueIds r
  /\ (forall m,
        m ∈ r <-> m = newMessage \/ (m ∈ prev /\ id m <> id newMessage))
  /\ length r
     = if bool_decide (id newMessage ∈ id <$> prev) then length prev
       else S (length prev).
Proof.
  intros Hprev. cbv zeta. unfold addMessage.
  destruct (findIndex _ prev) as [i|] eqn:Hfind.
  - apply findIndex_Some in Hfind as (l1 & x & l2 & -> & <- & Hx & Hl1).
    apply bool_decide_eq_true in Hx.
    replace (length l1) with (length l1 + 0)%nat by lia.
    rewrite insert_app_r. cbn [list_insert].
    change (<[0%nat:=newMessage]> (x :: l2)) with (newMessage :: l2).
    assert (Hids : id <$> l1 ++ newMessage :: l2 = id <$> l1 ++ x :: l2)
      by (rewrite !fmap_app; cbn; rewrite Hx; reflexivity).
    split; [apply sortByCreatedAt_ascending|].
    split; [apply sortByCreatedAt_uniqueIds; unfold uniqueIds;
            rewrite Hids; exact Hprev|].
    unfold uniqueIds in Hprev. rewrite fmap_app in Hprev. cbn in Hprev.
    apply NoDup_app in Hprev as (Hn1 & Hdisj & Hn2).
    apply NoDup_cons in Hn2 as [Hx2 Hn2].
    split.
    + intros m. rewrite sortByCreatedAt_elem, !elem_of_app, !elem_of_cons.
      split.
      * intros [Hm|[->|Hm]]; [right|left; reflexivity|right].
        -- split; [auto|]. intros Heq. apply (Hdisj (id m)).
           ++ apply list_elem_of_fmap. eauto.
           ++ rewrite Heq, <- Hx. apply elem_of_cons. auto.
        -- split; [auto|]. intros Heq. apply Hx2. rewrite Hx, <- Heq.
           apply list_elem_of_fmap. eauto.
      * intros [->|[[Hm|[->|Hm]] Hne]]; auto. contradiction.
    + rewrite (Permutation_length (sortByCreatedAt_perm _)).
      rewrite bool_decide_eq_true_2.
      * rewrite !length_app. reflexivity.
      * rewrite <- Hx, fmap_app. apply elem_of_app. right.
        apply elem_of_cons. auto.
  - pose proof (findIndex_None _ _ Hfind) as Hnone.
    assert (Hfresh : id newMessage ∉ id <$> prev).
    { intros Hin. apply list_elem_of_fmap in Hin as (y & Heq & Hy).
      specialize (Hnone y Hy). apply bool_decide_eq_false in Hnone.
      congruence. }
    split; [apply sortByCreatedAt_ascending|].
    split.
    { apply sortByCreatedAt_uniqueIds. unfold uniqueIds.
      rewrite fmap_app. apply NoDup_app. split; [exact Hprev|]. split.
      - intros k Hk Hin. cbn in Hin. apply list_elem_of_singleton in Hin.
        subst k. contradiction.
      - apply NoDup_singleton. }
    split.
    + intros m. rewrite sortByCreatedAt_elem, elem_of_app,
        list_elem_of_singleton. split.
      * intros [Hm | ->]; [right|left; reflexivity].
        split; [exact Hm|]. intros Heq. apply Hfresh. rewrite <- Heq.
        apply list_elem_of_fmap. eauto.
      * intros [->|[Hm _]]; auto.
    + rewrite (Permutation_length (sortByCreatedAt_perm _)).
      rewrite bool_decide_eq_false_2 by exact Hfresh.
      rewrite length_app. cbn. lia.
Qed.

Lemma insertByCreatedAt_elem (x m : UiMessage) (l : list UiMessage) :
  m ∈ insertByCreatedAt x l <-> m = x \/ m ∈ l.
Proof. rewrite (insertByCreatedAt_perm x l). apply elem_of_cons. Qed.

(** Filtering after an insertion: the inserted message comes first
    among the kept ones when no kept message is older. *)
Lemma filter_insertByCreatedAt (p : UiMessage -> bool) (x : UiMessage)
    (l : list UiMessage) :
  p x = true ->
  (forall y, y ∈ l -> p y = true -> createdAt x <= createdAt y) ->
  List.filter p (insertByCreatedAt x l) = x :: List.filter p l.
Proof.
  intros Hx. induction l as [|y l IH]; intros Hl; cbn.
  - rewrite Hx. reflexivity.
  - destruct (createdAt x <=? createdAt y) eqn:E.
    + cbn. rewrite Hx. reflexivity.
    + apply Z.leb_gt in E. cbn.
      destruct (p y) eqn:Hy.
      * specialize (Hl y ltac:(apply elem_of_cons; auto) Hy). lia.
      * apply IH. intros z Hz. apply Hl, elem_of_cons. auto.
Qed.

Lemma ascending_filter (p : UiMessage -> bool) (l : list UiMessage) :
  ascending l -> ascending (List.filter p l).
Proof.
  unfold ascending. induction l as [|x l IH]; intros Hl; [constructor|].
  apply StronglySorted_inv in Hl as [Hl Hx]. cbn.
  destruct (p x); [|apply IH; exact Hl].
  constructor; [apply IH; exact Hl|].
  apply List.Forall_forall. intros y Hy. apply filter_In in Hy as [Hy _].
  rewrite List.Forall_forall in Hx. apply Hx. exact Hy.
Qed.

Lemma uniqueIds_filter_keeps (p : UiMessage -> bool) (l : list UiMessage) :
  uniqueIds l -> uniqueIds (List.filter p l).
Proof.
  unfold uniqueIds. induction l as [|x l IH]; intros Hl; [constructor|].
  cbn in Hl. apply NoDup_cons in Hl as [Hx Hl]. cbn.
  destruct (p x); [|apply IH; exact Hl].
  cbn. apply NoDup_cons. split; [|apply IH; exact Hl].
  intros Hin. apply Hx.
  apply list_elem_of_fmap in Hin as (y & Heq & Hy).
  apply filter_elem in Hy as [Hy _].
  apply list_elem_of_fmap. eauto.
Qed.

(** X30. [removeMessage] removes by id and undoes [addMessage]. The
    result holds exactly the messages with another id, in their old
    order, so a list that was oldest first or without repeated ids
    stays so. Adding a message whose id is new to a list that is
    oldest first, and removing that id again, gives back the list. *)
Theorem X30_removeMessage_undoes_addMessage
    (messageId : jsstring) (prev : list UiMessage) :
  (forall m,
     m ∈ removeMessage messageId prev
     <-> m ∈ prev /\ id m <> Some messageId)
  /\ (ascending prev -> ascending (removeMessage messageId prev))
  /\ (uniqueIds prev -> uniqueIds (removeMessage messageId prev))
  /\ (forall newMessage,
        id newMessage = Some messageId ->
        Some messageId ∉ id <$> prev ->
        ascending prev ->
        removeMessage messageId (addMessage newMessage prev) = prev).
Proof.
  split; [|split; [|split]].
  - intros m. unfold removeMessage. rewrite filter_elem.
    rewrite negb_true_iff, bool_decide_eq_false. reflexivity.
  - apply ascending_filter.
  - apply uniqueIds_filter_keeps.
  - intros newMessage Hid Hfresh Hasc. unfold addMessage.
    assert (Hnone :
      findIndex (fun m => bool_decide (id m = id newMessage)) prev = None).
    { destruct (findIndex _ prev) as [i|] eqn:Hfind; [|reflexivity].
      apply findIndex_Some in Hfind as (l1 & x & l2 & -> & _ & Hx & _).
      apply bool_decide_eq_true in Hx. exfalso. apply Hfresh.
      rewrite <- Hid, <- Hx, fmap_app. apply elem_of_app. right.
      apply elem_of_cons. auto. }
    rewrite Hnone. unfold removeMessage, sortByCreatedAt.
    rewrite foldr_app. cbn [foldr insertByCreatedAt].
    set (p := fun m : UiMessage => negb (bool_decide (id m = Some messageId))).
    assert (Hnew : p newMessage = false)
      by (unfold p; rewrite bool_decide_eq_true_2 by exact Hid; reflexivity).
    clear Hnone. unfold ascending in Hasc.
    induction prev as [|x prev IH]; cbn [foldr].
    + cbn. rewrite Hnew. reflexivity.
    + apply StronglySorted_inv in Hasc as [Hasc Hx].
      assert (Hpx : p x = true).
      { unfold p. rewrite bool_decide_eq_false_2; [reflexivity|].
        intros Heq. apply Hfresh. rewrite <- Heq. cbn.
        apply elem_of_cons. auto. }
      assert (Hfresh' : Some messageId ∉ id <$> prev).
      { intros Hin. apply Hfresh. cbn. apply elem_of_cons. auto. }
      rewrite filter_insertByCreatedAt; [rewrite (IH Hfresh' Hasc);
                                          reflexivity|exact Hpx|].
      intros y Hy Hpy.
      assert (Hyin : y ∈ prev).
      { assert (Hel : forall l acc, y ∈ foldr insertByCreatedAt acc l ->
                                    y ∈ l \/ y ∈ acc).
        { induction l as [|z l IHl]; intros acc; cbn; [auto|].
          rewrite insertByCreatedAt_elem, elem_of_cons.
          intros [->|Hin]; [auto|]. destruct (IHl acc Hin); auto. }
        destruct (Hel _ _ Hy) as [Hin|Hin]; [exact Hin|].
        apply list_elem_of_singleton in Hin. subst y. congruence. }
      rewrite List.Forall_forall in Hx. apply Hx, list_elem_of_In. exact Hyin.
Qed.

End HooksProperties.

Section HooksInstances.

Import Example Client Hooks Conversation.

Lemma held_uniqueIds : uniqueIds held.
Proof.
  unfold uniqueIds. cbn. apply NoDup_cons. split.
  - rewrite elem_of_cons, elem_of_nil. intros [Heq|[]].
    vm_compute in Heq. discriminate.
  - apply NoDup_singleton.
Qed.

Lemma held_ascending : ascending held.
Proof.
  unfold ascending, held. repeat constructor. cbn. lia.
Qed.

Lemma X28_witness :
  mergeFetched (Some 10) olderPage held
  = [uiMessage user1 5 "earlier"; uiMessage message1 10 "first";
     uiMessage user2 20 "second"]
  /\ uiMessage message1 10 "first" ∈ mergeFetched (Some 10) olderPage held.
Proof.
  split; [vm_compute; reflexivity|].
  destruct (X28_fetched_messages_unique_and_sorted (Some 10) olderPage held)
    as (_ & _ & _ & Hkept & _).
  apply (Hkept eq_refl held_uniqueIds).
  apply elem_of_cons. left. reflexivity.
Defined.

Lemma X29_witness :
  addMessage (uiMessage message1 30 "edited") held
  = [uiMessage user2 20 "second"; uiMessage message1 30 "edited"]
  /\ uniqueIds (addMessage (uiMessage message1 30 "edited") held).
Proof.
  split; [vm_compute; reflexivity|].
  exact (proj1 (proj2
    (X29_addMessage_adds_or_replaces (uiMessage message1 30 "edited") held
       held_uniqueIds))).
Defined.

Lemma X30_witness :
  removeMessage user1 (addMessage (uiMessage user1 15 "between") held) = held.
Proof.
  destruct (X30_removeMessage_undoes_addMessage user1 held)
    as (_ & _ & _ & Hundo).
  apply Hundo; [reflexivity| |exact held_ascending].
  cbn. rewrite !elem_of_cons, elem_of_nil.
  intros [Heq|[Heq|[]]]; vm_compute in Heq; discriminate.
Defined.

End HooksInstances.
